(** * Neural-Flow: the Pulse orchestration core

    A shallow embedding of the scheduler engine ([services/pulse/main.py]),
    the configuration helpers ([libs/neural_flow/config.py]) and the trace
    context ([libs/neural_flow/observability.py]), with the properties the
    design document states about them.

    Conventions.
    - A Python [str] is the list of its Unicode code points ([list N]);
      [py "..."] writes an ASCII literal.
    - A call that may raise returns a [result]; code that also mutates
      state returns the state reached together with the [result], so the
      state left behind by a raising call is visible.
    - Dictionaries are [gmap]s when only membership matters and association
      lists when the iteration order is observable. *)

From Stdlib Require Import ZArith NArith Ascii String List.
From Stdlib.Strings Require Import Byte.
From stdpp Require Import base tactics option list gmap fin_maps relations sorting.
Import ListNotations.

Local Open Scope Z_scope.
Local Open Scope list_scope.

(** ** Python strings *)

Abbreviation str := (list N).

Definition py (s : string) : str :=
  map N_of_ascii (list_ascii_of_string s).

Definition str_eqb (a b : str) : bool := bool_decide (a = b).

(** [str.isspace]: the code points [str.strip()] removes. *)
Definition is_space (c : N) : bool :=
  ((9 <=? c) && (c <=? 13) || (28 <=? c) && (c <=? 32)
   || (c =? 133) || (c =? 160) || (c =? 5760)
   || (8192 <=? c) && (c <=? 8202)
   || (c =? 8232) || (c =? 8233) || (c =? 8239) || (c =? 8287)
   || (c =? 12288))%N.

Fixpoint lstrip (s : str) : str :=
  match s with
  | c :: s' => if is_space c then lstrip s' else s
  | [] => []
  end.

Definition rstrip (s : str) : str := rev (lstrip (rev s)).

Definition strip (s : str) : str := rstrip (lstrip s).

(** [str.lower()], as CPython computes it from the Unicode character
    database (version 14.0).  [lower_runs] is the simple lower-case
    mapping: an entry [(lo, hi, step, lo')] maps the code points [lo],
    [lo + step], ..., [hi] to [lo'], [lo' + step], ...; a code point in
    no entry is its own lower case. *)
Definition lower_runs : list (N * N * N * N) :=
  [
    (65, 90, 1, 97); (192, 214, 1, 224); (216, 222, 1, 248);
    (256, 302, 2, 257); (306, 310, 2, 307); (313, 327, 2, 314);
    (330, 374, 2, 331); (376, 376, 1, 255); (377, 381, 2, 378);
    (385, 385, 1, 595); (386, 388, 2, 387); (390, 390, 1, 596);
    (391, 391, 1, 392); (393, 394, 1, 598); (395, 395, 1, 396);
    (398, 398, 1, 477); (399, 399, 1, 601); (400, 400, 1, 603);
    (401, 401, 1, 402); (403, 403, 1, 608); (404, 404, 1, 611);
    (406, 406, 1, 617); (407, 407, 1, 616); (408, 408, 1, 409);
    (412, 412, 1, 623); (413, 413, 1, 626); (415, 415, 1, 629);
    (416, 420, 2, 417); (422, 422, 1, 640); (423, 423, 1, 424);
    (425, 425, 1, 643); (428, 428, 1, 429); (430, 430, 1, 648);
    (431, 431, 1, 432); (433, 434, 1, 650); (435, 437, 2, 436);
    (439, 439, 1, 658); (440, 440, 1, 441); (444, 444, 1, 445);
    (452, 452, 1, 454); (453, 453, 1, 454); (455, 455, 1, 457);
    (456, 456, 1, 457); (458, 458, 1, 460); (459, 475, 2, 460);
    (478, 494, 2, 479); (497, 497, 1, 499); (498, 500, 2, 499);
    (502, 502, 1, 405); (503, 503, 1, 447); (504, 542, 2, 505);
    (544, 544, 1, 414); (546, 562, 2, 547); (570, 570, 1, 11365);
    (571, 571, 1, 572); (573, 573, 1, 410); (574, 574, 1, 11366);
    (577, 577, 1, 578); (579, 579, 1, 384); (580, 580, 1, 649);
    (581, 581, 1, 652); (582, 590, 2, 583); (880, 882, 2, 881);
    (886, 886, 1, 887); (895, 895, 1, 1011); (902, 902, 1, 940);
    (904, 906, 1, 941); (908, 908, 1, 972); (910, 911, 1, 973);
    (913, 929, 1, 945); (932, 939, 1, 964); (975, 975, 1, 983);
    (984, 1006, 2, 985); (1012, 1012, 1, 952); (1015, 1015, 1, 1016);
    (1017, 1017, 1, 1010); (1018, 1018, 1, 1019); (1021, 1023, 1, 891);
    (1024, 1039, 1, 1104); (1040, 1071, 1, 1072); (1120, 1152, 2, 1121);
    (1162, 1214, 2, 1163); (1216, 1216, 1, 1231); (1217, 1229, 2, 1218);
    (1232, 1326, 2, 1233); (1329, 1366, 1, 1377); (4256, 4293, 1, 11520);
    (4295, 4295, 1, 11559); (4301, 4301, 1, 11565); (5024, 5103, 1, 43888);
    (5104, 5109, 1, 5112); (7312, 7354, 1, 4304); (7357, 7359, 1, 4349);
    (7680, 7828, 2, 7681); (7838, 7838, 1, 223); (7840, 7934, 2, 7841);
    (7944, 7951, 1, 7936); (7960, 7965, 1, 7952); (7976, 7983, 1, 7968);
    (7992, 7999, 1, 7984); (8008, 8013, 1, 8000); (8025, 8031, 2, 8017);
    (8040, 8047, 1, 8032); (8072, 8079, 1, 8064); (8088, 8095, 1, 8080);
    (8104, 8111, 1, 8096); (8120, 8121, 1, 8112); (8122, 8123, 1, 8048);
    (8124, 8124, 1, 8115); (8136, 8139, 1, 8050); (8140, 8140, 1, 8131);
    (8152, 8153, 1, 8144); (8154, 8155, 1, 8054); (8168, 8169, 1, 8160);
    (8170, 8171, 1, 8058); (8172, 8172, 1, 8165); (8184, 8185, 1, 8056);
    (8186, 8187, 1, 8060); (8188, 8188, 1, 8179); (8486, 8486, 1, 969);
    (8490, 8490, 1, 107); (8491, 8491, 1, 229); (8498, 8498, 1, 8526);
    (8544, 8559, 1, 8560); (8579, 8579, 1, 8580); (9398, 9423, 1, 9424);
    (11264, 11311, 1, 11312); (11360, 11360, 1, 11361);
    (11362, 11362, 1, 619); (11363, 11363, 1, 7549); (11364, 11364, 1, 637);
    (11367, 11371, 2, 11368); (11373, 11373, 1, 593); (11374, 11374, 1, 625);
    (11375, 11375, 1, 592); (11376, 11376, 1, 594); (11378, 11378, 1, 11379);
    (11381, 11381, 1, 11382); (11390, 11391, 1, 575);
    (11392, 11490, 2, 11393); (11499, 11501, 2, 11500);
    (11506, 11506, 1, 11507); (42560, 42604, 2, 42561);
    (42624, 42650, 2, 42625); (42786, 42798, 2, 42787);
    (42802, 42862, 2, 42803); (42873, 42875, 2, 42874);
    (42877, 42877, 1, 7545); (42878, 42886, 2, 42879);
    (42891, 42891, 1, 42892); (42893, 42893, 1, 613);
    (42896, 42898, 2, 42897); (42902, 42920, 2, 42903);
    (42922, 42922, 1, 614); (42923, 42923, 1, 604); (42924, 42924, 1, 609);
    (42925, 42925, 1, 620); (42926, 42926, 1, 618); (42928, 42928, 1, 670);
    (42929, 42929, 1, 647); (42930, 42930, 1, 669); (42931, 42931, 1, 43859);
    (42932, 42946, 2, 42933); (42948, 42948, 1, 42900);
    (42949, 42949, 1, 642); (42950, 42950, 1, 7566);
    (42951, 42953, 2, 42952); (42960, 42960, 1, 42961);
    (42966, 42968, 2, 42967); (42997, 42997, 1, 42998);
    (65313, 65338, 1, 65345); (66560, 66599, 1, 66600);
    (66736, 66771, 1, 66776); (66928, 66938, 1, 66967);
    (66940, 66954, 1, 66979); (66956, 66962, 1, 66995);
    (66964, 66965, 1, 67003); (68736, 68786, 1, 68800);
    (71840, 71871, 1, 71872); (93760, 93791, 1, 93792);
    (125184, 125217, 1, 125218)
  ]%N.

Fixpoint lower_in (runs : list (N * N * N * N)) (c : N) : option N :=
  match runs with
  | (lo, hi, step, lo') :: rest =>
      if ((lo <=? c) && (c <=? hi) && ((c - lo) mod step =? 0))%N
      then Some (lo' + (c - lo))%N
      else lower_in rest c
  | [] => None
  end.

(** The lower case of one code point other than the capital sigma,
    whose lower case depends on its context.  U+0130 is the one code
    point whose lower case is two code points long. *)
Definition lower_char (c : N) : str :=
  if (c =? 304)%N then [105; 775]%N
  else match lower_in lower_runs c with
       | Some l => [l]
       | None => [c]
       end.

(** The cased code points (derived property Cased). *)
Definition cased_ranges : list (N * N) :=
  [
   (65, 90); (97, 122); (170, 170); (181, 181); (186, 186); (192, 214);
    (216, 246); (248, 442); (444, 447); (452, 659); (661, 696); (704, 705);
    (736, 740); (837, 837); (880, 883); (886, 887); (890, 893); (895, 895);
    (902, 902); (904, 906); (908, 908); (910, 929); (931, 1013);
    (1015, 1153); (1162, 1327); (1329, 1366); (1376, 1416); (4256, 4293);
    (4295, 4295); (4301, 4301); (4304, 4346); (4349, 4351); (5024, 5109);
    (5112, 5117); (7296, 7304); (7312, 7354); (7357, 7359); (7424, 7615);
    (7680, 7957); (7960, 7965); (7968, 8005); (8008, 8013); (8016, 8023);
    (8025, 8025); (8027, 8027); (8029, 8029); (8031, 8061); (8064, 8116);
    (8118, 8124); (8126, 8126); (8130, 8132); (8134, 8140); (8144, 8147);
    (8150, 8155); (8160, 8172); (8178, 8180); (8182, 8188); (8305, 8305);
    (8319, 8319); (8336, 8348); (8450, 8450); (8455, 8455); (8458, 8467);
    (8469, 8469); (8473, 8477); (8484, 8484); (8486, 8486); (8488, 8488);
    (8490, 8493); (8495, 8500); (8505, 8505); (8508, 8511); (8517, 8521);
    (8526, 8526); (8544, 8575); (8579, 8580); (9398, 9449); (11264, 11492);
    (11499, 11502); (11506, 11507); (11520, 11557); (11559, 11559);
    (11565, 11565); (42560, 42605); (42624, 42653); (42786, 42887);
    (42891, 42894); (42896, 42954); (42960, 42961); (42963, 42963);
    (42965, 42969); (42997, 42998); (43000, 43002); (43824, 43866);
    (43868, 43880); (43888, 43967); (64256, 64262); (64275, 64279);
    (65313, 65338); (65345, 65370); (66560, 66639); (66736, 66771);
    (66776, 66811); (66928, 66938); (66940, 66954); (66956, 66962);
    (66964, 66965); (66967, 66977); (66979, 66993); (66995, 67001);
    (67003, 67004); (67456, 67456); (67459, 67461); (67463, 67504);
    (67506, 67514); (68736, 68786); (68800, 68850); (71840, 71903);
    (93760, 93823); (119808, 119892); (119894, 119964); (119966, 119967);
    (119970, 119970); (119973, 119974); (119977, 119980); (119982, 119993);
    (119995, 119995); (119997, 120003); (120005, 120069); (120071, 120074);
    (120077, 120084); (120086, 120092); (120094, 120121); (120123, 120126);
    (120128, 120132); (120134, 120134); (120138, 120144); (120146, 120485);
    (120488, 120512); (120514, 120538); (120540, 120570); (120572, 120596);
    (120598, 120628); (120630, 120654); (120656, 120686); (120688, 120712);
    (120714, 120744); (120746, 120770); (120772, 120779); (122624, 122633);
    (122635, 122654); (125184, 125251); (127280, 127305); (127312, 127337);
    (127344, 127369)
  ]%N.

(** The code points a casing context looks through (derived property
    Case_Ignorable). *)
Definition case_ignorable_ranges : list (N * N) :=
  [
   (39, 39); (46, 46); (58, 58); (94, 94); (96, 96); (168, 168); (173, 173);
    (175, 175); (180, 180); (183, 184); (688, 879); (884, 885); (890, 890);
    (900, 901); (903, 903); (1155, 1161); (1369, 1369); (1375, 1375);
    (1425, 1469); (1471, 1471); (1473, 1474); (1476, 1477); (1479, 1479);
    (1524, 1524); (1536, 1541); (1552, 1562); (1564, 1564); (1600, 1600);
    (1611, 1631); (1648, 1648); (1750, 1757); (1759, 1768); (1770, 1773);
    (1807, 1807); (1809, 1809); (1840, 1866); (1958, 1968); (2027, 2037);
    (2042, 2042); (2045, 2045); (2070, 2093); (2137, 2139); (2184, 2184);
    (2192, 2193); (2200, 2207); (2249, 2306); (2362, 2362); (2364, 2364);
    (2369, 2376); (2381, 2381); (2385, 2391); (2402, 2403); (2417, 2417);
    (2433, 2433); (2492, 2492); (2497, 2500); (2509, 2509); (2530, 2531);
    (2558, 2558); (2561, 2562); (2620, 2620); (2625, 2626); (2631, 2632);
    (2635, 2637); (2641, 2641); (2672, 2673); (2677, 2677); (2689, 2690);
    (2748, 2748); (2753, 2757); (2759, 2760); (2765, 2765); (2786, 2787);
    (2810, 2815); (2817, 2817); (2876, 2876); (2879, 2879); (2881, 2884);
    (2893, 2893); (2901, 2902); (2914, 2915); (2946, 2946); (3008, 3008);
    (3021, 3021); (3072, 3072); (3076, 3076); (3132, 3132); (3134, 3136);
    (3142, 3144); (3146, 3149); (3157, 3158); (3170, 3171); (3201, 3201);
    (3260, 3260); (3263, 3263); (3270, 3270); (3276, 3277); (3298, 3299);
    (3328, 3329); (3387, 3388); (3393, 3396); (3405, 3405); (3426, 3427);
    (3457, 3457); (3530, 3530); (3538, 3540); (3542, 3542); (3633, 3633);
    (3636, 3642); (3654, 3662); (3761, 3761); (3764, 3772); (3782, 3782);
    (3784, 3789); (3864, 3865); (3893, 3893); (3895, 3895); (3897, 3897);
    (3953, 3966); (3968, 3972); (3974, 3975); (3981, 3991); (3993, 4028);
    (4038, 4038); (4141, 4144); (4146, 4151); (4153, 4154); (4157, 4158);
    (4184, 4185); (4190, 4192); (4209, 4212); (4226, 4226); (4229, 4230);
    (4237, 4237); (4253, 4253); (4348, 4348); (4957, 4959); (5906, 5908);
    (5938, 5939); (5970, 5971); (6002, 6003); (6068, 6069); (6071, 6077);
    (6086, 6086); (6089, 6099); (6103, 6103); (6109, 6109); (6155, 6159);
    (6211, 6211); (6277, 6278); (6313, 6313); (6432, 6434); (6439, 6440);
    (6450, 6450); (6457, 6459); (6679, 6680); (6683, 6683); (6742, 6742);
    (6744, 6750); (6752, 6752); (6754, 6754); (6757, 6764); (6771, 6780);
    (6783, 6783); (6823, 6823); (6832, 6862); (6912, 6915); (6964, 6964);
    (6966, 6970); (6972, 6972); (6978, 6978); (7019, 7027); (7040, 7041);
    (7074, 7077); (7080, 7081); (7083, 7085); (7142, 7142); (7144, 7145);
    (7149, 7149); (7151, 7153); (7212, 7219); (7222, 7223); (7288, 7293);
    (7376, 7378); (7380, 7392); (7394, 7400); (7405, 7405); (7412, 7412);
    (7416, 7417); (7468, 7530); (7544, 7544); (7579, 7679); (8125, 8125);
    (8127, 8129); (8141, 8143); (8157, 8159); (8173, 8175); (8189, 8190);
    (8203, 8207); (8216, 8217); (8228, 8228); (8231, 8231); (8234, 8238);
    (8288, 8292); (8294, 8303); (8305, 8305); (8319, 8319); (8336, 8348);
    (8400, 8432); (11388, 11389); (11503, 11505); (11631, 11631);
    (11647, 11647); (11744, 11775); (11823, 11823); (12293, 12293);
    (12330, 12333); (12337, 12341); (12347, 12347); (12441, 12446);
    (12540, 12542); (40981, 40981); (42232, 42237); (42508, 42508);
    (42607, 42610); (42612, 42621); (42623, 42623); (42652, 42655);
    (42736, 42737); (42752, 42785); (42864, 42864); (42888, 42890);
    (42994, 42996); (43000, 43001); (43010, 43010); (43014, 43014);
    (43019, 43019); (43045, 43046); (43052, 43052); (43204, 43205);
    (43232, 43249); (43263, 43263); (43302, 43309); (43335, 43345);
    (43392, 43394); (43443, 43443); (43446, 43449); (43452, 43453);
    (43471, 43471); (43493, 43494); (43561, 43566); (43569, 43570);
    (43573, 43574); (43587, 43587); (43596, 43596); (43632, 43632);
    (43644, 43644); (43696, 43696); (43698, 43700); (43703, 43704);
    (43710, 43711); (43713, 43713); (43741, 43741); (43756, 43757);
    (43763, 43764); (43766, 43766); (43867, 43871); (43881, 43883);
    (44005, 44005); (44008, 44008); (44013, 44013); (64286, 64286);
    (64434, 64450); (65024, 65039); (65043, 65043); (65056, 65071);
    (65106, 65106); (65109, 65109); (65279, 65279); (65287, 65287);
    (65294, 65294); (65306, 65306); (65342, 65342); (65344, 65344);
    (65392, 65392); (65438, 65439); (65507, 65507); (65529, 65531);
    (66045, 66045); (66272, 66272); (66422, 66426); (67456, 67461);
    (67463, 67504); (67506, 67514); (68097, 68099); (68101, 68102);
    (68108, 68111); (68152, 68154); (68159, 68159); (68325, 68326);
    (68900, 68903); (69291, 69292); (69446, 69456); (69506, 69509);
    (69633, 69633); (69688, 69702); (69744, 69744); (69747, 69748);
    (69759, 69761); (69811, 69814); (69817, 69818); (69821, 69821);
    (69826, 69826); (69837, 69837); (69888, 69890); (69927, 69931);
    (69933, 69940); (70003, 70003); (70016, 70017); (70070, 70078);
    (70089, 70092); (70095, 70095); (70191, 70193); (70196, 70196);
    (70198, 70199); (70206, 70206); (70367, 70367); (70371, 70378);
    (70400, 70401); (70459, 70460); (70464, 70464); (70502, 70508);
    (70512, 70516); (70712, 70719); (70722, 70724); (70726, 70726);
    (70750, 70750); (70835, 70840); (70842, 70842); (70847, 70848);
    (70850, 70851); (71090, 71093); (71100, 71101); (71103, 71104);
    (71132, 71133); (71219, 71226); (71229, 71229); (71231, 71232);
    (71339, 71339); (71341, 71341); (71344, 71349); (71351, 71351);
    (71453, 71455); (71458, 71461); (71463, 71467); (71727, 71735);
    (71737, 71738); (71995, 71996); (71998, 71998); (72003, 72003);
    (72148, 72151); (72154, 72155); (72160, 72160); (72193, 72202);
    (72243, 72248); (72251, 72254); (72263, 72263); (72273, 72278);
    (72281, 72283); (72330, 72342); (72344, 72345); (72752, 72758);
    (72760, 72765); (72767, 72767); (72850, 72871); (72874, 72880);
    (72882, 72883); (72885, 72886); (73009, 73014); (73018, 73018);
    (73020, 73021); (73023, 73029); (73031, 73031); (73104, 73105);
    (73109, 73109); (73111, 73111); (73459, 73460); (78896, 78904);
    (92912, 92916); (92976, 92982); (92992, 92995); (94031, 94031);
    (94095, 94111); (94176, 94177); (94179, 94180); (110576, 110579);
    (110581, 110587); (110589, 110590); (113821, 113822); (113824, 113827);
    (118528, 118573); (118576, 118598); (119143, 119145); (119155, 119170);
    (119173, 119179); (119210, 119213); (119362, 119364); (121344, 121398);
    (121403, 121452); (121461, 121461); (121476, 121476); (121499, 121503);
    (121505, 121519); (122880, 122886); (122888, 122904); (122907, 122913);
    (122915, 122916); (122918, 122922); (123184, 123197); (123566, 123566);
    (123628, 123631); (125136, 125142); (125252, 125259); (127995, 127999);
    (917505, 917505); (917536, 917631); (917760, 917999)
  ]%N.

Definition in_ranges (ranges : list (N * N)) (c : N) : bool :=
  existsb (fun r => ((fst r <=? c) && (c <=? snd r))%N) ranges.

Definition is_cased (c : N) : bool := in_ranges cased_ranges c.

Definition is_case_ignorable (c : N) : bool :=
  in_ranges case_ignorable_ranges c.

Fixpoint skip_case_ignorable (s : str) : str :=
  match s with
  | c :: s' => if is_case_ignorable c then skip_case_ignorable s' else s
  | [] => []
  end.

(** The one mapping that depends on the context: a capital sigma
    (U+03A3) becomes a final sigma (U+03C2) when, case-ignorable
    characters apart, a cased character comes before it and none comes
    after it, and a small sigma (U+03C3) otherwise.  [before] is the
    text before the sigma, nearest character first. *)
Definition final_sigma (before after : str) : bool :=
  match skip_case_ignorable before with
  | c :: _ =>
      is_cased c
      && match skip_case_ignorable after with
         | d :: _ => negb (is_cased d)
         | [] => true
         end
  | [] => false
  end.

Fixpoint lower_from (before s : str) : str :=
  match s with
  | c :: s' =>
      (if (c =? 931)%N
       then [if final_sigma before s' then 962%N else 963%N]
       else lower_char c)
      ++ lower_from (c :: before) s'
  | [] => []
  end.

Definition lower (s : str) : str := lower_from [] s.

(** The zero digits of the Unicode decimal-digit blocks (category Nd,
    Unicode 14): each block is ten consecutive code points.  The regular
    expression class [\d] and [int()] both recognise exactly these. *)
Definition decimal_zeros : list N :=
  [48; 1632; 1776; 1984; 2406; 2534; 2662; 2790; 2918; 3046; 3174; 3302;
   3430; 3558; 3664; 3792; 3872; 4160; 4240; 6112; 6160; 6470; 6608; 6784;
   6800; 6992; 7088; 7232; 7248; 42528; 43216; 43264; 43472; 43504; 43600;
   44016; 65296; 66720; 68912; 69734; 69872; 69942; 70096; 70384; 70736;
   70864; 71248; 71360; 71472; 71904; 72016; 72784; 73040; 73120; 92768;
   92864; 93008; 120782; 120792; 120802; 120812; 120822; 123200; 123632;
   125264; 130032]%N.

Fixpoint decimal_in (zeros : list N) (c : N) : option N :=
  match zeros with
  | z :: zs => if ((z <=? c) && (c <? z + 10))%N then Some (c - z)%N
               else decimal_in zs c
  | [] => None
  end.

(** The decimal value of a digit character, if it is one. *)
Definition decimal (c : N) : option N := decimal_in decimal_zeros c.

Definition is_decimal (c : N) : bool :=
  match decimal c with Some _ => true | None => false end.

(** [s.startswith(prefix)] *)
Fixpoint startswith (prefix s : str) : bool :=
  match prefix, s with
  | [], _ => true
  | p :: prefix', c :: s' => (p =? c)%N && startswith prefix' s'
  | _ :: _, [] => false
  end.

(** [sub in s] *)
Fixpoint contains (sub s : str) : bool :=
  startswith sub s
  || match s with
     | [] => false
     | _ :: s' => contains sub s'
     end.

(** [s.replace(old, new)] for a non-empty [old]: occurrences are replaced
    from left to right without overlap; [skip] counts the characters of
    an occurrence still to be passed over. *)
Fixpoint replace_from (old new : str) (skip : nat) (s : str) : str :=
  match s with
  | [] => []
  | c :: s' =>
      match skip with
      | S skip' => replace_from old new skip' s'
      | O =>
          if startswith old s
          then new ++ replace_from old new (length old - 1) s'
          else c :: replace_from old new 0 s'
      end
  end.

Definition replace (old new s : str) : str := replace_from old new 0 s.

(** [s.split(sep)] for a one-character separator. *)
Fixpoint split (sep : N) (s : str) : list str :=
  match s with
  | [] => [[]]
  | c :: s' =>
      match split sep s' with
      | part :: parts =>
          if (c =? sep)%N then [] :: part :: parts else (c :: part) :: parts
      | [] => [[c]]
      end
  end.

(** The white space [int()] skips around a number: the ASCII one of C,
    and every non-ASCII space character. *)
Definition is_int_space (c : N) : bool :=
  ((9 <=? c) && (c <=? 13) || (c =? 32) || (127 <=? c) && is_space c)%N.

Fixpoint int_lstrip (s : str) : str :=
  match s with
  | c :: s' => if is_int_space c then int_lstrip s' else s
  | [] => []
  end.

(** Digits with single underscores between them; [after_digit] tells
    whether the previous character was a digit. *)
Fixpoint int_digits (acc : Z) (after_digit : bool) (s : str) : option Z :=
  match s with
  | [] => if after_digit then Some acc else None
  | c :: s' =>
      match decimal c with
      | Some d => int_digits (acc * 10 + Z.of_N d) true s'
      | None =>
          if (c =? 95)%N && after_digit then int_digits acc false s'
          else None
      end
  end.

(** [sys.get_int_max_str_digits()] at its default: [int()] refuses a
    decimal literal of more digits with a [ValueError]. *)
Definition int_max_str_digits : Z := 4300.

(** The digits of a literal: its sign, its underscores and the white
    space around it do not count. *)
Definition count_digits (text : str) : Z :=
  Z.of_nat (length (List.filter is_decimal text)).

(** [int(text)] for a string argument, base 10; [None] when it raises
    [ValueError]. *)
Definition py_int (text : str) : option Z :=
  if int_max_str_digits <? count_digits text then None
  else
    match rev (int_lstrip (rev (int_lstrip text))) with
    | 43%N :: digits => int_digits 0 false digits
    | 45%N :: digits => Z.opp <$> int_digits 0 false digits
    | digits => int_digits 0 false digits
    end.

(** ** Exceptions *)

Inductive exn_kind : Set :=
| ValueError | OSError | ConfigParseError | ZoneInfoNotFoundError
| HTTPError | RuntimeError | OverflowError.

(** What [str(exc)] gives.  A text the program formats itself, or one a
    scenario gives to an error of the outside world, is spelled out; the
    text of an error raised inside a library call is named by the call
    and its argument, which determine it. *)
Inductive Message : Type :=
| Text (text : str)
| IntValueError (literal : str)
    (* [int(literal)] *)
| CronFieldValueError (field : str) (value : Z)
    (* [CronTrigger(field=value)] *)
| IntervalOverflowError (seconds : Z).
    (* [IntervalTrigger(seconds=seconds)] *)

Record Exn : Type :=
  Exception { exn_kind_of : exn_kind; exn_message : Message }.

Inductive result (A : Type) : Type :=
| Ok (a : A)
| Raise (e : Exn).
Arguments Ok {A} a.
Arguments Raise {A} e.

Definition is_ok {A} (r : result A) : bool :=
  match r with Ok _ => true | Raise _ => false end.

Definition result_bind {A B} (r : result A) (k : A -> result B) : result B :=
  match r with Ok a => k a | Raise e => Raise e end.

Notation "x <-? r ; k" := (result_bind r (fun x => k))
  (at level 100, r at next level, right associativity).

(** ** SHA-256 ([hashlib.sha256], FIPS 180-4)

    Words are integers in [[0, 2^32)]. *)

Module Hashlib.

Definition add32 (x y : Z) : Z := (x + y) mod 2 ^ 32.

Definition rotr (n x : Z) : Z :=
  Z.lor (Z.shiftr x n) (Z.shiftl x (32 - n) mod 2 ^ 32).

Definition not32 (x : Z) : Z := Z.lxor x (2 ^ 32 - 1).

Definition Ch (x y z : Z) : Z :=
  Z.lxor (Z.land x y) (Z.land (not32 x) z).

Definition Maj (x y z : Z) : Z :=
  Z.lxor (Z.lxor (Z.land x y) (Z.land x z)) (Z.land y z).

Definition Sigma0 (x : Z) : Z :=
  Z.lxor (Z.lxor (rotr 2 x) (rotr 13 x)) (rotr 22 x).

Definition Sigma1 (x : Z) : Z :=
  Z.lxor (Z.lxor (rotr 6 x) (rotr 11 x)) (rotr 25 x).

Definition sigma0 (x : Z) : Z :=
  Z.lxor (Z.lxor (rotr 7 x) (rotr 18 x)) (Z.shiftr x 3).

Definition sigma1 (x : Z) : Z :=
  Z.lxor (Z.lxor (rotr 17 x) (rotr 19 x)) (Z.shiftr x 10).

(** Round constants: the fractional parts of the cube roots of the first
    sixty-four primes, 32 bits each. *)
Definition K256 : list Z :=
  [1116352408; 1899447441; 3049323471; 3921009573; 961987163; 1508970993;
   2453635748; 2870763221; 3624381080; 310598401; 607225278; 1426881987;
   1925078388; 2162078206; 2614888103; 3248222580; 3835390401;
   4022224774; 264347078; 604807628; 770255983; 1249150122; 1555081692;
   1996064986; 2554220882; 2821834349; 2952996808; 3210313671;
   3336571891; 3584528711; 113926993; 338241895; 666307205; 773529912;
   1294757372; 1396182291; 1695183700; 1986661051; 2177026350;
   2456956037; 2730485921; 2820302411; 3259730800; 3345764771;
   3516065817; 3600352804; 4094571909; 275423344; 430227734; 506948616;
   659060556; 883997877; 958139571; 1322822218; 1537002063; 1747873779;
   1955562222; 2024104815; 2227730452; 2361852424; 2428436474;
   2756734187; 3204031479; 3329325298].

(** Initial hash value: from the square roots of the first eight primes. *)
Definition H256 : list Z :=
  [1779033703; 3144134277; 1013904242; 2773480762;
   1359893119; 2600822924; 528734635; 1541459225].

Definition byte_val (b : byte) : Z := Z.of_N (Byte.to_N b).

(** The big-endian bytes of [n], [len] of them. *)
Fixpoint be_bytes (len : nat) (n : Z) : list Z :=
  match len with
  | O => []
  | S len' => (n / 256 ^ Z.of_nat len') mod 256 :: be_bytes len' n
  end.

(** Padding: a one bit, zeros up to 56 mod 64, the bit length on 8 bytes. *)
Definition pad (msg : list byte) : list Z :=
  let len := Z.of_nat (length msg) in
  map byte_val msg ++ [128]
    ++ repeat 0 (Z.to_nat ((55 - len) mod 64))
    ++ be_bytes 8 (8 * len).

Fixpoint be_words (fuel : nat) (bytes : list Z) : list Z :=
  match fuel, bytes with
  | S fuel', b0 :: b1 :: b2 :: b3 :: rest =>
      (((b0 * 256 + b1) * 256 + b2) * 256 + b3) :: be_words fuel' rest
  | _, _ => []
  end.

Fixpoint blocks (fuel : nat) (words : list Z) : list (list Z) :=
  match fuel, words with
  | O, _ | _, [] => []
  | S fuel', _ => firstn 16 words :: blocks fuel' (skipn 16 words)
  end.

(** The message schedule, extended from 16 words by [n] more. *)
Fixpoint schedule (n : nat) (w : list Z) : list Z :=
  match n with
  | O => w
  | S n' =>
      let t := length w in
      let at_ k := nth (t - k) w 0 in
      schedule n'
        (w ++ [add32 (add32 (sigma1 (at_ 2%nat)) (at_ 7%nat))
                     (add32 (sigma0 (at_ 15%nat)) (at_ 16%nat))])
  end.

Record Regs : Type := {
  ra : Z; rb : Z; rc : Z; rd : Z; re : Z; rf : Z; rg : Z; rh : Z
}.

Definition round (r : Regs) (kw : Z * Z) : Regs :=
  let t1 := add32 (add32 (add32 (rh r) (Sigma1 (re r)))
                         (add32 (Ch (re r) (rf r) (rg r)) (fst kw)))
                  (snd kw) in
  let t2 := add32 (Sigma0 (ra r)) (Maj (ra r) (rb r) (rc r)) in
  {| ra := add32 t1 t2; rb := ra r; rc := rb r; rd := rc r;
     re := add32 (rd r) t1; rf := re r; rg := rf r; rh := rg r |}.

Definition regs_of (h : list Z) : Regs :=
  {| ra := nth 0 h 0; rb := nth 1 h 0; rc := nth 2 h 0; rd := nth 3 h 0;
     re := nth 4 h 0; rf := nth 5 h 0; rg := nth 6 h 0; rh := nth 7 h 0 |}.

Definition compress (h : list Z) (block : list Z) : list Z :=
  let r0 := regs_of h in
  let r := fold_left round (combine K256 (schedule 48 block)) r0 in
  [add32 (ra r0) (ra r); add32 (rb r0) (rb r); add32 (rc r0) (rc r);
   add32 (rd r0) (rd r); add32 (re r0) (re r); add32 (rf r0) (rf r);
   add32 (rg r0) (rg r); add32 (rh r0) (rh r)].

(** The digest as eight words. *)
Definition sha256 (msg : list byte) : list Z :=
  let bytes := pad msg in
  let words := be_words (length bytes) bytes in
  fold_left compress (blocks (length words) words) H256.

Definition hex_char (d : Z) : N :=
  Z.to_N (if d <? 10 then 48 + d else 87 + d).

(** The hexadecimal digits of [n], most significant first, [len] of them. *)
Fixpoint hex_digits (len : nat) (n : Z) : str :=
  match len with
  | O => []
  | S len' => hex_char ((n / 16 ^ Z.of_nat len') mod 16) :: hex_digits len' n
  end.

Definition hexdigest (words : list Z) : str :=
  flat_map (hex_digits 8) words.

End Hashlib.

(** ** Data model ([models.py]) *)

Module Models.

Record SourceConfig : Type := {
  id : str;
  type : str;
  url : str;
  fetch_interval : str;
  weight : Z;
  max_items : Z
}.

(** An item as the scan collaborator returns it, every field present
    (absent optional fields at their defaults), so that the [.get]
    defaults of the pipeline never apply. *)
Record NormalizedItem : Type := {
  item_source_id : str;
  url_hash : str;
  title : str;
  item_url : str;
  summary : str;
  raw_text : str;
  published_at : option str;
  images : list str;
  keywords : list str
}.

Record PlatformPolicy : Type := {
  enabled : bool;
  style_prompt : str;
  schedule : option str;
  max_posts_per_day : option Z;
  min_word_count : option Z
}.

Record VisualConfig : Type := { default_style : str; default_ratio : str }.

Record GlobalConfig : Type := {
  timezone : str;
  memory_retention_days : Z
}.

(** [platforms] is a Python dict; its iteration order (insertion order) is
    observable in the channel list and in the order jobs are installed, so
    it is kept as an association list. *)
Record RulesConfig : Type := {
  global_config : GlobalConfig;
  sources : list SourceConfig;
  platforms : list (str * PlatformPolicy);
  visual : VisualConfig
}.

(** A point in time, as [datetime.utcnow()] returns it. *)
Abbreviation datetime := Z.

Record PulseRunResult : Type := {
  source_id : str;
  scanned : Z;
  processed : Z;
  duplicated : Z;
  failed : Z;
  started_at : datetime;
  ended_at : datetime
}.

Record ArchiveResponse : Type := { feishu_doc_url : str; status : str }.

Record RememberRequest : Type := {
  rem_source_id : str;
  rem_url_hash : str;
  rem_title : str;
  rem_url : str;
  rem_summary : str;
  rem_keywords : list str;
  rem_raw_text : str;
  rem_archive_url : str;
  rem_image_url : str
}.

(** The [content_pack] dictionary [run_source] assembles, key by key. *)
Record ContentPack : Type := {
  record_type : str;
  pack_source_id : str;
  source_info : str;
  pack_url_hash : str;
  pack_title : str;
  source_url : str;
  topic_summary : str;
  ai_summary : str;
  image_url : str;
  image_urls : list str;
  channels : list str;
  pack_status : str;
  pack_trace_id : str
}.

(** JSON values of a dumped model ([model_dump(mode="json")]); a
    [JTime t] stands for the ISO-8601 string of [t]. *)
Inductive Json : Type :=
| JInt (n : Z)
| JStr (s : str)
| JTime (t : datetime).

End Models.

Import Models.

(** ** Process state and effects

    Everything the modelled code reads or writes besides its arguments:
    the engine object ([self]), the two context variables of the trace
    context, and the traffic with the outside world (requests sent, log
    records emitted, clock readings taken). *)

Module Runtime.

(** Bodies of the outbound requests of the Pulse service. *)
Inductive Request : Type :=
| ReqScan (source_config : SourceConfig)
| ReqCheckDuplicate (hash : str)
| ReqArchive (content_pack : ContentPack)
| ReqRemember (req : RememberRequest).

(** One HTTP request as it left the process: its headers and its body. *)
Record Sent : Type := { headers : list (str * str); request : Request }.

Inductive Event : Type :=
| HeartbeatStart (source : str)
| ItemProcessingFailed (source : str) (err : Exn)
| SourceRunFailed (source : str) (err : Exn)
| HeartbeatDone (source : str)
                (n_scanned n_processed n_dup n_filtered n_failed : Z)
| DetectedRulesChange
| WatchFailed (err : Exn)
| LoadedSourceJobs (n : Z)
| PulseStarted.

(** A log record, stamped by the context filter with the ids in force. *)
Record LogRecord : Type := {
  log_event : Event;
  log_trace_id : str;
  log_request_id : str
}.

Record ZoneInfo : Type := { zone_key : str }.

Inductive JobFunc : Type :=
| RunSource (source : SourceConfig)
| RunAllSources (platform : str)
| CleanupMemory
| WatchRules.

Inductive Trigger : Type :=
| IntervalTrigger (interval_seconds : Z) (tz : option ZoneInfo)
| CronTrigger (hour minute : Z) (tz : ZoneInfo).

(** A scheduled job; [None] for an option left to the scheduler's default. *)
Record Job : Type := {
  func : JobFunc;
  trigger : Trigger;
  max_instances : option Z;
  coalesce : option bool
}.

(** A dumped [PulseRunResult]: keys and values in field order. *)
Abbreviation Summary := (list (str * Json)).

Record State : Type := {
  (* PulseEngine *)
  rules : option RulesConfig;
  fingerprint : str;
  last_runs : gmap str Summary;
  jobs : gmap str Job;
  (* observability: a variable never set reads as its default, "" *)
  _TRACE_ID : option str;
  _REQUEST_ID : option str;
  (* the outside world *)
  sent : list Sent;
  logged : list LogRecord;
  clock_reads : nat
}.

Definition set_rules (v : option RulesConfig) (s : State) : State :=
  {| rules := v; fingerprint := fingerprint s; last_runs := last_runs s;
     jobs := jobs s; _TRACE_ID := _TRACE_ID s; _REQUEST_ID := _REQUEST_ID s;
     sent := sent s; logged := logged s; clock_reads := clock_reads s |}.

Definition set_fingerprint (v : str) (s : State) : State :=
  {| rules := rules s; fingerprint := v; last_runs := last_runs s;
     jobs := jobs s; _TRACE_ID := _TRACE_ID s; _REQUEST_ID := _REQUEST_ID s;
     sent := sent s; logged := logged s; clock_reads := clock_reads s |}.

Definition set_last_runs (v : gmap str Summary) (s : State) : State :=
  {| rules := rules s; fingerprint := fingerprint s; last_runs := v;
     jobs := jobs s; _TRACE_ID := _TRACE_ID s; _REQUEST_ID := _REQUEST_ID s;
     sent := sent s; logged := logged s; clock_reads := clock_reads s |}.

Definition set_jobs (v : gmap str Job) (s : State) : State :=
  {| rules := rules s; fingerprint := fingerprint s; last_runs := last_runs s;
     jobs := v; _TRACE_ID := _TRACE_ID s; _REQUEST_ID := _REQUEST_ID s;
     sent := sent s; logged := logged s; clock_reads := clock_reads s |}.

Definition set_TRACE_ID (v : option str) (s : State) : State :=
  {| rules := rules s; fingerprint := fingerprint s; last_runs := last_runs s;
     jobs := jobs s; _TRACE_ID := v; _REQUEST_ID := _REQUEST_ID s;
     sent := sent s; logged := logged s; clock_reads := clock_reads s |}.

Definition set_REQUEST_ID (v : option str) (s : State) : State :=
  {| rules := rules s; fingerprint := fingerprint s; last_runs := last_runs s;
     jobs := jobs s; _TRACE_ID := _TRACE_ID s; _REQUEST_ID := v;
     sent := sent s; logged := logged s; clock_reads := clock_reads s |}.

Definition set_sent (v : list Sent) (s : State) : State :=
  {| rules := rules s; fingerprint := fingerprint s; last_runs := last_runs s;
     jobs := jobs s; _TRACE_ID := _TRACE_ID s; _REQUEST_ID := _REQUEST_ID s;
     sent := v; logged := logged s; clock_reads := clock_reads s |}.

Definition set_logged (v : list LogRecord) (s : State) : State :=
  {| rules := rules s; fingerprint := fingerprint s; last_runs := last_runs s;
     jobs := jobs s; _TRACE_ID := _TRACE_ID s; _REQUEST_ID := _REQUEST_ID s;
     sent := sent s; logged := v; clock_reads := clock_reads s |}.

Definition set_clock_reads (v : nat) (s : State) : State :=
  {| rules := rules s; fingerprint := fingerprint s; last_runs := last_runs s;
     jobs := jobs s; _TRACE_ID := _TRACE_ID s; _REQUEST_ID := _REQUEST_ID s;
     sent := sent s; logged := logged s; clock_reads := v |}.

(** What the process cannot decide: file contents, the parsers and
    time-zone database of the libraries, the clock, and the collaborators'
    replies.  A collaborator sees the requests sent before the one it
    answers, so its replies may depend on them.  [horizon tz] is the
    number of whole seconds left, on the clock of time zone [tz], before
    the last instant a [datetime] can hold: an interval trigger starts
    one interval from now, and cannot be built when that is later. *)
Record Env : Type := {
  read_bytes : str -> result (list byte);
  parse_rules : list byte -> result RulesConfig;
  zone_info : str -> result ZoneInfo;
  clock : nat -> datetime;
  horizon : ZoneInfo -> Z;
  sentry_scan : list Sent -> SourceConfig -> result (list NormalizedItem);
  hippocampus_check_duplicate : list Sent -> str -> result bool;
  archivist_archive : list Sent -> ContentPack -> result ArchiveResponse;
  hippocampus_remember : list Sent -> RememberRequest -> result unit
}.

(** Stateful code that may raise. *)
Definition M (A : Type) : Type := State -> State * result A.

Definition ret {A} (a : A) : M A := fun s => (s, Ok a).

Definition raise {A} (e : Exn) : M A := fun s => (s, Raise e).

Definition bind {A B} (m : M A) (k : A -> M B) : M B :=
  fun s => match m s with
           | (s', Ok a) => k a s'
           | (s', Raise e) => (s', Raise e)
           end.

Definition lift {A} (r : result A) : M A := fun s => (s, r).

Definition get_state : M State := fun s => (s, Ok s).

Definition modify (f : State -> State) : M unit := fun s => (f s, Ok tt).

(** [try: body except Exception as e: handler(e)] *)
Definition try_except {A} (body : M A) (handler : Exn -> M A) : M A :=
  fun s => match body s with
           | (s', Raise e) => handler e s'
           | done => done
           end.

(** [try: body finally: cleanup], for a cleanup that does not raise. *)
Definition try_finally {A} (body : M A) (cleanup : State -> State) : M A :=
  fun s => let '(s', r) := body s in (cleanup s', r).

End Runtime.

Import Runtime.

Notation "x <- m ;; k" := (bind m (fun x => k))
  (at level 100, m at next level, right associativity).
Notation "m ;; k" := (bind m (fun _ => k))
  (at level 100, right associativity).

(** ** Trace context ([observability.py]) *)

Module Observability.

Definition TRACE_HEADER : str := py "x-trace-id".
Definition REQUEST_HEADER : str := py "x-request-id".

(** The characters [re.sub(r"[^a-zA-Z0-9_\-]", "", .)] keeps. *)
Definition is_id_char (c : N) : bool :=
  ((97 <=? c) && (c <=? 122) || (65 <=? c) && (c <=? 90)
   || (48 <=? c) && (c <=? 57) || (c =? 95) || (c =? 45))%N.

(** [value] is [None] for Python's [None]: [str(value or "")]. *)
Definition _normalize_id (value : option str) (fallback : str) : str :=
  let cleaned := List.filter is_id_char (default [] value) in
  match firstn 64 cleaned with
  | [] => fallback
  | kept => kept
  end.

Definition get_trace_id (s : State) : str := strip (default [] (_TRACE_ID s)).

Definition get_request_id (s : State) : str :=
  strip (default [] (_REQUEST_ID s)).

(** A [contextvars.Token]: the value the variable had before the [set]
    ([None] when it had none). *)
Abbreviation Token := (option str).

Definition bind_log_context {A}
    (trace_id request_id : option str) (body : M A) : M A :=
  fun s =>
    let token_trace : option Token :=
      match trace_id with Some _ => Some (_TRACE_ID s) | None => None end in
    let s1 :=
      match trace_id with
      | Some t => set_TRACE_ID (Some (_normalize_id (Some t) [])) s
      | None => s
      end in
    let token_request : option Token :=
      match request_id with Some _ => Some (_REQUEST_ID s1) | None => None end in
    let s2 :=
      match request_id with
      | Some r => set_REQUEST_ID (Some (_normalize_id (Some r) [])) s1
      | None => s1
      end in
    try_finally body
      (fun s3 =>
         let s4 := match token_trace with
                   | Some old => set_TRACE_ID old s3
                   | None => s3
                   end in
         match token_request with
         | Some old => set_REQUEST_ID old s4
         | None => s4
         end)
      s2.

Definition outbound_trace_headers (s : State) : list (str * str) :=
  let trace_id := get_trace_id s in
  let request_id := get_request_id s in
  (match trace_id with [] => [] | _ => [(TRACE_HEADER, trace_id)] end)
  ++ (match request_id with [] => [] | _ => [(REQUEST_HEADER, request_id)] end).

(** [logger.info/error]: the context filter stamps the record. *)
Definition log (ev : Event) : M unit :=
  modify (fun s =>
    set_logged (logged s ++ [{| log_event := ev;
                                log_trace_id := get_trace_id s;
                                log_request_id := get_request_id s |}]) s).

End Observability.

Import Observability.

(** ** Configuration loader, fingerprint and interval parser ([config.py]) *)

Module Config.

(** The value [int()] gives a non-empty run of at most
    [int_max_str_digits] decimal digits. *)
Definition int_of_digits (ds : str) : Z :=
  fold_left (fun acc c => acc * 10 + Z.of_N (default 0%N (decimal c))) ds 0.

(** The longest prefix of digits and what follows it. *)
Fixpoint span_digits (s : str) : str * str :=
  match s with
  | c :: s' =>
      if is_decimal c
      then let '(ds, rest) := span_digits s' in (c :: ds, rest)
      else ([], s)
  | [] => ([], [])
  end.

Definition char_m : N := 109%N.
Definition char_h : N := 104%N.
Definition newline : N := 10%N.

Definition is_unit (c : N) : bool := (c =? char_m)%N || (c =? char_h)%N.

(** [_INTERVAL_PATTERN.match]: [^(\d+)([mh])$].  Greedy [\d+] takes the
    whole run of digits (a shorter run would leave a digit where [[mh]] is
    required); [$] matches at the end or just before a final newline. *)
Definition match_interval (s : str) : option (str * N) :=
  match span_digits s with
  | ((_ :: _) as ds, [unit]) =>
      if is_unit unit then Some (ds, unit) else None
  | ((_ :: _) as ds, [unit; nl]) =>
      if is_unit unit && (nl =? newline)%N then Some (ds, unit) else None
  | _ => None
  end.

Definition interval_to_seconds (interval_text : str) : result Z :=
  match match_interval (lower (strip interval_text)) with
  | None =>
      Raise (Exception ValueError
               (Text (py "Unsupported interval format: " ++ interval_text)))
  | Some (digits, unit) =>
      if int_max_str_digits <? Z.of_nat (length digits)
      then Raise (Exception ValueError (IntValueError digits))
      else
        let value := int_of_digits digits in
        if (unit =? char_m)%N then Ok (value * 60) else Ok (value * 3600)
  end.

(** [Path(path).read_text] followed by [yaml.safe_load] and
    [RulesConfig.model_validate]; decoding, YAML and validation are the
    libraries' and are taken from the environment. *)
Definition load_rules (env : Env) (path : str) : result RulesConfig :=
  raw <-? read_bytes env path ; parse_rules env raw.

Definition rules_fingerprint (env : Env) (path : str) : result str :=
  raw <-? read_bytes env path ; Ok (Hashlib.hexdigest (Hashlib.sha256 raw)).

End Config.

Import Config.

(** ** Outbound calls ([http.py]) *)

Module Http.

(** A request with the trace headers in force. *)
Definition stamped (req : Request) (s : State) : Sent :=
  {| headers := outbound_trace_headers s; request := req |}.

(** One round trip: the request leaves with the trace headers in force,
    and the collaborator answers knowing what was sent before. *)
Definition attempt {A} (reply : list Sent -> result A) (req : Request) : M A :=
  fun s => (set_sent (sent s ++ [stamped req s]) s, reply (sent s)).

(** [post_json] under [@retry(stop=stop_after_attempt(3), reraise=True)]:
    up to three attempts, the last error re-raised. *)
Definition post_json {A} (reply : list Sent -> result A) (req : Request) : M A :=
  try_except (attempt reply req)
    (fun _ => try_except (attempt reply req)
                (fun _ => attempt reply req)).

End Http.

Import Http.

(** ** The Pulse engine ([services/pulse/main.py]) *)

Module Pulse.

(** The default of the [RULES_PATH] environment variable. *)
Definition RULES_PATH : str := py "./config/rules.yaml".

(** The keywords, in source order; the five Chinese ones are written as
    their code points. *)
Definition HIGH_VALUE_HINTS : list str :=
  [ [21457; 24067]%N; [24320; 28304]%N; [19978; 32447]%N;
    py "agent"; py "benchmark"; py "paper";
    [27169; 22411]%N; [34701; 36164]%N; py "sota" ].

Definition _is_high_value_signal (item : NormalizedItem) : bool :=
  let merged := lower (title item ++ [10%N] ++ raw_text item
                         ++ [10%N] ++ summary item) in
  let score :=
    (if 220 <=? Z.of_nat (length (raw_text item)) then 1 else 0)
    + (if 0 <? Z.of_nat (length (images item)) then 1 else 0)
    + (if existsb (fun hint => contains hint merged) HIGH_VALUE_HINTS
       then 1 else 0) in
  2 <=? score.

Definition _source_info_from_source_id (source_id : str) : str :=
  let raw := lower (strip source_id) in
  match raw with
  | [] => py "unknown-unknown"
  | _ =>
      if startswith (py "twitter_") raw
      then py "twitter-"
             ++ replace (py "_live") [] (skipn 8 raw)
      else if startswith (py "wechat_") raw
      then py "wechat-"
             ++ replace (py "_live") [] (skipn 7 raw)
      else if startswith (py "xhs_") raw || contains (py "xiaohongshu") raw
      then py "xiaohongshu-" ++ replace (py "_live") [] raw
      else raw
  end.

(** [PulseEngine.__init__] in a fresh process: nothing loaded, nothing
    scheduled, no context bound, nothing sent or logged yet. *)
Definition init_state : State :=
  {| rules := None; fingerprint := []; last_runs := ∅; jobs := ∅;
     _TRACE_ID := None; _REQUEST_ID := None;
     sent := []; logged := []; clock_reads := O |}.

(** *** Scheduler *)

Definition config_watcher : str := py "config_watcher".

(** [scheduler.add_job(..., id=job_id, replace_existing=True)] *)
Definition add_job (job_id : str) (job : Job) : M unit :=
  modify (fun s => set_jobs (<[job_id := job]> (jobs s)) s).

(** [scheduler.get_jobs()], each job with its id. *)
Definition get_jobs (s : State) : list (str * Job) := map_to_list (jobs s).

Definition _clear_runtime_jobs : M unit :=
  modify (fun s =>
    set_jobs
      (fold_left
         (fun js job =>
            if str_eqb (fst job) config_watcher then js
            else delete (fst job) js)
         (get_jobs s) (jobs s))
      s).

Definition _parse_schedule_hhmm (raw : str) : result (Z * Z) :=
  match split 58%N (strip raw) with
  | [hh; mm] =>
      match py_int hh with
      | None => Raise (Exception ValueError (IntValueError hh))
      | Some hour =>
          match py_int mm with
          | None => Raise (Exception ValueError (IntValueError mm))
          | Some minute => Ok (hour, minute)
          end
      end
  | _ =>
      Raise (Exception ValueError
               (Text (py "Invalid HH:MM schedule: " ++ raw)))
  end.

(** [CronTrigger(hour=, minute=, timezone=)]: the scheduler library
    rejects a field value outside its range, the hour before the
    minute. *)
Definition cron_trigger (hour minute : Z) (tz : ZoneInfo) : result Trigger :=
  if negb ((0 <=? hour) && (hour <=? 23))
  then Raise (Exception ValueError (CronFieldValueError (py "hour") hour))
  else if negb ((0 <=? minute) && (minute <=? 59))
  then Raise (Exception ValueError (CronFieldValueError (py "minute") minute))
  else Ok (CronTrigger hour minute tz).

(** The length of the interval of [IntervalTrigger(seconds=seconds)]:
    the library turns an interval of no length into one second. *)
Definition interval_length (seconds : Z) : Z :=
  if seconds =? 0 then 1 else seconds.

(** The largest number of days a [timedelta] holds. *)
Definition timedelta_max_days : Z := 999999999.

(** [IntervalTrigger(seconds=seconds, timezone=tz)], for the seconds
    [interval_to_seconds] returns (none is negative).  It raises
    [OverflowError] when [timedelta(seconds=seconds)] does, and when the
    start date, [datetime.now(tz)] plus the interval, is past the last
    [datetime]. *)
Definition interval_trigger (env : Env) (seconds : Z) (tz : ZoneInfo)
  : result Trigger :=
  if timedelta_max_days <? seconds / 86400
  then Raise (Exception OverflowError (IntervalOverflowError seconds))
  else if horizon env tz <? interval_length seconds
  then Raise (Exception OverflowError (IntervalOverflowError seconds))
  else Ok (IntervalTrigger (interval_length seconds) (Some tz)).

(** [sorted(sources, key=lambda s: s.weight, reverse=True)]: descending
    weight, sources of equal weight in their original order. *)
Fixpoint insert_by_weight (x : SourceConfig) (l : list SourceConfig)
  : list SourceConfig :=
  match l with
  | [] => [x]
  | y :: l' =>
      if weight y <=? weight x then x :: l else y :: insert_by_weight x l'
  end.

Definition sorted_by_weight (l : list SourceConfig) : list SourceConfig :=
  fold_right insert_by_weight [] l.

Fixpoint for_each {A} (l : list A) (body : A -> M unit) : M unit :=
  match l with
  | [] => ret tt
  | x :: l' => body x ;; for_each l' body
  end.

Definition source_job (source : SourceConfig) (trig : Trigger) : Job :=
  {| func := RunSource source;
     trigger := trig;
     max_instances := Some 1;
     coalesce := Some true |}.

Definition platform_job (name : str) (trig : Trigger) : Job :=
  {| func := RunAllSources name;
     trigger := trig;
     max_instances := Some 1;
     coalesce := Some true |}.

Definition truthy (o : option str) : bool :=
  match o with Some (_ :: _) => true | _ => false end.

Definition _load_and_schedule (env : Env) (force : bool) : M unit :=
  new_fingerprint <- lift (rules_fingerprint env RULES_PATH) ;;
  self <- get_state ;;
  if negb force && str_eqb new_fingerprint (fingerprint self) then ret tt
  else
    rules <- lift (load_rules env RULES_PATH) ;;
    tz <- lift (zone_info env (timezone (global_config rules))) ;;
    _clear_runtime_jobs ;;
    for_each (sorted_by_weight (sources rules))
      (fun source =>
         seconds <- lift (interval_to_seconds (fetch_interval source)) ;;
         trig <- lift (interval_trigger env seconds tz) ;;
         add_job (py "source::" ++ id source) (source_job source trig)) ;;
    for_each (platforms rules)
      (fun '(name, policy) =>
         if negb (enabled policy) || negb (truthy (schedule policy))
         then ret tt
         else
           hhmm <- lift (_parse_schedule_hhmm (default [] (schedule policy))) ;;
           trig <- lift (cron_trigger (fst hhmm) (snd hhmm) tz) ;;
           add_job (py "platform::" ++ name) (platform_job name trig)) ;;
    maintenance <- lift (cron_trigger 3 30 tz) ;;
    add_job (py "maintenance::cleanup")
      {| func := CleanupMemory; trigger := maintenance;
         max_instances := Some 1; coalesce := None |} ;;
    modify (set_rules (Some rules)) ;;
    modify (set_fingerprint new_fingerprint) ;;
    log (LoadedSourceJobs (Z.of_nat (length (sources rules)))).

Definition _watch_rules (env : Env) : M unit :=
  try_except
    (current <- lift (rules_fingerprint env RULES_PATH) ;;
     self <- get_state ;;
     if negb (str_eqb current (fingerprint self))
     then log DetectedRulesChange ;; _load_and_schedule env true
     else ret tt)
    (fun exc => log (WatchFailed exc)).

Definition watcher_job : Job :=
  {| func := WatchRules; trigger := IntervalTrigger 60 None;
     max_instances := None; coalesce := None |}.

(** [start]: the first load, then the watcher; [scheduler.start()] only
    sets the installed jobs going and is not part of the job store. *)
Definition start (env : Env) : M unit :=
  _load_and_schedule env true ;;
  add_job config_watcher watcher_job ;;
  log PulseStarted.

(** *** Pipeline runner *)

(** The [counters] dictionary of [run_source]. *)
Record Counters : Type := {
  cnt_source_id : str;
  cnt_scanned : Z;
  cnt_processed : Z;
  cnt_duplicated : Z;
  cnt_filtered : Z;
  cnt_failed : Z;
  cnt_started_at : datetime
}.

Definition incr_processed (c : Counters) : Counters :=
  {| cnt_source_id := cnt_source_id c; cnt_scanned := cnt_scanned c;
     cnt_processed := cnt_processed c + 1;
     cnt_duplicated := cnt_duplicated c; cnt_filtered := cnt_filtered c;
     cnt_failed := cnt_failed c; cnt_started_at := cnt_started_at c |}.

Definition incr_duplicated (c : Counters) : Counters :=
  {| cnt_source_id := cnt_source_id c; cnt_scanned := cnt_scanned c;
     cnt_processed := cnt_processed c;
     cnt_duplicated := cnt_duplicated c + 1; cnt_filtered := cnt_filtered c;
     cnt_failed := cnt_failed c; cnt_started_at := cnt_started_at c |}.

Definition incr_filtered (c : Counters) : Counters :=
  {| cnt_source_id := cnt_source_id c; cnt_scanned := cnt_scanned c;
     cnt_processed := cnt_processed c;
     cnt_duplicated := cnt_duplicated c; cnt_filtered := cnt_filtered c + 1;
     cnt_failed := cnt_failed c; cnt_started_at := cnt_started_at c |}.

Definition incr_failed (c : Counters) : Counters :=
  {| cnt_source_id := cnt_source_id c; cnt_scanned := cnt_scanned c;
     cnt_processed := cnt_processed c;
     cnt_duplicated := cnt_duplicated c; cnt_filtered := cnt_filtered c;
     cnt_failed := cnt_failed c + 1; cnt_started_at := cnt_started_at c |}.

Definition set_scanned (n : Z) (c : Counters) : Counters :=
  {| cnt_source_id := cnt_source_id c; cnt_scanned := n;
     cnt_processed := cnt_processed c;
     cnt_duplicated := cnt_duplicated c; cnt_filtered := cnt_filtered c;
     cnt_failed := cnt_failed c; cnt_started_at := cnt_started_at c |}.

Definition utcnow (env : Env) : M datetime :=
  fun s => (set_clock_reads (S (clock_reads s)) s, Ok (clock env (clock_reads s))).

Definition DEFAULT_CHANNELS : list str := [py "twitter"; py "wechat_blog"].

(** The names of the enabled platforms: the keys of [platform_strategy]. *)
Definition platform_strategy (self : State) : list str :=
  match rules self with
  | Some r => map fst (List.filter (fun np => enabled (snd np)) (platforms r))
  | None => []
  end.

Definition first_or_empty (l : list str) : str :=
  match l with x :: _ => x | [] => [] end.

Definition source_summary_of (item : NormalizedItem) : str :=
  firstn 240 (match summary item with
              | [] => raw_text item
              | text => text
              end).

Definition make_content_pack (self : State) (source : SourceConfig)
    (item : NormalizedItem) (trace_id : str) : ContentPack :=
  {| record_type := py "topic";
     pack_source_id := id source;
     source_info := _source_info_from_source_id (id source);
     pack_url_hash := url_hash item;
     pack_title := title item;
     source_url := item_url item;
     topic_summary := source_summary_of item;
     ai_summary := [];
     image_url := first_or_empty (images item);
     image_urls := firstn 3 (images item);
     channels := match platform_strategy self with
                 | [] => DEFAULT_CHANNELS
                 | names => names
                 end;
     pack_status := [24453; 30830; 35748]%N;
     pack_trace_id := trace_id |}.

Definition make_remember (source : SourceConfig) (item : NormalizedItem)
    (archive_result : ArchiveResponse) : RememberRequest :=
  {| rem_source_id := id source;
     rem_url_hash := url_hash item;
     rem_title := title item;
     rem_url := item_url item;
     rem_summary := source_summary_of item;
     rem_keywords := keywords item;
     rem_raw_text := raw_text item;
     rem_archive_url := feishu_doc_url archive_result;
     rem_image_url := first_or_empty (images item) |}.

Definition trace_id_of (source : SourceConfig) (item : NormalizedItem) : str :=
  match url_hash item with
  | [] => id source
  | trace_seed => firstn 8 trace_seed
  end.

(** The body of [with bind_log_context(trace_id=trace_id)] for one item;
    it returns the counters as the item leaves them. *)
Definition item_body (env : Env) (source : SourceConfig)
    (item : NormalizedItem) (trace_id : str) (counters : Counters)
  : M Counters :=
  duplicate <- post_json
                 (fun before => hippocampus_check_duplicate env before (url_hash item))
                 (ReqCheckDuplicate (url_hash item)) ;;
  if (duplicate : bool) then ret (incr_duplicated counters)
  else
    self <- get_state ;;
    if negb (_is_high_value_signal item) then ret (incr_filtered counters)
    else
      let content_pack := make_content_pack self source item trace_id in
      archive_result <- post_json
                          (fun before => archivist_archive env before content_pack)
                          (ReqArchive content_pack) ;;
      let remember := make_remember source item archive_result in
      post_json (fun before => hippocampus_remember env before remember)
                (ReqRemember remember) ;;
      ret (incr_processed counters).

(** One iteration of the item loop, with its [try ... except]. *)
Definition process_item (env : Env) (source : SourceConfig)
    (counters : Counters) (item : NormalizedItem) : M Counters :=
  try_except
    (let trace_id := trace_id_of source item in
     bind_log_context (Some trace_id) None
       (item_body env source item trace_id counters))
    (fun item_exc =>
       log (ItemProcessingFailed (id source) item_exc) ;;
       ret (incr_failed counters)).

Fixpoint process_items (env : Env) (source : SourceConfig)
    (counters : Counters) (items : list NormalizedItem) : M Counters :=
  match items with
  | [] => ret counters
  | item :: rest =>
      counters' <- process_item env source counters item ;;
      process_items env source counters' rest
  end.

(** The block under [with self._run_lock].  The scan call is the only
    statement of the outer [try] that can raise outside the per-item
    handler, so the outer handler sees the counters as they were on
    entry. *)
Definition locked_section (env : Env) (source : SourceConfig)
    (counters : Counters) : M Counters :=
  try_except
    (items <- post_json (fun before => sentry_scan env before source)
                        (ReqScan source) ;;
     process_items env source
       (set_scanned (Z.of_nat (length items)) counters) items)
    (fun exc =>
       log (SourceRunFailed (id source) exc) ;;
       ret (incr_failed counters)).

(** [result.model_dump(mode="json")] *)
Definition model_dump (r : PulseRunResult) : Summary :=
  [ (py "source_id", JStr (source_id r));
    (py "scanned", JInt (scanned r));
    (py "processed", JInt (processed r));
    (py "duplicated", JInt (duplicated r));
    (py "failed", JInt (failed r));
    (py "started_at", JTime (started_at r));
    (py "ended_at", JTime (ended_at r)) ].

(** [d.get(key)] on a dumped model. *)
Fixpoint dict_get (key : str) (d : Summary) : option Json :=
  match d with
  | [] => None
  | (k, v) :: d' => if str_eqb k key then Some v else dict_get key d'
  end.

Definition run_source (env : Env) (source : SourceConfig) : M Summary :=
  started <- utcnow env ;;
  let counters :=
    {| cnt_source_id := id source; cnt_scanned := 0; cnt_processed := 0;
       cnt_duplicated := 0; cnt_filtered := 0; cnt_failed := 0;
       cnt_started_at := started |} in
  log (HeartbeatStart (id source)) ;;
  counters <- locked_section env source counters ;;
  ended <- utcnow env ;;
  let result :=
    {| source_id := id source;
       scanned := cnt_scanned counters;
       processed := cnt_processed counters;
       duplicated := cnt_duplicated counters;
       failed := cnt_failed counters;
       started_at := started;
       ended_at := ended |} in
  let serialized := model_dump result in
  modify (fun self =>
            set_last_runs (<[id source := serialized]> (last_runs self)) self) ;;
  log (HeartbeatDone (id source) (cnt_scanned counters)
         (cnt_processed counters) (cnt_duplicated counters)
         (cnt_filtered counters) (cnt_failed counters)) ;;
  ret serialized.

End Pulse.

Import Pulse.

(** ** Concurrent runs and the run lock

    [run_source] may be entered by several scheduler workers and request
    handlers at once.  At the grain of its lock a run goes through four
    phases; the engine owns one lock, [self._run_lock], created once in
    [__init__] and taken by every run whatever its source. *)

Module RunLock.

Inductive Phase : Set :=
| Entered      (* counters initialised; about to take the lock *)
| Holding      (* inside [with self._run_lock]: scan and item loop *)
| Finalizing   (* lock released; building and storing the result *)
| Returned.

Record Run : Type := { run_of : str; phase : Phase }.

Record Sys : Type := {
  _run_lock : bool;        (* [true] while the lock is held *)
  runs : list Run
}.

Definition initial : Sys := {| _run_lock := false; runs := [] |}.

Definition at_phase (p : Phase) (r : Run) : Run :=
  {| run_of := run_of r; phase := p |}.

Inductive step : Sys -> Sys -> Prop :=
| step_trigger (sys : Sys) (source : str) :
    (* a trigger fires, or a manual run is requested *)
    step sys {| _run_lock := _run_lock sys;
                runs := runs sys ++ [{| run_of := source; phase := Entered |}] |}
| step_acquire (sys : Sys) (i : nat) (r : Run) :
    runs sys !! i = Some r -> phase r = Entered ->
    _run_lock sys = false ->
    step sys {| _run_lock := true;
                runs := <[i := at_phase Holding r]> (runs sys) |}
| step_release (sys : Sys) (i : nat) (r : Run) :
    runs sys !! i = Some r -> phase r = Holding ->
    step sys {| _run_lock := false;
                runs := <[i := at_phase Finalizing r]> (runs sys) |}
| step_return (sys : Sys) (i : nat) (r : Run) :
    runs sys !! i = Some r -> phase r = Finalizing ->
    step sys {| _run_lock := _run_lock sys;
                runs := <[i := at_phase Returned r]> (runs sys) |}.

Definition reachable (sys : Sys) : Prop := rtc step initial sys.

(** Run [i] is inside the locked region. *)
Definition holding (rs : list Run) (i : nat) : Prop :=
  exists r, rs !! i = Some r /\ phase r = Holding.

(** Two runs of different sources inside the locked region at once. *)
Definition overlap_across_sources (rs : list Run) : Prop :=
  exists i j ri rj,
    rs !! i = Some ri /\ rs !! j = Some rj /\
    run_of ri <> run_of rj /\ phase ri = Holding /\ phase rj = Holding.

(** The locking discipline in the design document's words, for
    comparison: one lock per source, so that only runs of the same source
    exclude each other.  [held] is the set of sources whose lock is
    taken. *)
Record PerSourceSys : Type := {
  held : gset str;
  per_source_runs : list Run
}.

Definition per_source_initial : PerSourceSys :=
  {| held := ∅; per_source_runs := [] |}.

Inductive per_source_step : PerSourceSys -> PerSourceSys -> Prop :=
| per_source_trigger (sys : PerSourceSys) (source : str) :
    per_source_step sys
      {| held := held sys;
         per_source_runs :=
           per_source_runs sys ++ [{| run_of := source; phase := Entered |}] |}
| per_source_acquire (sys : PerSourceSys) (i : nat) (r : Run) :
    per_source_runs sys !! i = Some r -> phase r = Entered ->
    run_of r ∉ held sys ->
    per_source_step sys
      {| held := {[run_of r]} ∪ held sys;
         per_source_runs := <[i := at_phase Holding r]> (per_source_runs sys) |}
| per_source_release (sys : PerSourceSys) (i : nat) (r : Run) :
    per_source_runs sys !! i = Some r -> phase r = Holding ->
    per_source_step sys
      {| held := held sys ∖ {[run_of r]};
         per_source_runs := <[i := at_phase Finalizing r]> (per_source_runs sys) |}
| per_source_return (sys : PerSourceSys) (i : nat) (r : Run) :
    per_source_runs sys !! i = Some r -> phase r = Finalizing ->
    per_source_step sys
      {| held := held sys;
         per_source_runs := <[i := at_phase Returned r]> (per_source_runs sys) |}.

(** What the engine's lock maintains: the lock is held exactly while some
    run is in the locked region, and at most one run is there. *)
Definition lock_invariant (sys : Sys) : Prop :=
  (_run_lock sys = false -> forall i, ~ holding (runs sys) i)
  /\ (forall i j, holding (runs sys) i -> holding (runs sys) j -> i = j).

(** Two runs, of [hn] and of [blog], the first inside the locked region. *)
Definition hn_holds : Sys :=
  {| _run_lock := true;
     runs := [ {| run_of := py "hn"; phase := Holding |};
               {| run_of := py "blog"; phase := Entered |} ] |}.

End RunLock.

(** ** Properties *)

(** An identifier of at most 64 characters over [[a-zA-Z0-9_-]]
    (possibly empty). *)
Definition valid_id (s : str) : Prop :=
  (length s <= 64)%nat /\ Forall (fun c => is_id_char c = true) s.

(** Both context variables are unset or hold valid identifiers. *)
Definition context_ok (s : State) : Prop :=
  (forall v, _TRACE_ID s = Some v -> valid_id v) /\
  (forall v, _REQUEST_ID s = Some v -> valid_id v).

(** The state in which the body of [bind_log_context] runs. *)
Definition bound (trace_id request_id : option str) (s : State) : State :=
  let s1 := match trace_id with
            | Some t => set_TRACE_ID (Some (_normalize_id (Some t) [])) s
            | None => s
            end in
  match request_id with
  | Some r => set_REQUEST_ID (Some (_normalize_id (Some r) [])) s1
  | None => s1
  end.

(** A body that leaves the context variables as it found them. *)
Definition scoped {A} (body : M A) : Prop :=
  forall s, _TRACE_ID (fst (body s)) = _TRACE_ID s
            /\ _REQUEST_ID (fst (body s)) = _REQUEST_ID s.

Definition is_hex_char (c : N) : bool :=
  ((48 <=? c) && (c <=? 57) || (97 <=? c) && (c <=? 102))%N.

(** Every string of length [n] over [alphabet]. *)
Fixpoint words_over (alphabet : list N) (n : nat) : list str :=
  match n with
  | O => [[]]
  | S n' =>
      flat_map (fun c => map (cons c) (words_over alphabet n')) alphabet
  end.

(** The sixteen lower-case hexadecimal digits. *)
Definition hex_alphabet : list N := py "0123456789abcdef".

(** The fingerprint of a file with content [raw]. *)
Definition fingerprint_of (raw : list byte) : str :=
  Hashlib.hexdigest (Hashlib.sha256 raw).

(** The file of [len] bytes that holds the number [n], least
    significant byte first. *)
Fixpoint le_bytes (len : nat) (n : N) : list byte :=
  match len with
  | O => []
  | S len' =>
      default Byte.x00 (Byte.of_N (n mod 256)) :: le_bytes len' (n / 256)
  end.

(** Every content of at most one byte: the empty file and the 256 files
    of one byte. *)
Definition short_files : list (list byte) :=
  [] :: map (fun n => le_bytes 1 (N.of_nat n)) (seq 0 256).

(** The 3-item scenario: the scan returns [a; b; c]; [a] is reported a
    duplicate; [b] is new and below the value threshold; [c] is new, of
    high value, and is archived and remembered without error. *)
Definition three_item_scenario (env : Env) (source : SourceConfig)
    (a b c : NormalizedItem) : Prop :=
  (forall before, sentry_scan env before source = Ok [a; b; c]) /\
  (forall before, hippocampus_check_duplicate env before (url_hash a) = Ok true) /\
  (forall before, hippocampus_check_duplicate env before (url_hash b) = Ok false) /\
  _is_high_value_signal b = false /\
  (forall before, hippocampus_check_duplicate env before (url_hash c) = Ok false) /\
  _is_high_value_signal c = true /\
  (forall before pack, is_ok (archivist_archive env before pack) = true) /\
  (forall before req, is_ok (hippocampus_remember env before req) = true).

(** [m] never changes the observation [f] of the state. *)
Definition preserves {A X} (f : State -> X) (m : M A) : Prop :=
  forall s, f (fst (m s)) = f s.

(** [m] never raises. *)
Definition never_raises {A} (m : M A) : Prop :=
  forall s, is_ok (snd (m s)) = true.

(** When [m] raises, the observation [f] of the state is what it was. *)
Definition unchanged_on_raise {A X} (f : State -> X) (m : M A) : Prop :=
  forall s s' e, m s = (s', Raise e) -> f s' = f s.

(** The watcher's entry in the job store. *)
Definition watcher_entry (s : State) : option Job := jobs s !! config_watcher.

(** The requests a call added to those already sent. *)
Definition sent_since (s s' : State) : list Request :=
  map request (skipn (length (sent s)) (sent s')).

Definition is_scan (r : Request) : bool :=
  match r with ReqScan _ => true | _ => false end.

(** ** Scenarios

    Concrete configurations, items and collaborators on which the
    theorems below are exercised. *)

Module Scenario.

Definition hn : SourceConfig :=
  {| id := py "hn"; type := py "rss"; url := py "https://news.example/rss";
     fetch_interval := py "30m"; weight := 2; max_items := 5 |}.

Definition blog : SourceConfig :=
  {| id := py "blog"; type := py "rss"; url := py "https://blog.example/feed";
     fetch_interval := py "2h"; weight := 1; max_items := 5 |}.

(** A source whose interval uses a unit the parser does not know. *)
Definition daily : SourceConfig :=
  {| id := py "daily"; type := py "rss"; url := py "https://daily.example/feed";
     fetch_interval := py "2d"; weight := 1; max_items := 5 |}.

Definition settings : GlobalConfig :=
  {| timezone := py "Asia/Shanghai"; memory_retention_days := 30 |}.

Definition look : VisualConfig :=
  {| default_style := py "cyberpunk, data flow"; default_ratio := py "16:9" |}.

Definition policies : list (str * PlatformPolicy) :=
  [ (py "twitter",
     {| enabled := true; style_prompt := py "short"; schedule := Some (py "09:30");
        max_posts_per_day := None; min_word_count := None |});
    (py "wechat_blog",
     {| enabled := false; style_prompt := py "long"; schedule := None;
        max_posts_per_day := None; min_word_count := None |}) ].

Definition good_rules : RulesConfig :=
  {| global_config := settings; sources := [blog; hn];
     platforms := policies; visual := look |}.

(** The same file after an edit that adds [daily]. *)
Definition edited_rules : RulesConfig :=
  {| global_config := settings; sources := [hn; daily];
     platforms := policies; visual := look |}.

Definition good_yaml : list byte :=
  list_byte_of_string "sources: [{id: blog, fetch_interval: 2h}, {id: hn, fetch_interval: 30m, weight: 2}]".

Definition edited_yaml : list byte :=
  list_byte_of_string "sources: [{id: hn, fetch_interval: 30m, weight: 2}, {id: daily, fetch_interval: 2d}]".

Definition bytes_eqb (a b : list byte) : bool :=
  bool_decide (map Byte.to_N a = map Byte.to_N b).

(** Seen before. *)
Definition item_a : NormalizedItem :=
  {| item_source_id := py "hn"; url_hash := py "aaaaaaaa0001";
     title := py "Yesterday's story"; item_url := py "https://news.example/1";
     summary := py "already archived"; raw_text := py "already archived";
     published_at := None; images := []; keywords := [] |}.

(** New, but short, without image or keyword. *)
Definition item_b : NormalizedItem :=
  {| item_source_id := py "hn"; url_hash := py "bbbbbbbb0002";
     title := py "Weather"; item_url := py "https://news.example/2";
     summary := []; raw_text := py "rain tomorrow";
     published_at := None; images := []; keywords := [] |}.

(** New, with an image and a keyword. *)
Definition item_c : NormalizedItem :=
  {| item_source_id := py "hn"; url_hash := py "cccccccc0003";
     title := py "A new Agent benchmark"; item_url := py "https://news.example/3";
     summary := py "results"; raw_text := py "numbers";
     published_at := Some (py "2025-01-01"); images := [py "https://img.example/3.png"];
     keywords := [py "agent"] |}.

Definition env_with (file : list byte)
    (scan : result (list NormalizedItem)) : Env :=
  {| read_bytes := fun path =>
       if str_eqb path RULES_PATH then Ok file
       else Raise (Exception OSError (Text path));
     parse_rules := fun raw =>
       if bytes_eqb raw good_yaml then Ok good_rules
       else if bytes_eqb raw edited_yaml then Ok edited_rules
       else Raise (Exception ConfigParseError (Text (py "invalid rules")));
     zone_info := fun key =>
       if str_eqb key (py "Asia/Shanghai") then Ok {| zone_key := key |}
       else Raise (Exception ZoneInfoNotFoundError (Text key));
     clock := fun n => 1700000000 + Z.of_nat n;
     (* to 9999-12-31 23:59:59 on a clock eight hours ahead of UTC *)
     horizon := fun _ => 253402300799 - (1700000000 + 8 * 3600);
     sentry_scan := fun _ _ => scan;
     hippocampus_check_duplicate := fun _ hash =>
       Ok (str_eqb hash (url_hash item_a));
     archivist_archive := fun _ pack =>
       Ok {| feishu_doc_url := py "https://docs.example/" ++ pack_url_hash pack;
             status := py "ok" |};
     hippocampus_remember := fun _ _ => Ok tt |}.

Definition env : Env := env_with good_yaml (Ok [item_a; item_b; item_c]).

Definition env_scan_down : Env :=
  env_with good_yaml
    (Raise (Exception HTTPError (Text (py "503 Service Unavailable")))).

Definition env_edited : Env := env_with edited_yaml (Ok []).

(** The file after an edit that leaves it unparseable. *)
Definition env_broken : Env :=
  env_with (list_byte_of_string "sources: [{id: hn") (Ok []).

(** The engine once started on the good file. *)
Definition running : State := fst (start env init_state).

End Scenario.

(** ** HTTP operations of the Pulse service ([services/pulse/main.py]) *)

Module PulseApi.

(** What a request handler gives back: its value, or an
    [HTTPException]. *)
Inductive HttpReply (A : Type) : Type :=
| Replied (a : A)
| HTTPException (status_code : Z) (detail : Message).
Arguments Replied {A} a.
Arguments HTTPException {A} status_code detail.

(** [[engine.run_source(source) for source in sources]] *)
Fixpoint run_each (env : Env) (sources : list SourceConfig) : M (list Summary) :=
  match sources with
  | [] => ret []
  | source :: rest =>
      result <- run_source env source ;;
      results <- run_each env rest ;;
      ret (result :: results)
  end.

(** [POST /run_once]; [source_id] is the optional query parameter.  An
    exception escaping the handler is the framework's status 500. *)
Definition run_once (env : Env) (source_id : option str)
  : State -> State * HttpReply (list Summary) :=
  fun s =>
    match rules s with
    | None => (s, HTTPException 500 (Text (py "rules not loaded")))
    | Some cfg =>
        let selected :=
          match source_id with
          | Some ((_ :: _) as wanted) =>
              List.filter (fun src => str_eqb (id src) wanted) (sources cfg)
          | _ => sources cfg
          end in
        match source_id, selected with
        | Some ((_ :: _) as wanted), [] =>
            (s, HTTPException 404
                  (Text (py "source " ++ wanted ++ py " not found")))
        | _, _ =>
            match run_each env selected s with
            | (s', Ok results) => (s', Replied results)
            | (s', Raise e) =>
                (s', HTTPException 500 (Text (py "Internal Server Error")))
            end
        end
    end.

(** [POST /reload]: the value is the engine's fingerprint after the
    reload; a failure is status 500 with the error's text. *)
Definition reload_rules (env : Env) : State -> State * HttpReply str :=
  fun s =>
    match _load_and_schedule env true s with
    | (s', Ok _) => (s', Replied (fingerprint s'))
    | (s', Raise exc) => (s', HTTPException 500 (exn_message exc))
    end.

(** [GET /health]: the number of scheduled jobs. *)
Definition health (s : State) : Z := Z.of_nat (length (get_jobs s)).

End PulseApi.

(** ** More properties *)

(** What a run has accounted for: every item ends in exactly one of the
    four counters. *)
Definition accounted (c : Counters) : Z :=
  cnt_processed c + cnt_duplicated c + cnt_filtered c + cnt_failed c.

(** [m] changes nothing but the list of requests sent, to which it
    appends requests stamped with the headers in force on entry. *)
Definition only_sends {A} (m : M A) : Prop :=
  forall s, exists reqs,
    fst (m s) = set_sent (sent s ++ map (fun q => stamped q s) reqs) s.

(** The engine proper: what [self] holds besides [last_runs]. *)
Definition topology (s : State) : option RulesConfig * str * gmap str Job :=
  (rules s, fingerprint s, jobs s).

(** The two context variables. *)
Definition context (s : State) : option str * option str :=
  (_TRACE_ID s, _REQUEST_ID s).

(** The part of the state a reload cannot reach. *)
Definition beyond_reload (s : State)
  : gmap str Summary * (option str * option str) * list Sent * nat :=
  (last_runs s, context s, sent s, clock_reads s).

(** The summary is the one of a run of [source]. *)
Definition summary_of (source : SourceConfig) (summary : Summary) : Prop :=
  dict_get (py "source_id") summary = Some (JStr (id source)).

Definition is_check (r : Request) : bool :=
  match r with ReqCheckDuplicate _ => true | _ => false end.

(** The courses one item can take through [item_body]: the requests it
    sends, in order (each call possibly retried), and how it ends.
    [pack] is the item's content pack and [counters] the counters on
    entry. *)
Inductive item_run (source : SourceConfig) (item : NormalizedItem)
    (pack : ContentPack) (counters : Counters)
  : list Request -> result Counters -> Prop :=
| check_fails (n : nat) (e : Exn) :
    item_run source item pack counters
      (repeat (ReqCheckDuplicate (url_hash item)) (S n)) (Raise e)
| is_duplicate (n : nat) :
    item_run source item pack counters
      (repeat (ReqCheckDuplicate (url_hash item)) (S n))
      (Ok (incr_duplicated counters))
| is_filtered (n : nat) :
    _is_high_value_signal item = false ->
    item_run source item pack counters
      (repeat (ReqCheckDuplicate (url_hash item)) (S n))
      (Ok (incr_filtered counters))
| archive_fails (n m : nat) (e : Exn) :
    _is_high_value_signal item = true ->
    item_run source item pack counters
      (repeat (ReqCheckDuplicate (url_hash item)) (S n)
       ++ repeat (ReqArchive pack) (S m)) (Raise e)
| remember_fails (n m k : nat) (archived : ArchiveResponse) (e : Exn) :
    _is_high_value_signal item = true ->
    item_run source item pack counters
      (repeat (ReqCheckDuplicate (url_hash item)) (S n)
       ++ repeat (ReqArchive pack) (S m)
       ++ repeat (ReqRemember (make_remember source item archived)) (S k))
      (Raise e)
| is_processed (n m k : nat) (archived : ArchiveResponse) :
    _is_high_value_signal item = true ->
    item_run source item pack counters
      (repeat (ReqCheckDuplicate (url_hash item)) (S n)
       ++ repeat (ReqArchive pack) (S m)
       ++ repeat (ReqRemember (make_remember source item archived)) (S k))
      (Ok (incr_processed counters)).

(** The log record of an item that failed, as stamped in state [s]. *)
Definition item_failure_record (source : SourceConfig) (e : Exn) (s : State)
  : LogRecord :=
  {| log_event := ItemProcessingFailed (id source) e;
     log_trace_id := get_trace_id s;
     log_request_id := get_request_id s |}.

(** [c'] is [c] after [n] more items: no counter went down, [n] items
    more are accounted for, and [scanned] is untouched. *)
Definition advanced (n : Z) (c c' : Counters) : Prop :=
  cnt_scanned c' = cnt_scanned c
  /\ cnt_source_id c' = cnt_source_id c
  /\ cnt_started_at c' = cnt_started_at c
  /\ accounted c' = accounted c + n
  /\ cnt_processed c <= cnt_processed c'
  /\ cnt_duplicated c <= cnt_duplicated c'
  /\ cnt_filtered c <= cnt_filtered c'
  /\ cnt_failed c <= cnt_failed c'.

(** [s'] differs from [s] at most in the requests sent and the records
    logged, both of which only grew. *)
Definition traffic_only (s s' : State) : Prop :=
  s' = set_logged (logged s') (set_sent (sent s') s)
  /\ (exists more, sent s' = sent s ++ more)
  /\ (exists more, logged s' = logged s ++ more).

(** ** Outages

    The scenario's collaborators with one of them out of service. *)

Module Outage.

Definition unavailable : Exn :=
  Exception HTTPError (Text (py "503 Service Unavailable")).

Definition archive_down : Env :=
  {| read_bytes := read_bytes Scenario.env;
     parse_rules := parse_rules Scenario.env;
     zone_info := zone_info Scenario.env;
     clock := clock Scenario.env;
     horizon := horizon Scenario.env;
     sentry_scan := sentry_scan Scenario.env;
     hippocampus_check_duplicate := hippocampus_check_duplicate Scenario.env;
     archivist_archive := fun _ _ => Raise unavailable;
     hippocampus_remember := hippocampus_remember Scenario.env |}.

Definition remember_down : Env :=
  {| read_bytes := read_bytes Scenario.env;
     parse_rules := parse_rules Scenario.env;
     zone_info := zone_info Scenario.env;
     clock := clock Scenario.env;
     horizon := horizon Scenario.env;
     sentry_scan := sentry_scan Scenario.env;
     hippocampus_check_duplicate := hippocampus_check_duplicate Scenario.env;
     archivist_archive := archivist_archive Scenario.env;
     hippocampus_remember := fun _ _ => Raise unavailable |}.

(** Counters of a run of [hn] that has scanned three items. *)
Definition counters : Counters :=
  {| cnt_source_id := py "hn"; cnt_scanned := 3; cnt_processed := 0;
     cnt_duplicated := 0; cnt_filtered := 0; cnt_failed := 0;
     cnt_started_at := 1700000000 |}.

End Outage.

(** What one iteration of an installation loop of [_load_and_schedule]
    comes to: nothing, one job installed, or an error. *)
Inductive Plan : Type :=
| Skip
| Install (job_id : str) (job : Job)
| Fail (e : Exn).

Definition carry_out (p : Plan) : M unit :=
  match p with
  | Skip => ret tt
  | Install job_id job => add_job job_id job
  | Fail e => raise e
  end.

(** The plan for a source: its interval parsed, its job installed. *)
Definition source_plan (env : Env) (tz : ZoneInfo) (source : SourceConfig)
  : Plan :=
  match interval_to_seconds (fetch_interval source) with
  | Raise e => Fail e
  | Ok seconds =>
      match interval_trigger env seconds tz with
      | Raise e => Fail e
      | Ok trig => Install (py "source::" ++ id source) (source_job source trig)
      end
  end.

(** The plan for a platform: skipped unless enabled and scheduled. *)
Definition platform_plan (tz : ZoneInfo) (entry : str * PlatformPolicy) : Plan :=
  let '(name, policy) := entry in
  if negb (enabled policy) || negb (truthy (schedule policy)) then Skip
  else
    match _parse_schedule_hhmm (default [] (schedule policy)) with
    | Raise e => Fail e
    | Ok hhmm =>
        match cron_trigger (fst hhmm) (snd hhmm) tz with
        | Raise e => Fail e
        | Ok trig => Install (py "platform::" ++ name) (platform_job name trig)
        end
    end.

(** The job ids a configuration calls for, besides the watcher's. *)
Definition wanted_job_id (cfg : RulesConfig) (k : str) : Prop :=
  (exists source, In source (sources cfg) /\ k = py "source::" ++ id source)
  \/ (exists name policy,
        In (name, policy) (platforms cfg)
        /\ enabled policy = true /\ truthy (schedule policy) = true
        /\ k = py "platform::" ++ name)
  \/ k = py "maintenance::cleanup".

(** The lock is held only while some run is in the locked region. *)
Definition lock_is_owned (sys : RunLock.Sys) : Prop :=
  RunLock._run_lock sys = true ->
  exists i, RunLock.holding (RunLock.runs sys) i.

(** Run [i] of [source] has returned. *)
Definition returned (sys : RunLock.Sys) (i : nat) (source : str) : Prop :=
  RunLock.runs sys !! i
  = Some {| RunLock.run_of := source; RunLock.phase := RunLock.Returned |}.

(** The collaborator behind [reply] gave the answer [r] to a request
    made after those of [since]. *)
Definition answered {A} (reply : list Sent -> result A) (since : list Sent)
    (r : result A) : Prop :=
  exists history, since `prefix_of` history /\ reply history = r.

(** How the body of one item ends, and on which answers. *)
Definition item_verdict (env : Env) (source : SourceConfig)
    (item : NormalizedItem) (pack : ContentPack)
    (counters : Counters) (since : list Sent) (r : result Counters) : Prop :=
  let check := fun h => hippocampus_check_duplicate env h (url_hash item) in
  let archive := fun h => archivist_archive env h pack in
  let remember := fun archived h =>
    hippocampus_remember env h (make_remember source item archived) in
  (r = Ok (incr_duplicated counters) /\ answered check since (Ok true))
  \/ (r = Ok (incr_filtered counters)
      /\ answered check since (Ok false)
      /\ _is_high_value_signal item = false)
  \/ (r = Ok (incr_processed counters)
      /\ answered check since (Ok false)
      /\ _is_high_value_signal item = true
      /\ exists archived,
           answered archive since (Ok archived)
           /\ answered (remember archived) since (Ok tt))
  \/ (exists e,
        r = Raise e
        /\ (answered check since (Raise e)
            \/ (answered check since (Ok false)
                /\ _is_high_value_signal item = true
                /\ (answered archive since (Raise e)
                    \/ exists archived,
                         answered archive since (Ok archived)
                         /\ answered (remember archived) since (Raise e))))).

(** A configuration whose jobs can all be built in time zone [tz]:
    every source interval parses, to a number of seconds a [timedelta]
    can hold and that, counted from now, ends within the range of
    [datetime]; and every enabled platform with a schedule has one that
    reads as an hour below 24 and a minute below 60. *)
Definition schedulable (env : Env) (tz : ZoneInfo) (cfg : RulesConfig)
  : Prop :=
  Forall (fun source =>
            exists seconds,
              interval_to_seconds (fetch_interval source) = Ok seconds
              /\ seconds / 86400 <= timedelta_max_days
              /\ interval_length seconds <= horizon env tz)
         (sources cfg)
  /\ Forall (fun entry : str * PlatformPolicy =>
               enabled (snd entry) = true ->
               forall raw, schedule (snd entry) = Some raw -> raw <> [] ->
               exists hour minute,
                 _parse_schedule_hhmm raw = Ok (hour, minute)
                 /\ 0 <= hour <= 23 /\ 0 <= minute <= 59)
            (platforms cfg).

(** The requests of the items of a scan, item by item: [per_item] holds
    for each item, in the order of the scan, the requests of one of its
    courses. *)
Definition item_by_item (self : State) (source : SourceConfig)
    (items : list NormalizedItem) (per_item : list (list Request)) : Prop :=
  Forall2
    (fun item reqs =>
       exists counters r,
         item_run source item
           (make_content_pack self source item (trace_id_of source item))
           counters reqs r)
    items per_item.

(** The job store after the plans for [l] have been carried out in
    order, none of them failing. *)
Fixpoint installed {A} (plan : A -> Plan) (l : list A) (js : gmap str Job)
  : gmap str Job :=
  match l with
  | [] => js
  | x :: l' =>
      installed plan l'
        (match plan x with Install k j => <[k := j]> js | _ => js end)
  end.

(** The job store a reload builds for [cfg] in time zone [tz], from a
    store in which only the watcher, if it was scheduled, is left. *)
Definition topology_of (env : Env) (cfg : RulesConfig) (tz : ZoneInfo)
    (watcher : option Job) : gmap str Job :=
  <[py "maintenance::cleanup" :=
      {| func := CleanupMemory; trigger := CronTrigger 3 30 tz;
         max_instances := Some 1; coalesce := None |}]>
    (installed (platform_plan tz) (platforms cfg)
       (installed (source_plan env tz) (sorted_by_weight (sources cfg))
          (match watcher with
           | Some job => {[config_watcher := job]}
           | None => ∅
           end))).

(** Job [j] under id [k] is one a reload of [cfg] in time zone [tz]
    installs: the job of a source, of a platform, or the cleanup job. *)
Definition installs (env : Env) (cfg : RulesConfig) (tz : ZoneInfo)
    (k : str) (j : Job) : Prop :=
  (exists source,
     In source (sources cfg) /\ source_plan env tz source = Install k j)
  \/ (exists entry,
        In entry (platforms cfg) /\ platform_plan tz entry = Install k j)
  \/ (k = py "maintenance::cleanup"
      /\ j = {| func := CleanupMemory; trigger := CronTrigger 3 30 tz;
                max_instances := Some 1; coalesce := None |}).

(** Descending by weight. *)
Definition heavier_first (a b : SourceConfig) : Prop := weight b <= weight a.

(** * Theorems *)

(** ** Python strings *)

(** [str.lower] on letters outside ASCII: a capital with an accent, the
    two forms of the small sigma (final after a cased letter and before
    none, also across a combining accent), the dotted capital I, which
    becomes two code points, the Kelvin sign, the capital sharp s and a
    digraph. *)
Example lower_follows_unicode :
  lower [201; 67; 79; 76; 69]%N = [233; 99; 111; 108; 101]%N
  /\ lower [927; 916; 927; 931]%N = [959; 948; 959; 962]%N
  /\ lower [931]%N = [963]%N
  /\ lower [931; 913; 931]%N = [963; 945; 962]%N
  /\ lower [913; 769; 931]%N = [945; 769; 962]%N
  /\ lower [913; 931; 32; 914]%N = [945; 962; 32; 946]%N
  /\ lower [304]%N = [105; 775]%N
  /\ lower [8490]%N = [107]%N
  /\ lower [7838]%N = [223]%N
  /\ lower [452]%N = [454]%N
  /\ lower (py "Tech-Blog 42") = py "tech-blog 42".
Proof. repeat split; vm_compute; reflexivity. Qed.

(** [int] reads signs, underscores between digits and surrounding white
    space, and refuses a literal of more than 4300 digits, zeros
    included. *)
Example py_int_literals :
  py_int (py " 08 ") = Some 8
  /\ py_int (py "-5") = Some (-5)
  /\ py_int (py "1_000") = Some 1000
  /\ py_int (py "") = None
  /\ py_int (py "3x") = None
  /\ py_int (repeat 48%N 4300) = Some 0
  /\ py_int (repeat 48%N 4301) = None
  /\ py_int (py "-" ++ repeat 49%N 4300) <> None.
Proof.
  do 7 (split; [vm_compute; reflexivity |]).
  vm_compute. discriminate.
Qed.

(** ** Interval parser *)

Section IntervalParser.

Lemma span_digits_split (s : str) :
  s = fst (span_digits s) ++ snd (span_digits s)
  /\ Forall (fun c => is_decimal c = true) (fst (span_digits s)).
Proof.
  induction s as [|c s [IHs IHd]]; simpl.
  - split; [reflexivity | constructor].
  - destruct (is_decimal c) eqn:Hc.
    + destruct (span_digits s) as [ds rest]; simpl in *.
      split; [congruence | constructor; assumption].
    + split; [reflexivity | constructor].
Qed.

Lemma span_digits_unit (ds : str) (unit : N) :
  Forall (fun c => is_decimal c = true) ds -> is_decimal unit = false ->
  span_digits (ds ++ [unit]) = (ds, [unit]).
Proof.
  intros Hds Hu. induction Hds as [|c ds Hc _ IH]; simpl.
  - rewrite Hu. reflexivity.
  - rewrite Hc, IH. reflexivity.
Qed.

Lemma is_unit_not_decimal (c : N) : is_unit c = true -> is_decimal c = false.
Proof.
  unfold is_unit, char_m, char_h. intros H.
  apply orb_true_iff in H as [H | H]; apply N.eqb_eq in H; subst; reflexivity.
Qed.

Lemma lstrip_head (s : str) :
  match lstrip s with [] => True | c :: _ => is_space c = false end.
Proof.
  induction s as [|c s IH]; simpl; [exact I |].
  destruct (is_space c) eqn:Hc; [exact IH | exact Hc].
Qed.

(** What [strip] leaves does not end in white space. *)
Lemma strip_last (s pre : str) (c : N) :
  strip s = pre ++ [c] -> is_space c = false.
Proof.
  unfold strip, rstrip. intros H.
  pose proof (lstrip_head (rev (lstrip s))) as Hh.
  apply (f_equal (@rev N)) in H.
  rewrite rev_involutive, rev_app_distr in H. simpl in H.
  rewrite H in Hh. exact Hh.
Qed.

Lemma lower_in_above (bound : N) (runs : list (N * N * N * N)) (c l : N) :
  forallb (fun r => (bound <? snd r)%N) runs = true ->
  lower_in runs c = Some l -> (bound < l)%N.
Proof.
  induction runs as [|[[[lo hi] step] lo'] runs IH]; cbn [lower_in forallb];
    [discriminate |].
  intros Hall. apply andb_true_iff in Hall as [Hlo Hall]. cbn [snd] in Hlo.
  destruct ((lo <=? c) && (c <=? hi) && ((c - lo) mod step =? 0))%N.
  - intros [= <-]. apply N.ltb_lt in Hlo. lia.
  - apply IH, Hall.
Qed.

Lemma lower_char_last (c : N) :
  is_space c = false ->
  exists pre d, lower_char c = pre ++ [d] /\ d <> newline.
Proof.
  intros Hc. unfold lower_char.
  destruct (c =? 304)%N.
  - exists [105%N], 775%N. split; [reflexivity | discriminate].
  - destruct (lower_in lower_runs c) as [l|] eqn:Hl.
    + exists [], l. split; [reflexivity |].
      assert (10 < l)%N as Hgt
        by (apply (lower_in_above 10 lower_runs c l); [reflexivity | exact Hl]).
      unfold newline. lia.
    + exists [], c. split; [reflexivity |].
      intros ->. discriminate Hc.
Qed.

(** The end of a lowered text is the lower case of its last character. *)
Lemma lower_from_last (s before : str) (c : N) :
  exists pre d,
    lower_from before (s ++ [c]) = pre ++ [d]
    /\ (d = 962%N \/ d = 963%N \/ exists p, lower_char c = p ++ [d]).
Proof.
  revert before. induction s as [|x s IH]; intros before.
  - cbn [app lower_from]. rewrite app_nil_r.
    destruct (c =? 931)%N.
    + destruct (final_sigma before []); eexists [], _;
        (split; [reflexivity |]); auto.
    + unfold lower_char.
      destruct (c =? 304)%N;
        [exists [105%N], 775%N; split; [reflexivity |];
         right; right; exists [105%N]; reflexivity |].
      destruct (lower_in lower_runs c) as [l|];
        eexists [], _; (split; [reflexivity |]);
        right; right; exists []; reflexivity.
  - cbn [app lower_from].
    destruct (IH (x :: before)) as (pre & d & -> & Hd).
    eexists (_ ++ pre), d. split; [rewrite app_assoc; reflexivity | exact Hd].
Qed.

(** The string the pattern is matched against never ends in a newline, so
    [$] only ever matches at its very end. *)
Lemma lower_strip_no_final_newline (text pre : str) :
  lower (strip text) <> pre ++ [newline].
Proof.
  intros H.
  assert (strip text = [] \/ exists s0 c0, strip text = s0 ++ [c0])
    as [Hs | (s0 & c0 & Hs)]
    by (induction (strip text) using rev_ind; eauto).
  - rewrite Hs in H. destruct pre; discriminate H.
  - rewrite Hs in H. apply strip_last in Hs.
    unfold lower in H.
    destruct (lower_from_last s0 [] c0) as (p & d & Hl & Hd).
    rewrite Hl in H. apply app_inj_tail in H as [_ H]. subst d.
    destruct Hd as [Hd | [Hd | (q & Hq)]]; try discriminate Hd.
    destruct (lower_char_last _ Hs) as (p' & d' & Hl' & Hd').
    rewrite Hl' in Hq. apply app_inj_tail in Hq as [_ Hq].
    apply Hd'. exact Hq.
Qed.

Lemma match_interval_some (s ds : str) (unit : N) :
  match_interval s = Some (ds, unit) ->
  ds <> [] /\ Forall (fun c => is_decimal c = true) ds /\ is_unit unit = true
  /\ (s = ds ++ [unit] \/ s = (ds ++ [unit]) ++ [newline]).
Proof.
  unfold match_interval. intros H.
  destruct (span_digits_split s) as [Hs Hd].
  destruct (span_digits s) as [[|d ds'] rest]; simpl in *; [discriminate |].
  destruct rest as [|u [|nl [|]]]; try discriminate.
  - destruct (is_unit u) eqn:Hu; [| discriminate].
    injection H as <- <-. repeat split; [discriminate | assumption | assumption |].
    left. assumption.
  - destruct (is_unit u) eqn:Hu; simpl in H; [| discriminate].
    destruct (nl =? newline)%N eqn:Hnl; [| discriminate].
    apply N.eqb_eq in Hnl. subst nl.
    injection H as <- <-. repeat split; [discriminate | assumption | assumption |].
    right. rewrite Hs. simpl. rewrite <- app_assoc. reflexivity.
Qed.

Lemma match_interval_shape (ds : str) (unit : N) :
  ds <> [] -> Forall (fun c => is_decimal c = true) ds -> is_unit unit = true ->
  match_interval (ds ++ [unit]) = Some (ds, unit).
Proof.
  intros Hne Hds Hu. unfold match_interval.
  rewrite (span_digits_unit ds unit Hds (is_unit_not_decimal _ Hu)).
  destruct ds; [contradiction |]. rewrite Hu. reflexivity.
Qed.

End IntervalParser.

(** C4, counterexample: a zero interval is not rejected; ["0m"] parses
    to 0 seconds. *)
Lemma interval_to_seconds_zero_accepted :
  interval_to_seconds (py "0m") = Ok 0
  /\ is_ok (interval_to_seconds (py "0m")) <> false.
Proof. split; [reflexivity | discriminate]. Qed.

(** C4 (as amended): [interval_to_seconds] succeeds exactly on the texts
    that, stripped of surrounding white space and lower-cased, are one or
    more decimal digits, at most 4300 of them (the limit [int()] puts on
    a literal), followed by [m] or [h], and gives the number times 60 or
    3600.  So "30m" is 1800 and "2h" is 7200 seconds, also in upper case
    and between spaces; a missing unit ("30"), an unknown unit ("2d"), a
    sign ("-5m"), the empty string and a number of 4301 digits raise,
    and every failure is a [ValueError]; zero is accepted ("0m" is 0
    seconds). *)
Theorem interval_to_seconds_spec :
  (forall (text : str) (v : Z),
     interval_to_seconds text = Ok v <->
     exists (ds : str) (unit : N),
       lower (strip text) = ds ++ [unit] /\ ds <> []
       /\ Forall (fun c => is_decimal c = true) ds
       /\ Z.of_nat (length ds) <= int_max_str_digits
       /\ (unit = char_m /\ v = int_of_digits ds * 60
           \/ unit = char_h /\ v = int_of_digits ds * 3600))
  /\ (forall (text : str) (e : Exn),
        interval_to_seconds text = Raise e -> exn_kind_of e = ValueError)
  /\ interval_to_seconds (py "30m") = Ok 1800
  /\ interval_to_seconds (py "2h") = Ok 7200
  /\ interval_to_seconds (py "  30M ") = Ok 1800
  /\ is_ok (interval_to_seconds (py "30")) = false
  /\ is_ok (interval_to_seconds (py "2d")) = false
  /\ is_ok (interval_to_seconds (py "")) = false
  /\ is_ok (interval_to_seconds (py "-5m")) = false
  /\ is_ok (interval_to_seconds (repeat 49%N 4301 ++ py "m")) = false
  /\ interval_to_seconds (repeat 48%N 4300 ++ py "m") = Ok 0
  /\ interval_to_seconds (py "0m") = Ok 0.
Proof.
  split; [| split; [| repeat split; vm_compute; reflexivity]].
  - intros text v. unfold interval_to_seconds. split.
    + destruct (match_interval (lower (strip text))) as [[ds unit]|] eqn:Hm;
        [| discriminate].
      apply match_interval_some in Hm as (Hne & Hds & Hu & [Hs | Hs]);
        [| exfalso; exact (lower_strip_no_final_newline _ _ Hs)].
      destruct (int_max_str_digits <? Z.of_nat (length ds)) eqn:Hlen;
        [discriminate |].
      apply Z.ltb_ge in Hlen.
      intros Hv. exists ds, unit. do 4 (split; [assumption |]).
      unfold is_unit in Hu.
      destruct (unit =? char_m)%N eqn:Hm1.
      * left. apply N.eqb_eq in Hm1. split; congruence.
      * right. simpl in Hu. apply N.eqb_eq in Hu. split; congruence.
    + intros (ds & unit & Hs & Hne & Hds & Hlen & Hu).
      assert (is_unit unit = true) as Hunit
        by (destruct Hu as [[-> _] | [-> _]]; reflexivity).
      rewrite Hs, (match_interval_shape ds unit Hne Hds Hunit).
      apply Z.ltb_ge in Hlen. rewrite Hlen.
      destruct Hu as [[-> ->] | [-> ->]]; reflexivity.
  - intros text e. unfold interval_to_seconds.
    destruct (match_interval (lower (strip text))) as [[ds unit]|];
      [| intros [= <-]; reflexivity].
    destruct (int_max_str_digits <? Z.of_nat (length ds));
      [intros [= <-]; reflexivity |].
    destruct (unit =? char_m)%N; discriminate.
Qed.

(** ** Trace context *)

Section TraceContext.

Lemma id_char_not_space (c : N) : is_id_char c = true -> is_space c = false.
Proof.
  unfold is_id_char, is_space. intros H.
  apply not_true_is_false. intros Hs.
  repeat (apply orb_true_iff in H as [H | H]);
    repeat (apply orb_true_iff in Hs as [Hs | Hs]);
    repeat match goal with
           | H : (_ && _)%bool = true |- _ => apply andb_true_iff in H as [? ?]
           | H : (_ <=? _)%N = true |- _ => apply N.leb_le in H
           | H : (_ =? _)%N = true |- _ => apply N.eqb_eq in H
           end; lia.
Qed.

Lemma lstrip_id (s : str) :
  match s with [] => True | c :: _ => is_space c = false end -> lstrip s = s.
Proof. destruct s as [|c s]; simpl; [reflexivity | intros ->; reflexivity]. Qed.

(** Stripping leaves an identifier unchanged. *)
Lemma strip_valid_id (s : str) :
  Forall (fun c => is_id_char c = true) s -> strip s = s.
Proof.
  intros H. unfold strip, rstrip.
  rewrite (lstrip_id s).
  - rewrite lstrip_id; [apply rev_involutive |].
    destruct (rev s) as [|c r] eqn:Hr; [exact I |].
    apply id_char_not_space.
    rewrite Forall_forall in H. apply H.
    apply list_elem_of_In, in_rev. rewrite Hr. left. reflexivity.
  - destruct H as [|c l Hc _]; [exact I | apply id_char_not_space, Hc].
Qed.

Lemma filter_id_chars (s : str) :
  Forall (fun c => is_id_char c = true) (List.filter is_id_char s).
Proof.
  induction s as [|c s IH]; simpl; [constructor |].
  destruct (is_id_char c) eqn:Hc; [constructor; assumption | assumption].
Qed.

Lemma normalize_id_valid (value : option str) : valid_id (_normalize_id value []).
Proof.
  unfold _normalize_id.
  set (cleaned := List.filter is_id_char (default [] value)).
  assert (valid_id (firstn 64 cleaned)) as Hv.
  { split.
    - apply firstn_le_length.
    - apply Forall_take, filter_id_chars. }
  destruct (firstn 64 cleaned); [split; [simpl; lia | constructor] | exact Hv].
Qed.

Lemma valid_id_nil : valid_id [].
Proof. split; [simpl; lia | constructor]. Qed.

Lemma context_ok_ids (s : State) :
  context_ok s -> valid_id (get_trace_id s) /\ valid_id (get_request_id s).
Proof.
  intros [Ht Hr]. unfold get_trace_id, get_request_id. split.
  - destruct (_TRACE_ID s) as [v|]; simpl; [| apply valid_id_nil].
    specialize (Ht v eq_refl). rewrite strip_valid_id; [exact Ht | apply Ht].
  - destruct (_REQUEST_ID s) as [v|]; simpl; [| apply valid_id_nil].
    specialize (Hr v eq_refl). rewrite strip_valid_id; [exact Hr | apply Hr].
Qed.

Lemma bound_context_ok (t r : option str) (s : State) :
  context_ok s -> context_ok (bound t r s).
Proof.
  intros [Ht Hr]. unfold bound, context_ok.
  destruct t, r; simpl; split; intros v Hv;
    try (injection Hv as <-; apply normalize_id_valid); auto.
Qed.

Lemma bind_log_context_unfold {A} (t r : option str) (body : M A) (s : State) :
  bind_log_context t r body s =
  (let s3 := fst (body (bound t r s)) in
   let s4 := match t with Some _ => set_TRACE_ID (_TRACE_ID s) s3 | None => s3 end in
   match r with Some _ => set_REQUEST_ID (_REQUEST_ID s) s4 | None => s4 end,
   snd (body (bound t r s))).
Proof.
  unfold bind_log_context, try_finally, bound.
  destruct t, r; simpl;
    match goal with |- context [body ?x] => destruct (body x) end; reflexivity.
Qed.

End TraceContext.

(** C10: an id is normalised before [bind_log_context] stores it.  From a
    context whose variables are unset or hold valid ids, the body runs in
    a state where each bound id reads as its normalised form, both
    [get_trace_id] and [get_request_id] return valid ids (at most 64
    characters over [[a-zA-Z0-9_-]], possibly empty), and the context is
    again well formed on exit if the body left it so. *)
Theorem bind_log_context_normalizes {A} (t r : option str) (body : M A)
    (s : State) :
  context_ok s ->
  let inside := bound t r s in
  snd (bind_log_context t r body s) = snd (body inside)
  /\ (forall x, t = Some x -> get_trace_id inside = _normalize_id (Some x) [])
  /\ (forall x, r = Some x -> get_request_id inside = _normalize_id (Some x) [])
  /\ valid_id (get_trace_id inside) /\ valid_id (get_request_id inside)
  /\ context_ok inside
  /\ (context_ok (fst (body inside)) ->
      context_ok (fst (bind_log_context t r body s))).
Proof.
  intros Hs inside.
  pose proof (bound_context_ok t r s Hs) as Hin.
  destruct (context_ok_ids inside Hin) as [Hvt Hvr].
  rewrite bind_log_context_unfold. fold inside. simpl.
  split; [reflexivity |]. split; [| split; [| split; [| split; [| split]]]];
    try assumption.
  - intros x ->. unfold inside, bound, get_trace_id.
    destruct r; simpl; apply strip_valid_id, normalize_id_valid.
  - intros x ->. unfold inside, bound, get_request_id.
    simpl. apply strip_valid_id, normalize_id_valid.
  - intros [H1 H2]. destruct Hs as [Hs1 Hs2].
    split; destruct t, r; simpl; auto.
Qed.

(** C10, witness: in a fresh process, a trace id with spaces and
    punctuation is read back cleaned inside the block. *)
Lemma bind_log_context_normalizes_witness :
  context_ok init_state
  /\ get_trace_id (bound (Some (py "trace unit/001!")) None init_state)
     = py "traceunit001".
Proof.
  split.
  - split; intros v Hv; discriminate Hv.
  - refine (proj1 (proj2 (bind_log_context_normalizes
                            (Some (py "trace unit/001!")) None (ret tt)
                            init_state _)) _ eq_refl).
    split; intros v Hv; discriminate Hv.
Defined.

(** C7: on exit from [bind_log_context], by return or by exception, each
    id the call bound is back to the value it had on entry, whatever the
    body did; with a body that leaves the context as it found it (as a
    nested [bind_log_context] does), both variables and both ids are those
    of entry, and the block as a whole is such a body again, so nested
    bindings restore the enclosing context.  The body's outcome, normal or
    exceptional, is passed on unchanged. *)
Theorem bind_log_context_restores {A} (t r : option str) (body : M A)
    (s : State) :
  let s' := fst (bind_log_context t r body s) in
  (t <> None -> _TRACE_ID s' = _TRACE_ID s)
  /\ (r <> None -> _REQUEST_ID s' = _REQUEST_ID s)
  /\ snd (bind_log_context t r body s) = snd (body (bound t r s))
  /\ (scoped body ->
      _TRACE_ID s' = _TRACE_ID s /\ _REQUEST_ID s' = _REQUEST_ID s
      /\ get_trace_id s' = get_trace_id s
      /\ get_request_id s' = get_request_id s)
  /\ (scoped body -> scoped (bind_log_context t r body)).
Proof.
  assert (forall s0, scoped body ->
            _TRACE_ID (fst (bind_log_context t r body s0)) = _TRACE_ID s0
            /\ _REQUEST_ID (fst (bind_log_context t r body s0)) = _REQUEST_ID s0)
    as Hscoped.
  { intros s0 Hb. rewrite bind_log_context_unfold.
    destruct (Hb (bound t r s0)) as [H1 H2].
    unfold bound in *. destruct t, r; simpl in *; auto. }
  intros s'. subst s'.
  split; [| split; [| split; [| split]]].
  - intros Ht. rewrite bind_log_context_unfold.
    destruct t; [| contradiction]. destruct r; reflexivity.
  - intros Hr. rewrite bind_log_context_unfold.
    destruct r; [| contradiction]. destruct t; reflexivity.
  - rewrite bind_log_context_unfold. reflexivity.
  - intros Hb. destruct (Hscoped s Hb) as [Ht Hr].
    unfold get_trace_id, get_request_id. rewrite Ht, Hr. auto.
  - intros Hb s0. apply Hscoped, Hb.
Qed.

(** C7, witness: an outer binding, a nested binding whose body raises;
    after the outer block the process is back to no ids at all, and the
    exception has come through. *)
Lemma bind_log_context_restores_witness :
  let boom : M unit := raise (Exception RuntimeError (Text (py "boom"))) in
  let nested := bind_log_context (Some (py "inner")) (Some (py "req-2")) boom in
  scoped boom
  /\ get_trace_id (fst (bind_log_context (Some (py "outer")) None nested init_state))
     = get_trace_id init_state
  /\ snd (bind_log_context (Some (py "outer")) None nested init_state)
     = Raise (Exception RuntimeError (Text (py "boom"))).
Proof.
  intros boom nested.
  assert (scoped boom) as Hboom by (intros s; split; reflexivity).
  assert (scoped nested) as Hnested.
  { apply (bind_log_context_restores (Some (py "inner")) (Some (py "req-2"))
             boom init_state), Hboom. }
  split; [exact Hboom |]. split.
  - apply (bind_log_context_restores (Some (py "outer")) None nested init_state),
      Hnested.
  - reflexivity.
Defined.

(** ** Outbound calls *)

Section OutboundCalls.

Context {A : Type} (reply : list Sent -> result A) (req : Request).

Lemma stamped_set_sent (v : list Sent) (s : State) :
  stamped req (set_sent v s) = stamped req s.
Proof. reflexivity. Qed.

Lemma set_sent_twice (v w : list Sent) (s : State) :
  set_sent v (set_sent w s) = set_sent v s.
Proof. reflexivity. Qed.

(** A call whose first attempt is answered makes exactly one request. *)
Lemma post_json_ok (s : State) (a : A) :
  reply (sent s) = Ok a ->
  post_json reply req s = (set_sent (sent s ++ [stamped req s]) s, Ok a).
Proof.
  intros H. unfold post_json, try_except, attempt. rewrite H. reflexivity.
Qed.

(** Whatever the replies, a call only appends requests of its own, at
    least one and at most three, and touches nothing else. *)
Lemma post_json_frame (s : State) :
  exists (n : nat) (r : result A),
    post_json reply req s
    = (set_sent (sent s ++ stamped req s :: repeat (stamped req s) n) s, r)
    /\ (n <= 2)%nat.
Proof.
  unfold post_json, try_except, attempt.
  destruct (reply (sent s)) as [a|e1] eqn:H1.
  - exists 0%nat, (Ok a). split; [reflexivity | lia].
  - cbn [sent set_sent]. rewrite ?stamped_set_sent, ?set_sent_twice.
    destruct (reply (sent s ++ [stamped req s])) as [a|e2] eqn:H2.
    + exists 1%nat, (Ok a). split; [| lia].
      cbn [repeat]. rewrite <- app_assoc. reflexivity.
    + exists 2%nat. eexists. split; [| lia].
      cbn [sent set_sent repeat].
      rewrite ?stamped_set_sent, ?set_sent_twice, <- !app_assoc.
      reflexivity.
Qed.

(** When every attempt is refused, the call makes three and raises. *)
Lemma post_json_all_fail (s : State) :
  (forall before, is_ok (reply before) = false) ->
  exists e,
    post_json reply req s
    = (set_sent (sent s ++ [stamped req s; stamped req s; stamped req s]) s,
       Raise e).
Proof.
  intros H. unfold post_json, try_except, attempt.
  pose proof (H (sent s)) as H1.
  destruct (reply (sent s)) as [a|e1]; [discriminate |].
  cbn [sent set_sent]. rewrite ?stamped_set_sent, ?set_sent_twice.
  pose proof (H (sent s ++ [stamped req s])) as H2.
  destruct (reply (sent s ++ [stamped req s])) as [a|e2]; [discriminate |].
  cbn [sent set_sent]. rewrite ?stamped_set_sent, ?set_sent_twice.
  pose proof (H ((sent s ++ [stamped req s]) ++ [stamped req s])) as H3.
  destruct (reply ((sent s ++ [stamped req s]) ++ [stamped req s])) as [a|e3];
    [discriminate |].
  exists e3. rewrite <- !app_assoc. reflexivity.
Qed.

End OutboundCalls.

(** ** Pipeline runner *)

Section PipelineRunner.

Variable env : Env.
Variable source : SourceConfig.

(** An item that is new and of high value is archived: the duplicate
    check is followed at once by the archive request for its pack, and
    [item_body] changes nothing but the list of requests sent. *)
Lemma item_body_archives (item : NormalizedItem) (trace_id : str)
    (counters : Counters) (s : State) :
  (forall before, hippocampus_check_duplicate env before (url_hash item) = Ok false) ->
  _is_high_value_signal item = true ->
  exists rest r,
    item_body env source item trace_id counters s
    = (set_sent
         (sent s
          ++ stamped (ReqCheckDuplicate (url_hash item)) s
          :: stamped (ReqArchive (make_content_pack s source item trace_id)) s
          :: rest) s, r).
Proof.
  intros Hdup Hhigh. unfold item_body, bind at 1.
  rewrite (post_json_ok _ _ s false (Hdup _)).
  unfold bind at 1, get_state. rewrite Hhigh. cbn [negb].
  set (s1 := set_sent _ s).
  change (make_content_pack s1 source item trace_id)
    with (make_content_pack s source item trace_id).
  set (pack := make_content_pack s source item trace_id).
  unfold bind at 1.
  destruct (post_json_frame
              (fun before => archivist_archive env before pack)
              (ReqArchive pack) s1) as (n & r & Hpost & _).
  rewrite Hpost. clear Hpost.
  destruct r as [archive_result|e].
  - unfold bind at 1.
    set (s2 := set_sent _ s1).
    set (remember := make_remember source item archive_result).
    destruct (post_json_frame
                (fun before => hippocampus_remember env before remember)
                (ReqRemember remember) s2) as (m & r & Hpost & _).
    rewrite Hpost. clear Hpost.
    eexists. exists (match r with Ok _ => Ok (incr_processed counters)
                             | Raise e => Raise e end).
    destruct r; unfold ret; subst s2 s1; cbn;
      rewrite <- !app_assoc; cbn; reflexivity.
  - eexists. exists (Raise e). subst s1. cbn.
    rewrite <- !app_assoc. cbn. reflexivity.
Qed.

Lemma process_item_sent (counters : Counters) (item : NormalizedItem)
    (s : State) (body_result : State * result Counters) :
  item_body env source item (trace_id_of source item) counters
    (bound (Some (trace_id_of source item)) None s) = body_result ->
  sent (fst (process_item env source counters item s)) = sent (fst body_result).
Proof.
  intros Hbody. unfold process_item, try_except.
  rewrite bind_log_context_unfold, Hbody.
  destruct body_result as [s3 [c|e]]; reflexivity.
Qed.

(** C9: for an item that is not a duplicate and passes the value filter,
    the pack sent to the archive has [channels] equal to the default
    ["twitter", "wechat_blog"] when no rules are loaded or no platform
    policy is enabled, and otherwise to the names of the enabled platform
    policies, in configuration order (a non-empty list). *)
Theorem content_pack_channels (counters : Counters) (item : NormalizedItem)
    (s : State) :
  (forall before, hippocampus_check_duplicate env before (url_hash item) = Ok false) ->
  _is_high_value_signal item = true ->
  exists hdrs pack rest,
    sent (fst (process_item env source counters item s))
    = sent s
      ++ {| headers := hdrs; request := ReqCheckDuplicate (url_hash item) |}
      :: {| headers := hdrs; request := ReqArchive pack |} :: rest
    /\ (rules s = None -> channels pack = [py "twitter"; py "wechat_blog"])
    /\ (forall cfg, rules s = Some cfg ->
        Forall (fun np => enabled (snd np) = false) (platforms cfg) ->
        channels pack = [py "twitter"; py "wechat_blog"])
    /\ (forall cfg, rules s = Some cfg ->
        Exists (fun np => enabled (snd np) = true) (platforms cfg) ->
        channels pack
        = map fst (List.filter (fun np => enabled (snd np)) (platforms cfg))
        /\ channels pack <> []).
Proof.
  intros Hdup Hhigh.
  set (tid := trace_id_of source item).
  set (inside := bound (Some tid) None s).
  destruct (item_body_archives item tid counters inside Hdup Hhigh)
    as (rest & r & Hbody).
  exists (outbound_trace_headers inside),
         (make_content_pack inside source item tid), rest.
  split.
  - rewrite (process_item_sent counters item s _ Hbody). reflexivity.
  - cbn [channels make_content_pack]. unfold platform_strategy.
    change (rules inside) with (rules s).
    split; [| split].
    + intros ->. reflexivity.
    + intros cfg -> Hnone.
      induction Hnone as [|[n p] l Hp _ IH]; [reflexivity |].
      cbn in *. rewrite Hp. exact IH.
    + intros cfg -> Hsome.
      assert (map fst (List.filter (fun np => enabled (snd np)) (platforms cfg))
              <> []) as Hne.
      { induction Hsome as [[n p] l Hp | [n p] l _ IH]; cbn in *.
        - rewrite Hp. discriminate.
        - destruct (enabled p); [discriminate | exact IH]. }
      destruct (map fst _) eqn:Hm; [contradiction | split; [reflexivity | discriminate]].
Qed.

End PipelineRunner.

(** C9, witness: with the rules of the scenario loaded, where only
    [twitter] is enabled, item [c] is archived for [twitter] alone. *)
Lemma content_pack_channels_witness :
  exists hdrs pack rest,
    sent (fst (process_item Scenario.env Scenario.hn
                 {| cnt_source_id := py "hn"; cnt_scanned := 1;
                    cnt_processed := 0; cnt_duplicated := 0; cnt_filtered := 0;
                    cnt_failed := 0; cnt_started_at := 0 |}
                 Scenario.item_c Scenario.running))
    = sent Scenario.running
      ++ {| headers := hdrs;
            request := ReqCheckDuplicate (url_hash Scenario.item_c) |}
      :: {| headers := hdrs; request := ReqArchive pack |} :: rest
    /\ channels pack = [py "twitter"].
Proof.
  destruct (content_pack_channels Scenario.env Scenario.hn
              {| cnt_source_id := py "hn"; cnt_scanned := 1;
                 cnt_processed := 0; cnt_duplicated := 0; cnt_filtered := 0;
                 cnt_failed := 0; cnt_started_at := 0 |}
              Scenario.item_c Scenario.running
              (fun _ => eq_refl) eq_refl)
    as (hdrs & pack & rest & Hsent & _ & _ & Hsome).
  exists hdrs, pack, rest. split; [exact Hsent |].
  refine (proj1 (Hsome Scenario.good_rules _ _)).
  - vm_compute. reflexivity.
  - apply Exists_cons_hd. reflexivity.
Defined.

Section ScanFailure.

Variable env : Env.
Variable source : SourceConfig.

Hypothesis scan_down :
  forall before, is_ok (sentry_scan env before source) = false.

Lemma locked_section_scan_down (counters : Counters) (s : State) :
  exists e,
    locked_section env source counters s
    = (set_logged
         (logged s ++ [{| log_event := SourceRunFailed (id source) e;
                          log_trace_id := get_trace_id s;
                          log_request_id := get_request_id s |}])
         (set_sent (sent s ++ repeat (stamped (ReqScan source) s) 3) s),
       Ok (incr_failed counters)).
Proof.
  destruct (post_json_all_fail
              (fun before => sentry_scan env before source) (ReqScan source) s
              scan_down) as [e He].
  exists e. unfold locked_section, try_except, bind at 1.
  rewrite He. reflexivity.
Qed.

(** C3: when the scan collaborator raises, [run_source] returns a summary
    with [scanned = 0] and [failed = 1] (nothing processed or duplicated),
    whose [started_at] and [ended_at] are the two clock readings of the
    run; the summary is stored under the source id in [last_runs]; and the
    only requests the run has sent are the (three, retried) scan requests:
    no duplicate check, no archive, no remember. *)
Theorem run_source_scan_failure (s : State) :
  exists s' summary,
    run_source env source s = (s', Ok summary)
    /\ dict_get (py "scanned") summary = Some (JInt 0)
    /\ dict_get (py "failed") summary = Some (JInt 1)
    /\ dict_get (py "processed") summary = Some (JInt 0)
    /\ dict_get (py "duplicated") summary = Some (JInt 0)
    /\ dict_get (py "started_at") summary
       = Some (JTime (clock env (clock_reads s)))
    /\ dict_get (py "ended_at") summary
       = Some (JTime (clock env (S (clock_reads s))))
    /\ last_runs s' !! id source = Some summary
    /\ sent_since s s' = [ReqScan source; ReqScan source; ReqScan source].
Proof.
  unfold run_source, bind at 1, utcnow.
  unfold bind at 1, log at 1, modify at 1.
  unfold bind at 1.
  match goal with
  | |- context [locked_section env source ?c ?s0] =>
      destruct (locked_section_scan_down c s0) as [e He]; rewrite He
  end.
  unfold bind, utcnow, modify, log, ret. cbn -[dict_get py].
  eexists. eexists. split; [reflexivity |].
  repeat split; try reflexivity.
  - apply lookup_insert_eq.
  - unfold sent_since. cbn. rewrite drop_app_length. reflexivity.
Qed.

End ScanFailure.

(** C3, witness: the scenario with the scan service down. *)
Lemma run_source_scan_failure_witness :
  exists s' summary,
    run_source Scenario.env_scan_down Scenario.hn Scenario.running
    = (s', Ok summary)
    /\ dict_get (py "scanned") summary = Some (JInt 0)
    /\ dict_get (py "failed") summary = Some (JInt 1)
    /\ sent_since Scenario.running s'
       = [ReqScan Scenario.hn; ReqScan Scenario.hn; ReqScan Scenario.hn].
Proof.
  destruct (run_source_scan_failure Scenario.env_scan_down Scenario.hn
              (fun _ => eq_refl) Scenario.running)
    as (s' & summary & Hrun & Hsc & Hf & _ & _ & _ & _ & _ & Hsent).
  exists s', summary. auto.
Defined.

Section ThreeItems.

Variable env : Env.
Variable source : SourceConfig.

Lemma leave_binding (v : list Sent) (t : option str) (s : State) :
  set_TRACE_ID (_TRACE_ID s) (set_sent v (set_TRACE_ID t s)) = set_sent v s.
Proof. destruct s. reflexivity. Qed.

(** The per-item wrapper around a body that ends normally: the trace
    binding is undone and the counters are the body's. *)
Lemma process_item_of_body (counters counters' : Counters)
    (item : NormalizedItem) (s : State) (v : list Sent) :
  item_body env source item (trace_id_of source item) counters
    (bound (Some (trace_id_of source item)) None s)
  = (set_sent v (bound (Some (trace_id_of source item)) None s), Ok counters') ->
  process_item env source counters item s = (set_sent v s, Ok counters').
Proof.
  intros Hbody. unfold process_item, try_except.
  rewrite bind_log_context_unfold, Hbody.
  cbn [fst snd bound]. rewrite leave_binding. reflexivity.
Qed.

(** A duplicate costs one request and counts as duplicated. *)
Lemma process_item_duplicate (counters : Counters) (item : NormalizedItem)
    (s : State) :
  (forall before, hippocampus_check_duplicate env before (url_hash item) = Ok true) ->
  exists extra,
    process_item env source counters item s
    = (set_sent (sent s ++ extra) s, Ok (incr_duplicated counters)).
Proof.
  intros Hdup. eexists. apply process_item_of_body.
  unfold item_body, bind at 1.
  rewrite (post_json_ok _ _ _ true (Hdup _)). reflexivity.
Qed.

(** A new item below the value threshold costs one request and counts
    as filtered. *)
Lemma process_item_filtered (counters : Counters) (item : NormalizedItem)
    (s : State) :
  (forall before, hippocampus_check_duplicate env before (url_hash item) = Ok false) ->
  _is_high_value_signal item = false ->
  exists extra,
    process_item env source counters item s
    = (set_sent (sent s ++ extra) s, Ok (incr_filtered counters)).
Proof.
  intros Hdup Hlow. eexists. apply process_item_of_body.
  unfold item_body, bind at 1.
  rewrite (post_json_ok _ _ _ false (Hdup _)).
  unfold bind, get_state. rewrite Hlow. reflexivity.
Qed.

(** A new item of high value that is archived and remembered without
    error counts as processed. *)
Lemma process_item_processed (counters : Counters) (item : NormalizedItem)
    (s : State) :
  (forall before, hippocampus_check_duplicate env before (url_hash item) = Ok false) ->
  _is_high_value_signal item = true ->
  (forall before pack, is_ok (archivist_archive env before pack) = true) ->
  (forall before req, is_ok (hippocampus_remember env before req) = true) ->
  exists extra,
    process_item env source counters item s
    = (set_sent (sent s ++ extra) s, Ok (incr_processed counters)).
Proof.
  intros Hdup Hhigh Harch Hrem.
  set (tid := trace_id_of source item).
  set (inside := bound (Some tid) None s).
  assert (exists extra,
            item_body env source item tid counters inside
            = (set_sent (sent inside ++ extra) inside, Ok (incr_processed counters)))
    as [extra Hbody].
  { unfold item_body, bind at 1.
    rewrite (post_json_ok _ _ _ false (Hdup _)).
    unfold bind at 1, get_state. rewrite Hhigh. cbn [negb].
    unfold bind at 1.
    match goal with
    | |- context [post_json ?reply (ReqArchive ?pack) ?s0] =>
        pose proof (Harch (sent s0) pack) as Ha;
        destruct (archivist_archive env (sent s0) pack) as [res|] eqn:Hres;
          [| discriminate Ha];
        rewrite (post_json_ok reply (ReqArchive pack) s0 res Hres)
    end.
    unfold bind at 1.
    match goal with
    | |- context [post_json ?reply (ReqRemember ?req) ?s0] =>
        pose proof (Hrem (sent s0) req) as Hr;
        destruct (hippocampus_remember env (sent s0) req) as [ack|] eqn:Hack;
          [| discriminate Hr];
        rewrite (post_json_ok reply (ReqRemember req) s0 ack Hack)
    end.
    eexists. unfold ret. cbn [sent set_sent].
    rewrite ?set_sent_twice, <- !app_assoc. reflexivity. }
  exists extra. apply process_item_of_body. exact Hbody.
Qed.

(** C2 (as amended): in the 3-item scenario [run_source] returns a
    summary with [scanned = 3], [processed = 1], [duplicated = 1] and
    [failed = 0], and stores it in [last_runs]; the summary has no
    [filtered] entry, the count of filtered items (1) being reported in
    the run's closing log record only. *)
Theorem run_source_three_items (a b c : NormalizedItem) (s : State) :
  three_item_scenario env source a b c ->
  exists s' summary earlier,
    run_source env source s = (s', Ok summary)
    /\ dict_get (py "scanned") summary = Some (JInt 3)
    /\ dict_get (py "processed") summary = Some (JInt 1)
    /\ dict_get (py "duplicated") summary = Some (JInt 1)
    /\ dict_get (py "failed") summary = Some (JInt 0)
    /\ dict_get (py "filtered") summary = None
    /\ last_runs s' !! id source = Some summary
    /\ logged s'
       = earlier ++ [{| log_event := HeartbeatDone (id source) 3 1 1 1 0;
                        log_trace_id := get_trace_id s;
                        log_request_id := get_request_id s |}].
Proof.
  intros (Hscan & Ha & Hb & Hblow & Hc & Hchigh & Harch & Hrem).
  unfold run_source, bind at 1, utcnow.
  unfold bind at 1, log at 1, modify at 1.
  unfold bind at 1, locked_section, try_except, bind at 1.
  rewrite (post_json_ok _ _ _ _ (Hscan _)).
  cbn [process_items].
  unfold bind at 1.
  match goal with
  | |- context [process_item env source ?k a ?s0] =>
      destruct (process_item_duplicate k a s0 Ha) as [xa ->]
  end.
  unfold bind at 1.
  match goal with
  | |- context [process_item env source ?k b ?s0] =>
      destruct (process_item_filtered k b s0 Hb Hblow) as [xb ->]
  end.
  unfold bind at 1.
  match goal with
  | |- context [process_item env source ?k c ?s0] =>
      destruct (process_item_processed k c s0 Hc Hchigh Harch Hrem) as [xc ->]
  end.
  unfold bind, utcnow, modify, log, ret. cbn -[dict_get py].
  eexists. eexists. eexists. split; [reflexivity |].
  repeat split; try reflexivity.
  apply lookup_insert_eq.
Qed.

End ThreeItems.

Lemma scenario_is_three_item :
  three_item_scenario Scenario.env Scenario.hn
    Scenario.item_a Scenario.item_b Scenario.item_c.
Proof.
  unfold three_item_scenario. repeat split; intros; reflexivity.
Qed.

(** C2, counterexample: in the 3-item scenario the value [run_source]
    returns carries no [filtered] count at all, so it does not yield
    [filtered = 1]. *)
Lemma run_source_yields_no_filtered :
  three_item_scenario Scenario.env Scenario.hn
    Scenario.item_a Scenario.item_b Scenario.item_c
  /\ ~ (exists s' summary,
          run_source Scenario.env Scenario.hn Scenario.running = (s', Ok summary)
          /\ dict_get (py "filtered") summary = Some (JInt 1)).
Proof.
  split; [exact scenario_is_three_item |].
  intros (s' & summary & Hrun & Hfiltered).
  assert (match snd (run_source Scenario.env Scenario.hn Scenario.running) with
          | Ok returned => dict_get (py "filtered") returned
          | Raise _ => None
          end = None) as Hnone by (vm_compute; reflexivity).
  rewrite Hrun in Hnone. cbn [snd] in Hnone.
  rewrite Hfiltered in Hnone. discriminate Hnone.
Qed.

(** C2, witness: the scenario, run on the started engine. *)
Lemma run_source_three_items_witness :
  exists s' summary earlier,
    run_source Scenario.env Scenario.hn Scenario.running = (s', Ok summary)
    /\ dict_get (py "scanned") summary = Some (JInt 3)
    /\ dict_get (py "processed") summary = Some (JInt 1)
    /\ dict_get (py "duplicated") summary = Some (JInt 1)
    /\ dict_get (py "failed") summary = Some (JInt 0)
    /\ dict_get (py "filtered") summary = None
    /\ last_runs s' !! id Scenario.hn = Some summary
    /\ logged s'
       = earlier ++ [{| log_event := HeartbeatDone (id Scenario.hn) 3 1 1 1 0;
                        log_trace_id := get_trace_id Scenario.running;
                        log_request_id := get_request_id Scenario.running |}].
Proof.
  apply (run_source_three_items Scenario.env Scenario.hn
           Scenario.item_a Scenario.item_b Scenario.item_c Scenario.running).
  unfold three_item_scenario. repeat split; intros; reflexivity.
Defined.

(** ** Scheduler engine *)

Section Combinators.

Context {X : Type} (f : State -> X).

Lemma preserves_ret {A} (a : A) : preserves f (ret a).
Proof. intros s. reflexivity. Qed.

Lemma preserves_lift {A} (r : result A) : preserves f (lift r).
Proof. intros s. reflexivity. Qed.

Lemma preserves_get_state : preserves f get_state.
Proof. intros s. reflexivity. Qed.

Lemma preserves_bind {A B} (m : M A) (k : A -> M B) :
  preserves f m -> (forall a, preserves f (k a)) -> preserves f (bind m k).
Proof.
  intros Hm Hk s. unfold bind. specialize (Hm s).
  destruct (m s) as [s1 [a|e]]; simpl in *; [| exact Hm].
  rewrite (Hk a s1). exact Hm.
Qed.

Lemma preserves_for_each {A} (l : list A) (body : A -> M unit) :
  (forall x, preserves f (body x)) -> preserves f (for_each l body).
Proof.
  intros Hbody. induction l as [|x l IH]; simpl.
  - apply preserves_ret.
  - apply preserves_bind; [apply Hbody | intros _; exact IH].
Qed.

Lemma never_raises_unchanged {A} (m : M A) :
  never_raises m -> unchanged_on_raise f m.
Proof.
  intros Hm s s' e Hs. specialize (Hm s). rewrite Hs in Hm. discriminate Hm.
Qed.

Lemma preserves_unchanged {A} (m : M A) :
  preserves f m -> unchanged_on_raise f m.
Proof. intros Hm s s' e Hs. specialize (Hm s). rewrite Hs in Hm. exact Hm. Qed.

Lemma unchanged_bind {A B} (m : M A) (k : A -> M B) :
  preserves f m -> (forall a, unchanged_on_raise f (k a)) ->
  unchanged_on_raise f (bind m k).
Proof.
  intros Hm Hk s s' e. unfold bind. specialize (Hm s).
  destruct (m s) as [s1 [a|e1]] eqn:Hms; simpl in *.
  - intros Hks. rewrite (Hk a s1 s' e Hks). exact Hm.
  - intros [= <- <-]. exact Hm.
Qed.

End Combinators.

Lemma never_raises_bind {A B} (m : M A) (k : A -> M B) :
  never_raises m -> (forall a, never_raises (k a)) -> never_raises (bind m k).
Proof.
  intros Hm Hk s. unfold bind. specialize (Hm s).
  destruct (m s) as [s1 [a|e]]; simpl in *; [apply Hk | discriminate Hm].
Qed.

Lemma never_raises_modify (g : State -> State) : never_raises (modify g).
Proof. intros s. reflexivity. Qed.

Lemma never_raises_log (ev : Event) : never_raises (log ev).
Proof. intros s. reflexivity. Qed.

Lemma never_raises_add_job (k : str) (j : Job) : never_raises (add_job k j).
Proof. intros s. reflexivity. Qed.

Section ClearRuntimeJobs.

Implicit Types (m : gmap str Job) (l : list (str * Job)) (k : str).

Let drop_runtime m (job : str * Job) : gmap str Job :=
  if str_eqb (fst job) config_watcher then m else delete (fst job) m.

Lemma fold_drop_runtime l m k :
  fold_left drop_runtime l m !! k
  = if bool_decide (k = config_watcher) then m !! k
    else if bool_decide (k ∈ l.*1) then None
    else m !! k.
Proof.
  revert m. induction l as [|[k' j] l IH]; intros m; cbn [fold_left].
  - rewrite fmap_nil.
    rewrite (bool_decide_eq_false_2 (k ∈ [])) by apply not_elem_of_nil.
    case_bool_decide; reflexivity.
  - rewrite IH, fmap_cons. cbn [fst]. clear IH.
    assert (drop_runtime m (k', j) !! k
            = if bool_decide (k = config_watcher) then m !! k
              else if bool_decide (k = k') then None else m !! k) as ->.
    { unfold drop_runtime, str_eqb. simpl.
      destruct (decide (k' = config_watcher)) as [->|Hk'].
      - rewrite bool_decide_eq_true_2 by reflexivity.
        repeat case_bool_decide; congruence.
      - rewrite bool_decide_eq_false_2 by assumption.
        destruct (decide (k = k')) as [->|Hk].
        + rewrite lookup_delete_eq.
          rewrite (bool_decide_eq_false_2 _ Hk').
          rewrite bool_decide_eq_true_2 by reflexivity. reflexivity.
        + rewrite lookup_delete_ne by congruence.
          rewrite (bool_decide_eq_false_2 _ Hk).
          case_bool_decide; reflexivity. }
    destruct (decide (k = config_watcher)) as [->|Hw].
    + rewrite !bool_decide_eq_true_2 by reflexivity. reflexivity.
    + rewrite !(bool_decide_eq_false_2 _ Hw).
      destruct (decide (k = k')) as [->|Hk].
      * rewrite (bool_decide_eq_true_2 (k' = k')) by reflexivity.
        rewrite (bool_decide_eq_true_2 (k' ∈ k' :: l.*1)) by apply list_elem_of_here.
        case_bool_decide; reflexivity.
      * rewrite (bool_decide_eq_false_2 _ Hk).
        destruct (decide (k ∈ l.*1)) as [Hin|Hin].
        -- rewrite (bool_decide_eq_true_2 _ Hin).
           rewrite (bool_decide_eq_true_2 (k ∈ k' :: l.*1))
             by (apply list_elem_of_further, Hin).
           reflexivity.
        -- rewrite (bool_decide_eq_false_2 _ Hin).
           rewrite (bool_decide_eq_false_2 (k ∈ k' :: l.*1))
             by (rewrite elem_of_cons; intros [?|?]; contradiction).
           reflexivity.
Qed.

(** [_clear_runtime_jobs] removes every job but the watcher, and leaves
    the watcher as it is. *)
Lemma clear_runtime_jobs_lookup (s : State) k :
  jobs (fst (_clear_runtime_jobs s)) !! k
  = if bool_decide (k = config_watcher) then jobs s !! k else None.
Proof.
  unfold _clear_runtime_jobs, modify, get_jobs. cbn [fst jobs set_jobs].
  change (fun js job => if str_eqb (fst job) config_watcher then js
                        else delete (fst job) js) with drop_runtime.
  rewrite fold_drop_runtime.
  repeat case_bool_decide; try reflexivity.
  destruct (jobs s !! k) as [j|] eqn:Hk; [| reflexivity].
  exfalso. apply H0. apply list_elem_of_fmap. exists (k, j).
  split; [reflexivity | apply elem_of_map_to_list, Hk].
Qed.

End ClearRuntimeJobs.

Section Reload.

Variable env : Env.

Lemma source_job_id_ne (name : str) : py "source::" ++ name <> config_watcher.
Proof. intros H. apply (f_equal (hd 0%N)) in H. discriminate H. Qed.

Lemma platform_job_id_ne (name : str) : py "platform::" ++ name <> config_watcher.
Proof. intros H. apply (f_equal (hd 0%N)) in H. discriminate H. Qed.

Lemma maintenance_job_id_ne : py "maintenance::cleanup" <> config_watcher.
Proof. discriminate. Qed.

Lemma add_job_keeps_watcher (k : str) (j : Job) :
  k <> config_watcher -> preserves watcher_entry (add_job k j).
Proof.
  intros Hk s. unfold watcher_entry, add_job, modify. cbn [fst jobs set_jobs].
  apply lookup_insert_ne, Hk.
Qed.

Lemma clear_keeps_watcher : preserves watcher_entry _clear_runtime_jobs.
Proof.
  intros s. unfold watcher_entry. rewrite clear_runtime_jobs_lookup.
  rewrite bool_decide_eq_true_2 by reflexivity. reflexivity.
Qed.

(** One step of a proof that a piece of engine code preserves an
    observation: [leaf] closes the steps that write to the state. *)
Ltac preserve_with leaf :=
  repeat first
    [ apply preserves_ret
    | apply preserves_lift
    | apply preserves_get_state
    | apply preserves_bind; [| intros ?]
    | apply preserves_for_each; intros ?
    | leaf ].

Lemma install_keeps_watcher (tz : ZoneInfo) (cfg : RulesConfig) :
  preserves watcher_entry
    (for_each (sorted_by_weight (sources cfg))
       (fun source =>
          seconds <- lift (interval_to_seconds (fetch_interval source)) ;;
          trig <- lift (interval_trigger env seconds tz) ;;
          add_job (py "source::" ++ id source) (source_job source trig))).
Proof.
  preserve_with ltac:(apply add_job_keeps_watcher, source_job_id_ne).
Qed.

(** The watcher's entry is the same before and after a reload, whether
    the reload returns or raises. *)
Lemma load_and_schedule_keeps_watcher (force : bool) :
  preserves watcher_entry (_load_and_schedule env force).
Proof.
  unfold _load_and_schedule.
  apply preserves_bind; [apply preserves_lift | intros fp].
  apply preserves_bind; [apply preserves_get_state | intros self].
  destruct (negb force && str_eqb fp (fingerprint self));
    [apply preserves_ret |].
  apply preserves_bind; [apply preserves_lift | intros cfg].
  apply preserves_bind; [apply preserves_lift | intros tz].
  apply preserves_bind; [apply clear_keeps_watcher | intros _].
  apply preserves_bind; [apply install_keeps_watcher | intros _].
  apply preserves_bind.
  { apply preserves_for_each. intros [name policy].
    destruct (negb (enabled policy) || negb (truthy (schedule policy)));
      preserve_with ltac:(apply add_job_keeps_watcher, platform_job_id_ne). }
  intros _.
  preserve_with ltac:(first
    [ apply add_job_keeps_watcher, maintenance_job_id_ne
    | intros s; reflexivity ]).
Qed.

(** The code up to and including the installation of the jobs never
    assigns [self.rules] or [self.fingerprint]. *)
Lemma load_and_schedule_unchanged_on_raise {X} (f : State -> X) (force : bool) :
  (forall v s, f (set_jobs v s) = f s) ->
  (forall v s, f (set_logged v s) = f s) ->
  unchanged_on_raise f (_load_and_schedule env force).
Proof.
  intros Hjobs Hlogged.
  assert (forall k j, preserves f (add_job k j)) as Hadd
    by (intros k j s; apply Hjobs).
  unfold _load_and_schedule.
  apply unchanged_bind; [apply preserves_lift | intros fp].
  apply unchanged_bind; [apply preserves_get_state | intros self].
  destruct (negb force && str_eqb fp (fingerprint self));
    [apply preserves_unchanged, preserves_ret |].
  apply unchanged_bind; [apply preserves_lift | intros cfg].
  apply unchanged_bind; [apply preserves_lift | intros tz].
  apply unchanged_bind; [intros s; apply Hjobs | intros _].
  apply unchanged_bind; [preserve_with ltac:(apply Hadd) | intros _].
  apply unchanged_bind.
  { apply preserves_for_each. intros [name policy].
    destruct (negb (enabled policy) || negb (truthy (schedule policy)));
      preserve_with ltac:(apply Hadd). }
  intros _.
  apply unchanged_bind; [apply preserves_lift | intros trig].
  apply unchanged_bind; [apply Hadd | intros _].
  apply never_raises_unchanged.
  repeat first [ apply never_raises_modify | apply never_raises_log
               | apply never_raises_bind; [| intros ?] ].
Qed.

End Reload.

(** Once [start] has returned, the watcher is scheduled. *)
Lemma start_installs_watcher (env : Env) (s : State) :
  is_ok (snd (start env s)) = true ->
  jobs (fst (start env s)) !! config_watcher = Some watcher_job.
Proof.
  unfold start, bind.
  destruct (_load_and_schedule env true s) as [s1 [[]|e]]; cbn;
    [intros _; apply lookup_insert_eq | discriminate].
Qed.

(** C1, counterexample: the started engine (jobs for [hn] and [blog],
    the [twitter] cron job, the maintenance job, the watcher) reloads a
    file in which [hn] is followed by a source with interval ["2d"].  The
    reload raises, and leaves a scheduler that has lost [blog] and the
    maintenance job and holds the new [hn] job: neither the old topology
    nor the new one. *)
Lemma failed_reload_leaves_partial_topology :
  let after := _load_and_schedule Scenario.env_edited true Scenario.running in
  is_ok (snd after) = false
  /\ jobs Scenario.running !! py "source::blog" <> None
  /\ jobs (fst after) !! py "source::blog" = None
  /\ jobs Scenario.running !! py "maintenance::cleanup" <> None
  /\ jobs (fst after) !! py "maintenance::cleanup" = None
  /\ jobs (fst after) !! py "source::hn" <> None
  /\ jobs (fst after) <> jobs Scenario.running.
Proof.
  cbv zeta.
  assert (jobs Scenario.running !! py "source::blog" <> None) as Hold
    by (vm_compute; discriminate).
  assert (jobs (fst (_load_and_schedule Scenario.env_edited true
                       Scenario.running)) !! py "source::blog" = None) as Hnew
    by (vm_compute; reflexivity).
  split; [vm_compute; reflexivity |].
  split; [exact Hold |]. split; [exact Hnew |].
  split; [vm_compute; discriminate |].
  split; [vm_compute; reflexivity |].
  split; [vm_compute; discriminate |].
  intros Heq. rewrite Heq in Hnew. contradiction.
Qed.

(** C1 (as amended): a reload that fails before the old jobs are torn
    down, that is, while reading the file for its fingerprint, parsing the
    configuration or resolving the time zone, leaves the engine exactly as
    it was and raises that error to the caller.  In every failing reload
    the stored rules and fingerprint, and the watcher job, stay as they
    were, so the watcher sees the difference again on its next tick. *)
Theorem reload_fails_soft_before_teardown (env : Env) (force : bool)
    (s : State) :
  (forall e,
     rules_fingerprint env RULES_PATH = Raise e ->
     _load_and_schedule env force s = (s, Raise e))
  /\ (forall fp e,
        rules_fingerprint env RULES_PATH = Ok fp ->
        negb force && str_eqb fp (fingerprint s) = false ->
        load_rules env RULES_PATH = Raise e ->
        _load_and_schedule env force s = (s, Raise e))
  /\ (forall fp cfg e,
        rules_fingerprint env RULES_PATH = Ok fp ->
        negb force && str_eqb fp (fingerprint s) = false ->
        load_rules env RULES_PATH = Ok cfg ->
        zone_info env (timezone (global_config cfg)) = Raise e ->
        _load_and_schedule env force s = (s, Raise e))
  /\ (forall s' e,
        _load_and_schedule env force s = (s', Raise e) ->
        rules s' = rules s /\ fingerprint s' = fingerprint s
        /\ jobs s' !! config_watcher = jobs s !! config_watcher).
Proof.
  split; [| split; [| split]].
  - intros e Hfp. unfold _load_and_schedule, bind, lift. rewrite Hfp.
    reflexivity.
  - intros fp e Hfp Hgo Hload.
    unfold _load_and_schedule, bind, lift, get_state.
    rewrite Hfp, Hgo, Hload. reflexivity.
  - intros fp cfg e Hfp Hgo Hload Htz.
    unfold _load_and_schedule, bind at 1 2 3 4, lift, get_state.
    rewrite Hfp, Hgo, Hload, Htz. reflexivity.
  - intros s' e Hrun. split; [| split].
    + apply (load_and_schedule_unchanged_on_raise env rules force
               (fun _ _ => eq_refl) (fun _ _ => eq_refl) s s' e Hrun).
    + apply (load_and_schedule_unchanged_on_raise env fingerprint force
               (fun _ _ => eq_refl) (fun _ _ => eq_refl) s s' e Hrun).
    + pose proof (load_and_schedule_keeps_watcher env force s) as Hw.
      rewrite Hrun in Hw. exact Hw.
Qed.

(** C1, witness: the started engine reloads an unparseable file; the
    reload raises the parse error and the engine is as it was. *)
Lemma reload_fails_soft_before_teardown_witness :
  _load_and_schedule Scenario.env_broken true Scenario.running
  = (Scenario.running,
     Raise (Exception ConfigParseError (Text (py "invalid rules")))).
Proof.
  refine (proj1 (proj2 (reload_fails_soft_before_teardown
                          Scenario.env_broken true Scenario.running))
            (Hashlib.hexdigest
               (Hashlib.sha256 (list_byte_of_string "sources: [{id: hn")))
            _ _ _ _);
    reflexivity.
Defined.

(** ** Configuration fingerprint *)

Section Fingerprint.

Import Hashlib.

Lemma compress_length (h block : list Z) : length (compress h block) = 8%nat.
Proof. unfold compress. reflexivity. Qed.

Lemma fold_compress_length (bs : list (list Z)) (h : list Z) :
  length h = 8%nat -> length (fold_left compress bs h) = 8%nat.
Proof.
  revert h. induction bs as [|b bs IH]; intros h Hh; cbn [fold_left].
  - exact Hh.
  - apply IH, compress_length.
Qed.

(** A digest is eight words. *)
Lemma sha256_length (msg : list byte) : length (sha256 msg) = 8%nat.
Proof. unfold sha256. apply fold_compress_length. reflexivity. Qed.

Lemma hex_char_is_hex (d : Z) : 0 <= d < 16 -> is_hex_char (hex_char d) = true.
Proof.
  intros Hd. unfold is_hex_char, hex_char.
  destruct (d <? 10) eqn:Hlt.
  - apply Z.ltb_lt in Hlt. apply orb_true_iff. left.
    apply andb_true_iff. split; apply N.leb_le; lia.
  - apply Z.ltb_ge in Hlt. apply orb_true_iff. right.
    apply andb_true_iff. split; apply N.leb_le; lia.
Qed.

Lemma hex_digits_shape (len : nat) (n : Z) :
  length (hex_digits len n) = len
  /\ Forall (fun c => is_hex_char c = true) (hex_digits len n).
Proof.
  induction len as [|len [IHl IHf]]; cbn [hex_digits].
  - split; [reflexivity | constructor].
  - split; [cbn [length]; congruence |].
    constructor; [| exact IHf].
    apply hex_char_is_hex, Z.mod_pos_bound. lia.
Qed.

Lemma hexdigest_shape (words : list Z) :
  length (hexdigest words) = (8 * length words)%nat
  /\ Forall (fun c => is_hex_char c = true) (hexdigest words).
Proof.
  unfold hexdigest. induction words as [|w words [IHl IHf]]; cbn [flat_map].
  - split; [reflexivity | constructor].
  - destruct (hex_digits_shape 8 w) as [Hl Hf]. split.
    + rewrite length_app, Hl, IHl. cbn [length]. lia.
    + apply Forall_app. split; assumption.
Qed.

(** A fingerprint is 64 hexadecimal digits. *)
Lemma fingerprint_shape (raw : list byte) :
  length (fingerprint_of raw) = 64%nat
  /\ Forall (fun c => is_hex_char c = true) (fingerprint_of raw).
Proof.
  unfold fingerprint_of.
  destruct (hexdigest_shape (sha256 raw)) as [Hl Hf].
  rewrite sha256_length in Hl. split; assumption.
Qed.

Lemma hex_char_in_alphabet (c : N) :
  is_hex_char c = true -> c ∈ hex_alphabet.
Proof.
  unfold is_hex_char. intros H.
  assert (c = 48 \/ c = 49 \/ c = 50 \/ c = 51 \/ c = 52 \/ c = 53
          \/ c = 54 \/ c = 55 \/ c = 56 \/ c = 57 \/ c = 97 \/ c = 98
          \/ c = 99 \/ c = 100 \/ c = 101 \/ c = 102)%N as Hc
    by (apply orb_true_iff in H as [H | H];
        apply andb_true_iff in H as [H1 H2];
        apply N.leb_le in H1, H2; lia).
  apply list_elem_of_In.
  repeat (destruct Hc as [-> | Hc]; [cbn; tauto |]).
  subst c. cbn. tauto.
Qed.

Lemma words_over_complete (alphabet : list N) (s : str) :
  Forall (fun c => c ∈ alphabet) s -> s ∈ words_over alphabet (length s).
Proof.
  induction 1 as [|c s Hc _ IH]; cbn [length words_over].
  - apply list_elem_of_here.
  - apply list_elem_of_In, in_flat_map. exists c. split.
    + apply list_elem_of_In, Hc.
    + apply in_map, list_elem_of_In, IH.
Qed.

Lemma words_over_length (alphabet : list N) (n : nat) :
  N.of_nat (length (words_over alphabet n))
  = (N.of_nat (length alphabet) ^ N.of_nat n)%N.
Proof.
  induction n as [|n IH]; cbn [words_over].
  - reflexivity.
  - rewrite (flat_map_constant_length (c := length (words_over alphabet n)))
      by (intros c _; apply length_map).
    rewrite Nat2N.inj_mul, IH, Nat2N.inj_succ, N.pow_succ_r'. reflexivity.
Qed.

Lemma fingerprint_in_universe (raw : list byte) :
  fingerprint_of raw ∈ words_over hex_alphabet 64.
Proof.
  destruct (fingerprint_shape raw) as [Hl Hf].
  rewrite <- Hl. apply words_over_complete.
  eapply Forall_impl; [exact Hf |]. apply hex_char_in_alphabet.
Qed.

(** More values than there are places: two of them share a place. *)
Lemma pigeonhole {B : Type} `{EqDecision B} (l universe : list B) :
  (forall x, x ∈ l -> x ∈ universe) ->
  (length universe < length l)%nat ->
  exists i j x, (i < j)%nat /\ l !! i = Some x /\ l !! j = Some x.
Proof.
  revert universe. induction l as [|x l IH]; intros universe Hin Hlen.
  - cbn [length] in Hlen. lia.
  - destruct (decide (x ∈ l)) as [Hx | Hx].
    + apply list_elem_of_lookup in Hx as [j Hj].
      exists 0%nat, (S j), x. split; [lia |]. split; [reflexivity | exact Hj].
    + assert (x ∈ universe) as Hxu by (apply Hin, list_elem_of_here).
      apply elem_of_Permutation in Hxu as [rest Hrest].
      destruct (IH rest) as (i & j & y & Hij & Hi & Hj).
      * intros y Hy.
        assert (y ∈ universe) as Hyu by (apply Hin, list_elem_of_further, Hy).
        rewrite Hrest in Hyu. apply elem_of_cons in Hyu as [-> | Hyu];
          [contradiction | exact Hyu].
      * apply Permutation_length in Hrest. cbn [length] in Hrest, Hlen. lia.
      * exists (S i), (S j), y. split; [lia |]. split; assumption.
Qed.

Lemma le_bytes_length (len : nat) (n : N) : length (le_bytes len n) = len.
Proof.
  revert n. induction len as [|len IH]; intros n; cbn [le_bytes length];
    [reflexivity | rewrite IH; reflexivity].
Qed.

Lemma byte_of_small_inj (a b : N) :
  (a < 256)%N -> (b < 256)%N ->
  default Byte.x00 (Byte.of_N a) = default Byte.x00 (Byte.of_N b) -> a = b.
Proof.
  intros Ha Hb.
  destruct (Byte.of_N a) as [x|] eqn:Hx;
    [| apply Byte.of_N_None_iff in Hx; lia].
  destruct (Byte.of_N b) as [y|] eqn:Hy;
    [| apply Byte.of_N_None_iff in Hy; lia].
  cbn. intros ->. apply Byte.to_of_N in Hx, Hy. congruence.
Qed.

(** Numbers below [256 ^ len] have different files of [len] bytes. *)
Lemma le_bytes_inj (len : nat) (n m : N) :
  (n < 256 ^ N.of_nat len)%N -> (m < 256 ^ N.of_nat len)%N ->
  le_bytes len n = le_bytes len m -> n = m.
Proof.
  revert n m. induction len as [|len IH]; intros n m Hn Hm.
  - cbn in Hn, Hm. lia.
  - rewrite Nat2N.inj_succ, N.pow_succ_r' in Hn, Hm.
    cbn [le_bytes]. intros [= Hhead Htail].
    apply byte_of_small_inj in Hhead;
      [| apply N.mod_lt; lia | apply N.mod_lt; lia].
    apply IH in Htail;
      [| apply N.Div0.div_lt_upper_bound; lia
       | apply N.Div0.div_lt_upper_bound; lia].
    rewrite (N.div_mod n 256), (N.div_mod m 256) by lia.
    rewrite Hhead, Htail. reflexivity.
Qed.

End Fingerprint.




(** The model of SHA-256 on the standard test vectors. *)
Example sha256_empty :
  fingerprint_of []
  = py "e3b0c44298fc1c149afbf4c8996fb92427ae41e4649b934ca495991b7852b855".
Proof. vm_compute. reflexivity. Qed.

Example sha256_abc :
  fingerprint_of (list_byte_of_string "abc")
  = py "ba7816bf8f01cfea414140de5dae2223b00361a396177a9cb410ff61f20015ad".
Proof. vm_compute. reflexivity. Qed.

Example sha256_two_blocks :
  fingerprint_of (repeat "a"%byte 100)
  = py "2816597888e4a0d3a36b82b83316ab32680eb8f00f8cd3b904d681246d285a0e".
Proof. vm_compute. reflexivity. Qed.

(** ** The run lock *)

Section RunLockProofs.

Import RunLock.

Lemma holding_snoc (rs : list Run) (source : str) (i : nat) :
  holding (rs ++ [{| run_of := source; phase := Entered |}]) i -> holding rs i.
Proof.
  intros (r & Hr & Hp). exists r. split; [| exact Hp].
  apply lookup_app_Some in Hr as [Hr | [_ Hr]]; [exact Hr |].
  apply list_lookup_singleton_Some in Hr as [_ <-]. discriminate Hp.
Qed.

Lemma holding_insert (rs : list Run) (i0 i : nat) (p : Phase) (r0 : Run) :
  holding (<[i0 := at_phase p r0]> rs) i ->
  (i = i0 /\ p = Holding) \/ (i <> i0 /\ holding rs i).
Proof.
  intros (r & Hr & Hp).
  apply list_lookup_insert_Some in Hr as [(-> & <- & _) | (Hne & Hr)].
  - left. split; [reflexivity | exact Hp].
  - right. split; [congruence | exists r; split; assumption].
Qed.

Lemma step_keeps_invariant (sys sys' : Sys) :
  lock_invariant sys -> step sys sys' -> lock_invariant sys'.
Proof.
  intros [Hfree Hone] Hstep.
  destruct Hstep as [sys source | sys i0 r Hr Hp Hlock | sys i0 r Hr Hp
                    | sys i0 r Hr Hp];
    unfold lock_invariant; cbn [_run_lock runs].
  - split.
    + intros Hl i Hi. apply (Hfree Hl i), (holding_snoc _ _ _ Hi).
    + intros i j Hi Hj. apply Hone; eapply holding_snoc; eassumption.
  - split; [discriminate |].
    intros i j Hi Hj.
    apply holding_insert in Hi as [[-> _] | [_ Hi]];
      [| destruct (Hfree Hlock i Hi)].
    apply holding_insert in Hj as [[-> _] | [_ Hj]];
      [reflexivity | destruct (Hfree Hlock j Hj)].
  - assert (holding (runs sys) i0) as Hi0 by (exists r; split; assumption).
    assert (forall i, ~ holding (<[i0 := at_phase Finalizing r]> (runs sys)) i)
      as Hnone.
    { intros i Hi.
      apply holding_insert in Hi as [[_ Hi] | [Hne Hi]]; [discriminate Hi |].
      apply Hne, Hone; assumption. }
    split; [intros _; exact Hnone |].
    intros i j Hi. destruct (Hnone i Hi).
  - assert (forall i, holding (<[i0 := at_phase Returned r]> (runs sys)) i ->
                      holding (runs sys) i) as Hsame.
    { intros i Hi.
      apply holding_insert in Hi as [[_ Hi] | [_ Hi]];
        [discriminate Hi | exact Hi]. }
    split.
    + intros Hl i Hi. apply (Hfree Hl i), Hsame, Hi.
    + intros i j Hi Hj. apply Hone; apply Hsame; assumption.
Qed.

(** The invariant holds in every state the engine can reach. *)
Lemma reachable_invariant (sys : Sys) : reachable sys -> lock_invariant sys.
Proof.
  unfold reachable. revert sys.
  apply (rtc_ind_r (fun sys => lock_invariant sys) initial).
  - split.
    + intros _ i (r & Hr & _). discriminate Hr.
    + intros i j (r & Hr & _). discriminate Hr.
  - intros sys sys' _ Hstep IH.
    apply (step_keeps_invariant sys sys' IH Hstep).
Qed.

Lemma hn_holds_reachable : reachable hn_holds.
Proof.
  unfold reachable.
  pose (hn := {| run_of := py "hn"; phase := Entered |}).
  pose (blog := {| run_of := py "blog"; phase := Entered |}).
  pose (s1 := {| _run_lock := false; runs := [hn] |}).
  pose (s2 := {| _run_lock := false; runs := [hn; blog] |}).
  apply (rtc_l step initial s1); [exact (step_trigger initial (py "hn")) |].
  apply (rtc_l step s1 s2); [exact (step_trigger s1 (py "blog")) |].
  apply (rtc_l step s2 hn_holds); [| apply rtc_refl].
  exact (step_acquire s2 0 hn eq_refl eq_refl eq_refl).
Qed.

End RunLockProofs.

(** C5, counterexample: the engine never has runs of two different
    sources inside the locked region at once, so runs of different
    sources are serialized; under one lock per source, as the design
    document words it, such a state is reached in four steps. *)
Lemma sources_are_serialized :
  ~ (exists sys, RunLock.reachable sys
                 /\ RunLock.overlap_across_sources (RunLock.runs sys))
  /\ (exists sys, rtc RunLock.per_source_step RunLock.per_source_initial sys
                  /\ RunLock.overlap_across_sources (RunLock.per_source_runs sys)).
Proof.
  split.
  - intros (sys & Hreach & i & j & ri & rj & Hi & Hj & Hne & Hpi & Hpj).
    destruct (reachable_invariant sys Hreach) as [_ Hone].
    assert (i = j) as ->
      by (apply Hone; [exists ri | exists rj]; split; assumption).
    rewrite Hi in Hj. injection Hj as ->. contradiction.
  - pose (hn := {| RunLock.run_of := py "hn"; RunLock.phase := RunLock.Entered |}).
    pose (blog := {| RunLock.run_of := py "blog"; RunLock.phase := RunLock.Entered |}).
    pose (s1 := {| RunLock.held := ∅; RunLock.per_source_runs := [hn] |}).
    pose (s2 := {| RunLock.held := ∅; RunLock.per_source_runs := [hn; blog] |}).
    pose (s3 := {| RunLock.held := {[py "hn"]} ∪ ∅;
                   RunLock.per_source_runs :=
                     [RunLock.at_phase RunLock.Holding hn; blog] |}).
    pose (s4 := {| RunLock.held := {[py "blog"]} ∪ ({[py "hn"]} ∪ ∅);
                   RunLock.per_source_runs :=
                     [RunLock.at_phase RunLock.Holding hn;
                      RunLock.at_phase RunLock.Holding blog] |}).
    exists s4. split.
    + apply (rtc_l _ RunLock.per_source_initial s1);
        [exact (RunLock.per_source_trigger RunLock.per_source_initial (py "hn")) |].
      apply (rtc_l _ s1 s2);
        [exact (RunLock.per_source_trigger s1 (py "blog")) |].
      apply (rtc_l _ s2 s3);
        [exact (RunLock.per_source_acquire s2 0 hn eq_refl eq_refl
                  (not_elem_of_empty _)) |].
      apply (rtc_l _ s3 s4); [| apply rtc_refl].
      refine (RunLock.per_source_acquire s3 1 blog eq_refl eq_refl _).
      cbn. intros Hin. apply elem_of_union in Hin as [Hin | Hin].
      * apply elem_of_singleton in Hin. discriminate Hin.
      * apply not_elem_of_empty in Hin. exact Hin.
    + exists 0%nat, 1%nat, (RunLock.at_phase RunLock.Holding hn),
             (RunLock.at_phase RunLock.Holding blog).
      repeat split; try reflexivity. discriminate.
Qed.

(** C5 (as amended): [run_source] takes the engine's single run lock
    around its scan and item loop, whatever the source.  In every
    reachable state at most one run, of any source, is inside the locked
    region, and the lock is held while one is; so at most one run of a
    given source is in flight there at any instant, and runs of different
    sources are serialized with it rather than concurrent. *)
Theorem run_lock_excludes_all_runs (sys : RunLock.Sys) :
  RunLock.reachable sys ->
  (forall i j,
     RunLock.holding (RunLock.runs sys) i ->
     RunLock.holding (RunLock.runs sys) j -> i = j)
  /\ (forall i, RunLock.holding (RunLock.runs sys) i ->
                RunLock._run_lock sys = true)
  /\ ~ RunLock.overlap_across_sources (RunLock.runs sys).
Proof.
  intros Hreach. destruct (reachable_invariant sys Hreach) as [Hfree Hone].
  split; [exact Hone |]. split.
  - intros i Hi. destruct (RunLock._run_lock sys) eqn:Hl; [reflexivity |].
    destruct (Hfree eq_refl i Hi).
  - intros (i & j & ri & rj & Hi & Hj & Hne & Hpi & Hpj).
    assert (i = j) as ->
      by (apply Hone; [exists ri | exists rj]; split; assumption).
    rewrite Hi in Hj. injection Hj as ->. contradiction.
Qed.

(** C5, witness: with a run of [hn] inside the locked region and a run
    of [blog] entered, the lock is held and [hn]'s is the only run
    inside. *)
Lemma run_lock_excludes_all_runs_witness :
  RunLock.reachable RunLock.hn_holds
  /\ RunLock.holding (RunLock.runs RunLock.hn_holds) 0
  /\ (forall j, RunLock.holding (RunLock.runs RunLock.hn_holds) j -> j = 0%nat)
  /\ RunLock._run_lock RunLock.hn_holds = true.
Proof.
  assert (RunLock.holding (RunLock.runs RunLock.hn_holds) 0) as H0
    by (eexists; split; reflexivity).
  destruct (run_lock_excludes_all_runs RunLock.hn_holds hn_holds_reachable)
    as (Hone & Hheld & _).
  split; [exact hn_holds_reachable |]. split; [exact H0 |].
  split; [intros j Hj; exact (Hone j 0%nat Hj H0) | exact (Hheld 0%nat H0)].
Defined.

(** ** Value filter: the two cases of the design document *)

Example long_text_alone_is_filtered :
  _is_high_value_signal
    {| item_source_id := py "hn"; url_hash := py "0123456789ab";
       title := py "Notes"; item_url := py "https://news.example/4";
       summary := []; raw_text := repeat 120%N 300;
       published_at := None; images := []; keywords := [] |}
  = false.
Proof. vm_compute. reflexivity. Qed.

Example long_text_with_image_passes :
  _is_high_value_signal
    {| item_source_id := py "hn"; url_hash := py "0123456789ab";
       title := py "Notes"; item_url := py "https://news.example/4";
       summary := []; raw_text := repeat 120%N 300;
       published_at := None; images := [py "https://img.example/4.png"];
       keywords := [] |}
  = true.
Proof. vm_compute. reflexivity. Qed.

(** * Further properties of the modelled code *)

(** ** One item through the pipeline *)

Section ItemRuns.

Variable env : Env.
Variable source : SourceConfig.

Lemma repeat_stamped (q : Request) (s : State) (n : nat) :
  stamped q s :: repeat (stamped q s) n
  = map (fun q => stamped q s) (repeat q (S n)).
Proof.
  cbn [repeat map]. f_equal. induction n as [|n IH]; cbn [repeat map];
    [reflexivity | f_equal; exact IH].
Qed.

(** Every course of [item_body] is one of [item_run], and it changes
    the state only by the requests it lists. *)
Lemma item_body_runs (item : NormalizedItem) (trace_id : str)
    (counters : Counters) (s : State) :
  exists reqs r,
    item_run source item (make_content_pack s source item trace_id)
      counters reqs r
    /\ item_body env source item trace_id counters s
       = (set_sent (sent s ++ map (fun q => stamped q s) reqs) s, r).
Proof.
  unfold item_body, bind at 1.
  destruct (post_json_frame
              (fun before => hippocampus_check_duplicate env before (url_hash item))
              (ReqCheckDuplicate (url_hash item)) s) as (n & r1 & -> & _).
  rewrite repeat_stamped.
  set (checks := repeat (ReqCheckDuplicate (url_hash item)) (S n)).
  destruct r1 as [[|]|e].
  - exists checks, (Ok (incr_duplicated counters)).
    split; [apply is_duplicate | reflexivity].
  - unfold bind at 1, get_state.
    set (s1 := set_sent _ s).
    change (make_content_pack s1 source item trace_id)
      with (make_content_pack s source item trace_id).
    set (pack := make_content_pack s source item trace_id).
    destruct (_is_high_value_signal item) eqn:Hhigh; cbn [negb].
    2:{ exists checks, (Ok (incr_filtered counters)).
        split; [apply is_filtered, Hhigh | reflexivity]. }
    unfold bind at 1.
    destruct (post_json_frame
                (fun before => archivist_archive env before pack)
                (ReqArchive pack) s1) as (m & r2 & -> & _).
    rewrite repeat_stamped.
    set (archives := repeat (ReqArchive pack) (S m)).
    destruct r2 as [archived|e].
    + unfold bind at 1.
      set (s2 := set_sent _ s1).
      set (remember := make_remember source item archived).
      destruct (post_json_frame
                  (fun before => hippocampus_remember env before remember)
                  (ReqRemember remember) s2) as (k & r3 & -> & _).
      rewrite repeat_stamped.
      set (remembers := repeat (ReqRemember remember) (S k)).
      exists (checks ++ archives ++ remembers).
      exists (match r3 with
              | Ok _ => Ok (incr_processed counters)
              | Raise e => Raise e
              end).
      split.
      * destruct r3; [apply is_processed | apply remember_fails]; exact Hhigh.
      * destruct r3; unfold ret; subst s2 s1; cbn [sent set_sent];
          rewrite ?set_sent_twice, !map_app, <- !app_assoc; reflexivity.
    + exists (checks ++ archives), (Raise e). split.
      * apply archive_fails, Hhigh.
      * subst s1. cbn [sent set_sent].
        rewrite ?set_sent_twice, !map_app, <- !app_assoc. reflexivity.
  - exists checks, (Raise e). split; [apply check_fails | reflexivity].
Qed.

(** The same for the whole iteration: the trace binding is undone, and a
    failure becomes a log record and a count. *)
Lemma process_item_runs (counters : Counters) (item : NormalizedItem)
    (s : State) :
  let trace_id := trace_id_of source item in
  let inside := bound (Some trace_id) None s in
  exists reqs r,
    item_run source item (make_content_pack s source item trace_id)
      counters reqs r
    /\ process_item env source counters item s
       = match r with
         | Ok counters' =>
             (set_sent (sent s ++ map (fun q => stamped q inside) reqs) s,
              Ok counters')
         | Raise e =>
             (set_logged (logged s ++ [item_failure_record source e s])
                (set_sent (sent s ++ map (fun q => stamped q inside) reqs) s),
              Ok (incr_failed counters))
         end.
Proof.
  intros trace_id inside.
  destruct (item_body_runs item trace_id counters inside)
    as (reqs & r & Hrun & Hbody).
  exists reqs, r. split; [exact Hrun |].
  subst inside trace_id.
  unfold process_item, try_except.
  rewrite bind_log_context_unfold, Hbody.
  cbn [fst snd bound sent set_TRACE_ID]. rewrite leave_binding.
  destruct r as [c'|e]; [reflexivity |].
  unfold bind, log, modify, ret, item_failure_record. reflexivity.
Qed.

End ItemRuns.

(** ** A whole run *)

Section Runs.

Variable env : Env.
Variable source : SourceConfig.

Lemma traffic_only_refl (s : State) : traffic_only s s.
Proof.
  split; [destruct s; reflexivity |].
  split; exists []; symmetry; apply app_nil_r.
Qed.

Lemma traffic_only_trans (s1 s2 s3 : State) :
  traffic_only s1 s2 -> traffic_only s2 s3 -> traffic_only s1 s3.
Proof.
  intros (H12 & [m1 Hs1] & [l1 Hl1]) (H23 & [m2 Hs2] & [l2 Hl2]).
  split; [| split].
  - rewrite H23 at 1. rewrite H12 at 1. reflexivity.
  - exists (m1 ++ m2). rewrite Hs2, Hs1, app_assoc. reflexivity.
  - exists (l1 ++ l2). rewrite Hl2, Hl1, app_assoc. reflexivity.
Qed.

Lemma traffic_only_sent (s : State) (more : list Sent) :
  traffic_only s (set_sent (sent s ++ more) s).
Proof.
  split; [destruct s; reflexivity |].
  split; [exists more; reflexivity | exists []; symmetry; apply app_nil_r].
Qed.

Lemma traffic_only_logged (s : State) (more : list LogRecord) :
  traffic_only s (set_logged (logged s ++ more) s).
Proof.
  split; [destruct s; reflexivity |].
  split; [exists []; symmetry; apply app_nil_r | exists more; reflexivity].
Qed.

Lemma advanced_refl (c : Counters) : advanced 0 c c.
Proof. unfold advanced. repeat split; try reflexivity; lia. Qed.

Lemma advanced_trans (n m : Z) (c1 c2 c3 : Counters) :
  advanced n c1 c2 -> advanced m c2 c3 -> advanced (n + m) c1 c3.
Proof.
  unfold advanced.
  intros (Hs1 & Hi1 & Ht1 & Ha1 & ? & ? & ? & ?)
         (Hs2 & Hi2 & Ht2 & Ha2 & ? & ? & ? & ?).
  repeat split; try congruence; lia.
Qed.

Lemma item_run_advanced (item : NormalizedItem) (pack : ContentPack)
    (c : Counters) (reqs : list Request) (r : result Counters) :
  item_run source item pack c reqs r ->
  advanced 1 c (match r with Ok c' => c' | Raise _ => incr_failed c end).
Proof.
  intros H. destruct H; unfold advanced, accounted; cbn;
    repeat split; try reflexivity; lia.
Qed.

(** An iteration never raises, touches only the traffic, and moves
    exactly one counter by one. *)
Lemma process_item_step (c : Counters) (item : NormalizedItem) (s : State) :
  exists s' c',
    process_item env source c item s = (s', Ok c')
    /\ traffic_only s s' /\ advanced 1 c c'.
Proof.
  destruct (process_item_runs env source c item s) as (reqs & r & Hrun & ->).
  pose proof (item_run_advanced _ _ _ _ _ Hrun) as Hadv.
  destruct r as [c'|e]; eexists; eexists; (split; [reflexivity |]);
    (split; [| exact Hadv]).
  - apply traffic_only_sent.
  - eapply traffic_only_trans; [apply traffic_only_sent |].
    apply (traffic_only_logged (set_sent _ s)).
Qed.

Lemma process_items_steps (items : list NormalizedItem) (c : Counters)
    (s : State) :
  exists s' c',
    process_items env source c items s = (s', Ok c')
    /\ traffic_only s s'
    /\ advanced (Z.of_nat (length items)) c c'.
Proof.
  revert c s. induction items as [|item items IH]; intros c s.
  - exists s, c. split; [reflexivity |].
    split; [apply traffic_only_refl | apply advanced_refl].
  - cbn [process_items]. unfold bind.
    destruct (process_item_step c item s) as (s1 & c1 & -> & Ht1 & Ha1).
    destruct (IH c1 s1) as (s2 & c2 & -> & Ht2 & Ha2).
    exists s2, c2. split; [reflexivity |].
    split; [eapply traffic_only_trans; eassumption |].
    replace (Z.of_nat (length (item :: items)))
      with (1 + Z.of_nat (length items)) by (cbn [length]; lia).
    eapply advanced_trans; eassumption.
Qed.

(** The locked section never raises and touches only the traffic; it
    ends either with every scanned item accounted for, or, the scan
    having failed, with the counters of entry and one failure more. *)
Lemma locked_section_outcome (c : Counters) (s : State) :
  exists s' c',
    locked_section env source c s = (s', Ok c')
    /\ traffic_only s s'
    /\ ((exists items : list NormalizedItem,
           advanced (Z.of_nat (length items))
             (set_scanned (Z.of_nat (length items)) c) c')
        \/ c' = incr_failed c).
Proof.
  unfold locked_section, try_except, bind at 1.
  destruct (post_json_frame (fun before => sentry_scan env before source)
              (ReqScan source) s) as (n & r & -> & _).
  destruct r as [items|e].
  - destruct (process_items_steps items
                (set_scanned (Z.of_nat (length items)) c)
                (set_sent (sent s ++ stamped (ReqScan source) s
                             :: repeat (stamped (ReqScan source) s) n) s))
      as (s' & c' & Hrun & Ht & Ha).
    rewrite Hrun. exists s', c'. split; [reflexivity |]. split.
    + eapply traffic_only_trans; [apply traffic_only_sent | exact Ht].
    + left. exists items. exact Ha.
  - eexists. eexists. split; [reflexivity |]. split; [| right; reflexivity].
    eapply traffic_only_trans; [apply traffic_only_sent |].
    apply (traffic_only_logged (set_sent _ s)).
Qed.

End Runs.

Lemma traffic_only_keeps (s s' : State) :
  traffic_only s s' ->
  topology s' = topology s /\ context s' = context s
  /\ last_runs s' = last_runs s /\ clock_reads s' = clock_reads s.
Proof. intros [H _]. rewrite H. repeat split. Qed.

Lemma sent_since_stamped (s s' inside : State) (reqs : list Request) :
  sent s' = sent s ++ map (fun q => stamped q inside) reqs ->
  sent_since s s' = reqs.
Proof.
  intros H. unfold sent_since. rewrite H, drop_app_length, map_map.
  cbn [request stamped]. apply map_id.
Qed.

Lemma process_item_sent_runs (env : Env) (source : SourceConfig)
    (c : Counters) (item : NormalizedItem) (s : State) :
  exists reqs r,
    item_run source item
      (make_content_pack s source item (trace_id_of source item)) c reqs r
    /\ sent (fst (process_item env source c item s))
       = sent s
         ++ map (fun q => stamped q (bound (Some (trace_id_of source item)) None s))
              reqs.
Proof.
  destruct (process_item_runs env source c item s) as (reqs & r & Hrun & ->).
  exists reqs, r. split; [exact Hrun |]. destruct r; reflexivity.
Qed.

(** X1: [run_source] never raises, whatever the collaborators do.  It
    leaves the rules, the fingerprint, the job store and the trace
    context as they were; it reads the clock twice; it only adds to the
    requests sent and the records logged; and it stores the summary it
    returns under the source's id, leaving the other sources' summaries
    alone. *)
Theorem run_source_is_contained (env : Env) (source : SourceConfig)
    (s : State) :
  exists s' summary,
    run_source env source s = (s', Ok summary)
    /\ topology s' = topology s
    /\ context s' = context s
    /\ last_runs s' = <[id source := summary]> (last_runs s)
    /\ clock_reads s' = S (S (clock_reads s))
    /\ (exists more, sent s' = sent s ++ more)
    /\ (exists more, logged s' = logged s ++ more).
Proof.
  unfold run_source, bind at 1, utcnow.
  unfold bind at 1, log at 1, modify at 1.
  unfold bind at 1.
  match goal with
  | |- context [locked_section env source ?c ?s0] =>
      destruct (locked_section_outcome env source c s0)
        as (s2 & c' & -> & Ht & _)
  end.
  destruct (traffic_only_keeps _ _ Ht) as (Htop & Hctx & Hlast & Hclock).
  destruct Ht as (_ & [ms Hms] & [ml Hml]).
  unfold bind, utcnow, modify, log, ret. cbn -[model_dump].
  eexists. eexists. split; [reflexivity |].
  unfold topology, context in *. cbn -[model_dump] in *.
  rewrite Hlast, Hclock, Hms, Hml.
  injection Htop as -> -> ->. injection Hctx as -> ->.
  do 4 (split; [reflexivity |]). split.
  - exists ms. reflexivity.
  - eexists. rewrite <- !app_assoc. reflexivity.
Qed.

(** X2: every scanned item is accounted for exactly once.  The closing
    log record of a run reports counts that are all non-negative and
    that either add up, processed + duplicated + filtered + failed, to
    the number scanned, or, when the scan itself failed, are all zero
    but one failure; the returned summary repeats them, less the
    filtered count. *)
Theorem run_source_accounts_for_every_item (env : Env)
    (source : SourceConfig) (s : State) :
  exists s' summary earlier closing n_scanned n_processed n_dup
         n_filtered n_failed,
    run_source env source s = (s', Ok summary)
    /\ logged s' = earlier ++ [closing]
    /\ log_event closing
       = HeartbeatDone (id source) n_scanned n_processed n_dup
           n_filtered n_failed
    /\ dict_get (py "scanned") summary = Some (JInt n_scanned)
    /\ dict_get (py "processed") summary = Some (JInt n_processed)
    /\ dict_get (py "duplicated") summary = Some (JInt n_dup)
    /\ dict_get (py "failed") summary = Some (JInt n_failed)
    /\ 0 <= n_processed /\ 0 <= n_dup /\ 0 <= n_filtered /\ 0 <= n_failed
    /\ (n_scanned = n_processed + n_dup + n_filtered + n_failed
        \/ (n_scanned = 0 /\ n_processed = 0 /\ n_dup = 0
            /\ n_filtered = 0 /\ n_failed = 1)).
Proof.
  unfold run_source, bind at 1, utcnow.
  unfold bind at 1, log at 1, modify at 1.
  unfold bind at 1.
  match goal with
  | |- context [locked_section env source ?c ?s0] =>
      destruct (locked_section_outcome env source c s0)
        as (s2 & c' & -> & _ & Hc)
  end.
  unfold bind, utcnow, modify, log, ret. cbn -[dict_get py].
  do 9 eexists. split; [reflexivity |].
  split; [reflexivity |]. split; [reflexivity |].
  do 4 (split; [reflexivity |]).
  destruct Hc as [(items & Ha) | ->].
  - destruct Ha as (Hsc & _ & _ & Hacc & Hp & Hd & Hfl & Hf).
    unfold accounted in Hacc. cbn in Hsc, Hacc, Hp, Hd, Hfl, Hf.
    repeat split; lia.
  - cbn. repeat split; lia.
Qed.

(** X3: every request sent while one item is processed carries that
    item's trace id, normalised, in the [x-trace-id] header (no such
    header when nothing of the id survives normalisation), followed by
    the request id of the enclosing context if there is one; and once
    the item is done the trace context is what it was. *)
Theorem item_requests_carry_trace_id (env : Env) (source : SourceConfig)
    (c : Counters) (item : NormalizedItem) (s : State) :
  let s' := fst (process_item env source c item s) in
  let trace_id := _normalize_id (Some (trace_id_of source item)) [] in
  Forall
    (fun m =>
       headers m
       = match trace_id with
         | [] => []
         | _ => [(TRACE_HEADER, trace_id)]
         end
         ++ match get_request_id s with
            | [] => []
            | request_id => [(REQUEST_HEADER, request_id)]
            end)
    (skipn (length (sent s)) (sent s'))
  /\ context s' = context s.
Proof.
  intros s' trace_id. subst s'.
  destruct (process_item_runs env source c item s) as (reqs & r & _ & Hrun).
  assert (get_trace_id (bound (Some (trace_id_of source item)) None s)
          = trace_id) as Hinside.
  { unfold get_trace_id, bound. cbn.
    apply strip_valid_id, normalize_id_valid. }
  split.
  - assert (sent (fst (process_item env source c item s))
            = sent s ++ map (fun q => stamped q
                               (bound (Some (trace_id_of source item)) None s))
                          reqs) as ->
      by (rewrite Hrun; destruct r; reflexivity).
    rewrite drop_app_length. apply Forall_fmap, Forall_true.
    intros q. unfold compose. cbn [headers stamped].
    unfold outbound_trace_headers. cbv zeta. rewrite Hinside.
    change (get_request_id (bound (Some (trace_id_of source item)) None s))
      with (get_request_id s).
    destruct (get_request_id s); reflexivity.
  - rewrite Hrun. destruct r; destruct s; reflexivity.
Qed.

(** X4: archiving is gated.  Whatever the collaborators reply, the first
    request for an item is its duplicate check; an item below the value
    threshold causes no other request; an archive request is sent only
    for an item above the threshold and carries that item's content
    pack; and a remember request is sent only after an archive
    request. *)
Theorem archive_is_gated (env : Env) (source : SourceConfig)
    (c : Counters) (item : NormalizedItem) (s : State) :
  let sent_for_item := sent_since s (fst (process_item env source c item s)) in
  hd_error sent_for_item = Some (ReqCheckDuplicate (url_hash item))
  /\ (_is_high_value_signal item = false ->
      Forall (fun q => q = ReqCheckDuplicate (url_hash item)) sent_for_item)
  /\ (forall pack, In (ReqArchive pack) sent_for_item ->
        _is_high_value_signal item = true
        /\ pack = make_content_pack s source item (trace_id_of source item))
  /\ (forall req, In (ReqRemember req) sent_for_item ->
        exists before after,
          sent_for_item = before ++ ReqRemember req :: after
          /\ In (ReqArchive
                   (make_content_pack s source item (trace_id_of source item)))
                before).
Proof.
  intros sent_for_item. subst sent_for_item.
  destruct (process_item_sent_runs env source c item s)
    as (reqs & r & Hrun & Hsent).
  rewrite (sent_since_stamped _ _ _ _ Hsent).
  set (chk := ReqCheckDuplicate (url_hash item)) in *.
  set (pack0 := make_content_pack s source item (trace_id_of source item)) in *.
  assert (forall n q, In q (repeat chk n) -> q = chk) as Hchk
    by (intros n q; apply repeat_spec).
  assert (forall n q, In q (repeat (ReqArchive pack0) n) -> q = ReqArchive pack0)
    as Harch by (intros n q; apply repeat_spec).
  assert (forall req n q, In q (repeat (ReqRemember req) n) -> q = ReqRemember req)
    as Hrem by (intros req n q; apply repeat_spec).
  split; [destruct Hrun; reflexivity |].
  split; [| split].
  - intros Hlow.
    destruct Hrun as [n e | n | n _ | n m e Hh | n m k a e Hh | n m k a Hh];
      try congruence;
      apply Forall_forall; intros q Hq; apply list_elem_of_In in Hq;
      exact (Hchk _ _ Hq).
  - intros pack Hin.
    destruct Hrun as [n e | n | n _ | n m e Hh | n m k a e Hh | n m k a Hh];
      try (apply Hchk in Hin; discriminate Hin);
      (split; [exact Hh |]);
      repeat (apply in_app_or in Hin as [Hin | Hin]);
      try (apply Hchk in Hin; discriminate Hin);
      try (apply Hrem in Hin; discriminate Hin);
      apply Harch in Hin; congruence.
  - intros req Hin.
    destruct Hrun as [n e | n | n _ | n m e Hh | n m k a e Hh | n m k a Hh];
      try (apply Hchk in Hin; discriminate Hin);
      repeat (apply in_app_or in Hin as [Hin | Hin]);
      try (apply Hchk in Hin; discriminate Hin);
      try (apply Harch in Hin; discriminate Hin);
      apply Hrem in Hin; injection Hin as ->;
      exists (repeat chk (S n) ++ repeat (ReqArchive pack0) (S m)),
             (repeat (ReqRemember (make_remember source item a)) k);
      (split; [rewrite <- app_assoc; reflexivity |]);
      apply in_or_app; right; left; reflexivity.
Qed.

Section Failures.

Variable env : Env.
Variable source : SourceConfig.
Variable item : NormalizedItem.

Hypothesis is_new :
  forall before, hippocampus_check_duplicate env before (url_hash item) = Ok false.
Hypothesis is_valuable : _is_high_value_signal item = true.

(** X5: when the archive collaborator is down, a new item of high value
    costs its duplicate check and three archive attempts; nothing is sent
    to remember it; it is counted as failed; and the failure is logged
    after the item's trace binding has been left, hence under the ids of
    the enclosing context, not the item's. *)
Theorem failed_archive_is_not_remembered (c : Counters) (s : State) :
  (forall before pack, is_ok (archivist_archive env before pack) = false) ->
  let trace_id := trace_id_of source item in
  let pack := make_content_pack s source item trace_id in
  exists e,
    process_item env source c item s
    = (set_logged (logged s ++ [item_failure_record source e s])
         (set_sent
            (sent s
             ++ map (fun q => stamped q (bound (Some trace_id) None s))
                  [ReqCheckDuplicate (url_hash item);
                   ReqArchive pack; ReqArchive pack; ReqArchive pack]) s),
       Ok (incr_failed c)).
Proof.
  intros Hdown trace_id pack.
  set (inside := bound (Some trace_id) None s).
  assert (exists e,
            item_body env source item trace_id c inside
            = (set_sent
                 (sent inside
                  ++ map (fun q => stamped q inside)
                       [ReqCheckDuplicate (url_hash item);
                        ReqArchive pack; ReqArchive pack; ReqArchive pack])
                 inside, Raise e)) as [e Hbody].
  { unfold item_body, bind at 1.
    rewrite (post_json_ok _ _ _ false (is_new _)).
    unfold bind at 1, get_state. rewrite is_valuable. cbn [negb].
    unfold bind at 1.
    match goal with
    | |- context [post_json ?reply (ReqArchive ?p) ?s0] =>
        destruct (post_json_all_fail reply (ReqArchive p) s0
                    (fun before => Hdown before p)) as [e ->]
    end.
    exists e. cbn [sent set_sent map].
    rewrite ?set_sent_twice, <- !app_assoc. reflexivity. }
  exists e. unfold process_item, try_except.
  fold trace_id. rewrite bind_log_context_unfold. fold inside.
  rewrite Hbody. subst inside.
  cbn [fst snd bound sent set_TRACE_ID]. rewrite leave_binding.
  reflexivity.
Qed.

(** X6: when the remember collaborator is down, a new item of high value
    is archived (one request, answered) and then costs three remember
    attempts; the archive is not undone, and the item is counted as
    failed, not as processed. *)
Theorem archived_but_not_remembered_is_failed (c : Counters) (s : State) :
  (forall before pack, is_ok (archivist_archive env before pack) = true) ->
  (forall before req, is_ok (hippocampus_remember env before req) = false) ->
  let trace_id := trace_id_of source item in
  let pack := make_content_pack s source item trace_id in
  exists e archived,
    let remember := ReqRemember (make_remember source item archived) in
    process_item env source c item s
    = (set_logged (logged s ++ [item_failure_record source e s])
         (set_sent
            (sent s
             ++ map (fun q => stamped q (bound (Some trace_id) None s))
                  [ReqCheckDuplicate (url_hash item); ReqArchive pack;
                   remember; remember; remember]) s),
       Ok (incr_failed c)).
Proof.
  intros Hup Hdown trace_id pack.
  set (inside := bound (Some trace_id) None s).
  assert (exists e archived,
            item_body env source item trace_id c inside
            = (set_sent
                 (sent inside
                  ++ map (fun q => stamped q inside)
                       [ReqCheckDuplicate (url_hash item); ReqArchive pack;
                        ReqRemember (make_remember source item archived);
                        ReqRemember (make_remember source item archived);
                        ReqRemember (make_remember source item archived)])
                 inside, Raise e)) as (e & archived & Hbody).
  { unfold item_body, bind at 1.
    rewrite (post_json_ok _ _ _ false (is_new _)).
    unfold bind at 1, get_state. rewrite is_valuable. cbn [negb].
    unfold bind at 1.
    match goal with
    | |- context [post_json ?reply (ReqArchive ?p) ?s0] =>
        pose proof (Hup (sent s0) p) as Ha;
        destruct (archivist_archive env (sent s0) p) as [archived|] eqn:Hres;
          [| discriminate Ha];
        rewrite (post_json_ok reply (ReqArchive p) s0 archived Hres)
    end.
    unfold bind at 1.
    match goal with
    | |- context [post_json ?reply (ReqRemember ?q) ?s0] =>
        destruct (post_json_all_fail reply (ReqRemember q) s0
                    (fun before => Hdown before q)) as [e ->]
    end.
    exists e, archived. cbn [sent set_sent map].
    rewrite ?set_sent_twice, <- !app_assoc. reflexivity. }
  exists e, archived. unfold process_item, try_except.
  fold trace_id. rewrite bind_log_context_unfold. fold inside.
  rewrite Hbody. subst inside.
  cbn [fst snd bound sent set_TRACE_ID]. rewrite leave_binding.
  reflexivity.
Qed.

End Failures.

(** X5, witness: item [c] of the scenario with the archive service
    down. *)
Lemma failed_archive_is_not_remembered_witness :
  exists pack,
    snd (process_item Outage.archive_down Scenario.hn Outage.counters
           Scenario.item_c Scenario.running)
    = Ok (incr_failed Outage.counters)
    /\ sent_since Scenario.running
         (fst (process_item Outage.archive_down Scenario.hn Outage.counters
                 Scenario.item_c Scenario.running))
       = [ReqCheckDuplicate (url_hash Scenario.item_c);
          ReqArchive pack; ReqArchive pack; ReqArchive pack].
Proof.
  destruct (failed_archive_is_not_remembered Outage.archive_down Scenario.hn
              Scenario.item_c (fun _ => eq_refl) eq_refl Outage.counters
              Scenario.running (fun _ _ => eq_refl)) as [e He].
  eexists. rewrite He. split; [reflexivity |].
  unfold sent_since. cbn [fst sent set_sent set_logged].
  rewrite drop_app_length. reflexivity.
Defined.

(** X6, witness: item [c] of the scenario with the memory service
    refusing to remember. *)
Lemma archived_but_not_remembered_is_failed_witness :
  snd (process_item Outage.remember_down Scenario.hn Outage.counters
         Scenario.item_c Scenario.running)
  = Ok (incr_failed Outage.counters)
  /\ map is_check
       (sent_since Scenario.running
          (fst (process_item Outage.remember_down Scenario.hn Outage.counters
                  Scenario.item_c Scenario.running)))
     = [true; false; false; false; false].
Proof.
  destruct (archived_but_not_remembered_is_failed Outage.remember_down
              Scenario.hn Scenario.item_c (fun _ => eq_refl) eq_refl
              Outage.counters Scenario.running
              (fun _ _ => eq_refl) (fun _ _ => eq_refl))
    as (e & archived & He).
  rewrite He. split; [reflexivity |].
  unfold sent_since. cbn [fst sent set_sent set_logged].
  rewrite drop_app_length. reflexivity.
Defined.

(** ** Installation order *)

Section SortedByWeight.

Lemma insert_by_weight_perm (x : SourceConfig) (l : list SourceConfig) :
  Permutation (insert_by_weight x l) (x :: l).
Proof.
  induction l as [|y l IH]; cbn [insert_by_weight]; [reflexivity |].
  destruct (weight y <=? weight x); [reflexivity |].
  rewrite IH. apply perm_swap.
Qed.

Lemma insert_by_weight_sorted (x : SourceConfig) (l : list SourceConfig) :
  StronglySorted heavier_first l ->
  StronglySorted heavier_first (insert_by_weight x l).
Proof.
  induction 1 as [|y l Hl IH Hy]; cbn [insert_by_weight].
  - repeat constructor.
  - destruct (weight y <=? weight x) eqn:Hle.
    + apply Z.leb_le in Hle. constructor; [constructor; assumption |].
      constructor; [exact Hle |].
      eapply Forall_impl; [exact Hy |].
      unfold heavier_first. intros z Hz. lia.
    + apply Z.leb_gt in Hle. constructor; [exact IH |].
      rewrite (insert_by_weight_perm x l).
      constructor; [unfold heavier_first; lia | exact Hy].
Qed.

Lemma insert_by_weight_filter (w : Z) (x : SourceConfig)
    (l : list SourceConfig) :
  StronglySorted heavier_first l ->
  List.filter (fun s => weight s =? w) (insert_by_weight x l)
  = List.filter (fun s => weight s =? w) (x :: l).
Proof.
  induction 1 as [|y l Hl IH Hy]; cbn [insert_by_weight]; [reflexivity |].
  destruct (weight y <=? weight x) eqn:Hle; [reflexivity |].
  apply Z.leb_gt in Hle. cbn [List.filter] in *. rewrite IH.
  destruct (weight x =? w) eqn:Hx; [| reflexivity].
  destruct (weight y =? w) eqn:Hy'; [| reflexivity].
  apply Z.eqb_eq in Hx, Hy'. lia.
Qed.

Lemma sorted_by_weight_sorted (l : list SourceConfig) :
  StronglySorted heavier_first (sorted_by_weight l).
Proof.
  unfold sorted_by_weight. induction l as [|x l IH]; cbn [fold_right].
  - constructor.
  - apply insert_by_weight_sorted, IH.
Qed.

Lemma sorted_by_weight_perm (l : list SourceConfig) :
  Permutation (sorted_by_weight l) l.
Proof.
  unfold sorted_by_weight. induction l as [|x l IH]; cbn [fold_right].
  - reflexivity.
  - rewrite insert_by_weight_perm, IH. reflexivity.
Qed.

End SortedByWeight.

(** X7: the order in which source jobs are installed, and in which
    [run_all_sources] runs them, is a stable sort by descending weight:
    the same sources, no lighter one before a heavier one, and sources of
    equal weight in their configuration order. *)
Theorem sorted_by_weight_stable (l : list SourceConfig) :
  Permutation (sorted_by_weight l) l
  /\ StronglySorted heavier_first (sorted_by_weight l)
  /\ (forall w,
        List.filter (fun s => weight s =? w) (sorted_by_weight l)
        = List.filter (fun s => weight s =? w) l).
Proof.
  split; [apply sorted_by_weight_perm |].
  split; [apply sorted_by_weight_sorted |].
  intros w. unfold sorted_by_weight.
  induction l as [|x l IH]; cbn [fold_right]; [reflexivity |].
  rewrite insert_by_weight_filter by apply sorted_by_weight_sorted.
  cbn [List.filter]. fold (sorted_by_weight l). unfold sorted_by_weight.
  rewrite IH. reflexivity.
Qed.

(** ** A reload that succeeds *)

Section SuccessfulReload.

Variable env : Env.

Lemma for_each_ext {A} (l : list A) (body body' : A -> M unit) (s : State) :
  (forall x s0, body x s0 = body' x s0) ->
  for_each l body s = for_each l body' s.
Proof.
  intros Hext. revert s. induction l as [|x l IH]; intros s; cbn [for_each].
  - reflexivity.
  - unfold bind. rewrite Hext. destruct (body' x s) as [s1 [[]|e]];
      [apply IH | reflexivity].
Qed.

Lemma source_body_plan (tz : ZoneInfo) (source : SourceConfig) (s : State) :
  (seconds <- lift (interval_to_seconds (fetch_interval source)) ;;
   trig <- lift (interval_trigger env seconds tz) ;;
   add_job (py "source::" ++ id source) (source_job source trig)) s
  = carry_out (source_plan env tz source) s.
Proof.
  unfold bind, lift, source_plan.
  destruct (interval_to_seconds (fetch_interval source)) as [seconds|e];
    [| reflexivity].
  destruct (interval_trigger env seconds tz); reflexivity.
Qed.

Lemma platform_body_plan (tz : ZoneInfo) (entry : str * PlatformPolicy)
    (s : State) :
  (let '(name, policy) := entry in
   if negb (enabled policy) || negb (truthy (schedule policy))
   then ret tt
   else
     hhmm <- lift (_parse_schedule_hhmm (default [] (schedule policy))) ;;
     trig <- lift (cron_trigger (fst hhmm) (snd hhmm) tz) ;;
     add_job (py "platform::" ++ name) (platform_job name trig)) s
  = carry_out (platform_plan tz entry) s.
Proof.
  destruct entry as [name policy]. unfold platform_plan.
  destruct (negb (enabled policy) || negb (truthy (schedule policy)));
    [reflexivity |].
  unfold bind, lift.
  destruct (_parse_schedule_hhmm (default [] (schedule policy))) as [hhmm|e];
    [| reflexivity].
  destruct (cron_trigger (fst hhmm) (snd hhmm) tz); reflexivity.
Qed.

(** A loop of plans that completes has met no failure, has installed
    exactly the planned jobs over those present, and has changed nothing
    but the job store. *)
Lemma for_each_carried {A} (plan : A -> Plan) (l : list A) (s s' : State) :
  for_each l (fun x => carry_out (plan x)) s = (s', Ok tt) ->
  (forall x e, In x l -> plan x <> Fail e)
  /\ (forall k, is_Some (jobs s' !! k) <->
                is_Some (jobs s !! k)
                \/ exists x j, In x l /\ plan x = Install k j)
  /\ s' = set_jobs (jobs s') s.
Proof.
  revert s. induction l as [|x l IH]; intros s; cbn [for_each].
  - intros [= <-]. split; [intros x e [] |]. split; [| destruct s; reflexivity].
    intros k. split; [auto |]. intros [H | (x & j & [] & _)]. exact H.
  - unfold bind. destruct (plan x) as [|k0 j0|e0] eqn:Hplan; cbn [carry_out].
    + unfold ret. intros Hrest. destruct (IH _ Hrest) as (Hok & Hjobs & Hframe).
      split; [| split; [| exact Hframe]].
      * intros y e [<- | Hy]; [congruence | apply Hok, Hy].
      * intros k. rewrite Hjobs. split.
        -- intros [H | (y & j & Hy & Hp)]; [left; exact H |].
           right. exists y, j. split; [right; exact Hy | exact Hp].
        -- intros [H | (y & j & [<- | Hy] & Hp)]; [left; exact H | congruence |].
           right. exists y, j. split; assumption.
    + unfold add_job, modify. intros Hrest.
      destruct (IH _ Hrest) as (Hok & Hjobs & Hframe).
      split; [| split].
      * intros y e [<- | Hy]; [congruence | apply Hok, Hy].
      * intros k. rewrite Hjobs. cbn [jobs set_jobs].
        rewrite lookup_insert_is_Some. split.
        -- intros [[<- | [_ H]] | (y & j & Hy & Hp)].
           ++ right. exists x, j0. split; [left; reflexivity | exact Hplan].
           ++ left. exact H.
           ++ right. exists y, j. split; [right; exact Hy | exact Hp].
        -- intros [H | (y & j & [<- | Hy] & Hp)].
           ++ destruct (decide (k0 = k)) as [Heq | Hne]; [left; left; exact Heq |].
              left. right. split; assumption.
           ++ left. left. congruence.
           ++ right. exists y, j. split; assumption.
      * rewrite Hframe at 1. reflexivity.
    + unfold raise. discriminate.
Qed.

Lemma source_plan_installs (tz : ZoneInfo) (source : SourceConfig)
    (k : str) (j : Job) :
  source_plan env tz source = Install k j -> k = py "source::" ++ id source.
Proof.
  unfold source_plan.
  destruct (interval_to_seconds (fetch_interval source)) as [seconds|];
    [| discriminate].
  destruct (interval_trigger env seconds tz); [| discriminate].
  intros [= <- _]. reflexivity.
Qed.

Lemma source_plan_not_fail (tz : ZoneInfo) (source : SourceConfig) :
  (forall e, source_plan env tz source <> Fail e) ->
  is_ok (interval_to_seconds (fetch_interval source)) = true
  /\ exists j, source_plan env tz source = Install (py "source::" ++ id source) j.
Proof.
  unfold source_plan.
  destruct (interval_to_seconds (fetch_interval source)) as [secs|e];
    [| intros H; destruct (H e eq_refl)].
  destruct (interval_trigger env secs tz) as [trig|e];
    [| intros H; destruct (H e eq_refl)].
  intros _. split; [reflexivity | eexists; reflexivity].
Qed.

Lemma platform_plan_installs (tz : ZoneInfo) (name : str)
    (policy : PlatformPolicy) (k : str) (j : Job) :
  platform_plan tz (name, policy) = Install k j ->
  enabled policy = true /\ truthy (schedule policy) = true
  /\ k = py "platform::" ++ name.
Proof.
  unfold platform_plan.
  destruct (enabled policy), (truthy (schedule policy)); cbn [negb orb];
    try discriminate.
  destruct (_parse_schedule_hhmm _) as [hhmm|]; [| discriminate].
  destruct (cron_trigger _ _ _); [| discriminate].
  intros [= <- _]. repeat split.
Qed.

Lemma platform_plan_not_fail (tz : ZoneInfo) (name : str)
    (policy : PlatformPolicy) :
  enabled policy = true -> truthy (schedule policy) = true ->
  (forall e, platform_plan tz (name, policy) <> Fail e) ->
  exists j, platform_plan tz (name, policy) = Install (py "platform::" ++ name) j.
Proof.
  unfold platform_plan. intros -> ->. cbn [negb orb].
  destruct (_parse_schedule_hhmm _) as [hhmm|e];
    [| intros H; destruct (H e eq_refl)].
  destruct (cron_trigger _ _ _) as [trig|e];
    [| intros H; destruct (H e eq_refl)].
  intros _. eexists. reflexivity.
Qed.

End SuccessfulReload.

Lemma for_each_contents {A} (plan : A -> Plan) (l : list A) (s s' : State) :
  for_each l (fun x => carry_out (plan x)) s = (s', Ok tt) ->
  forall k j, jobs s' !! k = Some j ->
              jobs s !! k = Some j \/ exists x, In x l /\ plan x = Install k j.
Proof.
  revert s. induction l as [|x l IH]; intros s; cbn [for_each].
  - intros [= <-] k j H. left. exact H.
  - unfold bind. destruct (plan x) as [|k0 j0|e0] eqn:Hplan; cbn [carry_out].
    + unfold ret. intros Hrest k j H.
      destruct (IH _ Hrest k j H) as [H0 | (y & Hy & Hp)]; [left; exact H0 |].
      right. exists y. split; [right; exact Hy | exact Hp].
    + unfold add_job, modify. intros Hrest k j H.
      destruct (IH _ Hrest k j H) as [H0 | (y & Hy & Hp)].
      * cbn [jobs set_jobs] in H0.
        apply lookup_insert_Some in H0 as [[<- <-] | [_ H0]];
          [| left; exact H0].
        right. exists x. split; [left; reflexivity | exact Hplan].
      * right. exists y. split; [right; exact Hy | exact Hp].
    + unfold raise. discriminate.
Qed.

Lemma for_each_installed {A} (plan : A -> Plan) (l : list A) (s s' : State) :
  for_each l (fun x => carry_out (plan x)) s = (s', Ok tt) ->
  jobs s' = installed plan l (jobs s).
Proof.
  revert s. induction l as [|x l IH]; intros s; cbn [for_each installed].
  - intros [= <-]. reflexivity.
  - unfold bind. destruct (plan x) as [|k0 j0|e0]; cbn [carry_out].
    + unfold ret. apply IH.
    + unfold add_job, modify. intros Hrest. apply (IH _ Hrest).
    + unfold raise. discriminate.
Qed.

Lemma cleared_jobs (s : State) :
  jobs (fst (_clear_runtime_jobs s))
  = match watcher_entry s with
    | Some job => {[config_watcher := job]}
    | None => ∅
    end.
Proof.
  apply map_eq. intros k. rewrite clear_runtime_jobs_lookup.
  unfold watcher_entry. case_bool_decide as Hk.
  - subst k. destruct (jobs s !! config_watcher) as [job|].
    + rewrite lookup_singleton_eq. reflexivity.
    + rewrite lookup_empty. reflexivity.
  - destruct (jobs s !! config_watcher) as [job|].
    + rewrite lookup_singleton_ne by congruence. reflexivity.
    + rewrite lookup_empty. reflexivity.
Qed.

Lemma load_and_schedule_ok (env : Env) (force : bool) (s s' : State) :
  _load_and_schedule env force s = (s', Ok tt) ->
  (force = false /\ rules_fingerprint env RULES_PATH = Ok (fingerprint s)
   /\ s' = s)
  \/ (exists fp cfg tz,
        rules_fingerprint env RULES_PATH = Ok fp
        /\ load_rules env RULES_PATH = Ok cfg
        /\ zone_info env (timezone (global_config cfg)) = Ok tz
        /\ rules s' = Some cfg /\ fingerprint s' = fp
        /\ (forall k, is_Some (jobs s' !! k) <->
                      (k = config_watcher /\ is_Some (jobs s !! config_watcher))
                      \/ wanted_job_id cfg k)
        /\ Forall (fun src => is_ok (interval_to_seconds (fetch_interval src))
                              = true) (sources cfg)
        /\ last_runs s' = last_runs s /\ context s' = context s
        /\ sent s' = sent s
        /\ (forall k j, jobs s' !! k = Some j ->
              (k = config_watcher /\ jobs s !! config_watcher = Some j)
              \/ (exists src, In src (sources cfg)
                              /\ source_plan env tz src = Install k j)
              \/ (exists entry, In entry (platforms cfg)
                                /\ platform_plan tz entry = Install k j)
              \/ (k = py "maintenance::cleanup"
                  /\ j = {| func := CleanupMemory;
                            trigger := CronTrigger 3 30 tz;
                            max_instances := Some 1; coalesce := None |}))
        /\ (forall entry e, In entry (platforms cfg) ->
                            platform_plan tz entry <> Fail e)
        /\ jobs s' = topology_of env cfg tz (watcher_entry s)
        /\ (forall source e, In source (sources cfg) ->
                             source_plan env tz source <> Fail e)).
Proof.
  unfold _load_and_schedule, bind at 1, lift.
  destruct (rules_fingerprint env RULES_PATH) as [fp|e] eqn:Hfp;
    [| discriminate].
  unfold bind at 1, get_state.
  destruct (negb force && str_eqb fp (fingerprint s)) eqn:Hshort.
  { intros [= <-]. left. apply andb_true_iff in Hshort as [Hf Heq].
    apply negb_true_iff in Hf. apply bool_decide_eq_true in Heq.
    subst fp. auto. }
  unfold bind at 1.
  destruct (load_rules env RULES_PATH) as [cfg|e] eqn:Hload; [| discriminate].
  unfold bind at 1.
  destruct (zone_info env (timezone (global_config cfg))) as [tz|e] eqn:Hzone;
    [| discriminate].
  unfold bind at 1.
  destruct (_clear_runtime_jobs s) as [s1 r1] eqn:Hclear.
  assert (r1 = Ok tt /\ s1 = fst (_clear_runtime_jobs s)) as [-> Hs1]
    by (rewrite Hclear; unfold _clear_runtime_jobs, modify in Hclear;
        injection Hclear as _ <-; auto).
  unfold bind at 1.
  rewrite (for_each_ext _ _ (fun x => carry_out (source_plan env tz x)) s1
             (source_body_plan env tz)).
  destruct (for_each (sorted_by_weight (sources cfg))
              (fun x => carry_out (source_plan env tz x)) s1)
    as [s2 [[]|e]] eqn:Hsources; [| discriminate].
  unfold bind at 1.
  rewrite (for_each_ext _ _ (fun x => carry_out (platform_plan tz x)) s2
             (platform_body_plan tz)).
  destruct (for_each (platforms cfg)
              (fun x => carry_out (platform_plan tz x)) s2)
    as [s3 [[]|e]] eqn:Hplatforms; [| discriminate].
  change (cron_trigger 3 30 tz) with (Ok (CronTrigger 3 30 tz)).
  unfold bind, add_job, modify, log, ret. intros [= <-].
  right. exists fp, cfg, tz.
  destruct (for_each_carried _ _ _ _ Hsources) as (Hok2 & Hjobs2 & Hframe2).
  destruct (for_each_carried _ _ _ _ Hplatforms) as (Hok3 & Hjobs3 & Hframe3).
  assert (forall k, is_Some (jobs s1 !! k) <->
                    k = config_watcher /\ is_Some (jobs s !! config_watcher))
    as Hjobs1.
  { intros k. rewrite Hs1, clear_runtime_jobs_lookup.
    case_bool_decide as Hk.
    - subst k. split; [auto | intros [_ H]; exact H].
    - split; [intros [j Hj]; discriminate Hj | intros [Hk' _]; contradiction]. }
  assert (s1 = set_jobs (jobs s1) s) as Hframe1
    by (rewrite Hs1; unfold _clear_runtime_jobs, modify; reflexivity).
  assert (forall src, In src (sources cfg) ->
                      In src (sorted_by_weight (sources cfg))) as Hin
    by (intros src Hsrc;
        eapply Permutation_in; [symmetry; apply sorted_by_weight_perm | exact Hsrc]).
  assert (forall src, In src (sorted_by_weight (sources cfg)) ->
                      In src (sources cfg)) as Hin'
    by (intros src Hsrc;
        eapply Permutation_in; [apply sorted_by_weight_perm | exact Hsrc]).
  do 2 (split; [reflexivity |]). split; [exact Hzone |].
  split; [reflexivity |]. split; [reflexivity |].
  split; [| split; [| split; [| split; [| split; [| split; [| split;
    [| split]]]]]]];
    [| | | | | | exact Hok3 | | intros source e Hsrc; apply Hok2, Hin, Hsrc].
  - intros k. cbn [jobs set_jobs set_logged set_fingerprint set_rules].
    rewrite lookup_insert_is_Some, Hjobs3, Hjobs2, Hjobs1.
    unfold wanted_job_id. split.
    + intros [<- | [_ [[Hw | (src & j & Hsrc & Hp)] | ((name, pol) & j & He & Hp)]]].
      * right. right. right. reflexivity.
      * left. exact Hw.
      * right. left. exists src.
        split; [apply Hin', Hsrc | eapply source_plan_installs, Hp].
      * right. right. left.
        destruct (platform_plan_installs _ _ _ _ _ Hp) as (? & ? & ?).
        exists name, pol. auto.
    + intros [Hw | [(src & Hsrc & ->) | [(name & pol & He & Hen & Hsch & ->) | ->]]].
      * destruct (decide (py "maintenance::cleanup" = k)) as [Heq | Hne];
          [left; exact Heq |].
        right. split; [exact Hne |]. left. left. exact Hw.
      * right. split; [discriminate |]. left. right.
        destruct (source_plan_not_fail env tz src) as [_ [j Hj]].
        { intros e. apply Hok2, Hin, Hsrc. }
        exists src, j. split; [apply Hin, Hsrc | exact Hj].
      * right. split; [discriminate |]. right.
        destruct (platform_plan_not_fail tz name pol Hen Hsch) as [j Hj].
        { intros e. apply (Hok3 (name, pol)), He. }
        exists (name, pol), j. split; assumption.
      * left. reflexivity.
  - apply List.Forall_forall. intros src Hsrc.
    apply (source_plan_not_fail env tz src). intros e. apply Hok2, Hin, Hsrc.
  - rewrite Hframe3, Hframe2, Hframe1. reflexivity.
  - rewrite Hframe3, Hframe2, Hframe1. reflexivity.
  - rewrite Hframe3, Hframe2, Hframe1. reflexivity.
  - intros k j. cbn [jobs set_jobs set_logged set_fingerprint set_rules].
    intros Hk. apply lookup_insert_Some in Hk as [[<- <-] | [_ Hk]];
      [right; right; right; split; reflexivity |].
    destruct (for_each_contents _ _ _ _ Hplatforms k j Hk)
      as [Hk2 | (entry & He & Hp)];
      [| right; right; left; exists entry; split; assumption].
    destruct (for_each_contents _ _ _ _ Hsources k j Hk2)
      as [Hk1 | (src & Hsrc & Hp)];
      [| right; left; exists src; split; [apply Hin', Hsrc | exact Hp]].
    left. rewrite Hs1, clear_runtime_jobs_lookup in Hk1.
    case_bool_decide as Hkw; [subst k; split; [reflexivity | exact Hk1] |].
    discriminate Hk1.
  - cbn [jobs set_jobs set_logged set_fingerprint set_rules].
    unfold topology_of.
    rewrite (for_each_installed _ _ _ _ Hplatforms),
      (for_each_installed _ _ _ _ Hsources), Hs1, cleared_jobs.
    reflexivity.
Qed.

(** X8: a forced reload that returns has installed exactly the topology
    of the configuration it parsed: besides the watcher (kept if it was
    there), one job per source, one per enabled platform with a schedule,
    and the maintenance job, and no other; every source's interval was
    valid; and the engine now holds that configuration and the
    fingerprint of the file. *)
Theorem successful_reload_installs_exactly (env : Env) (s s' : State) :
  _load_and_schedule env true s = (s', Ok tt) ->
  exists cfg fp,
    load_rules env RULES_PATH = Ok cfg
    /\ rules_fingerprint env RULES_PATH = Ok fp
    /\ rules s' = Some cfg /\ fingerprint s' = fp
    /\ (forall k, is_Some (jobs s' !! k) <->
                  (k = config_watcher /\ is_Some (jobs s !! config_watcher))
                  \/ wanted_job_id cfg k)
    /\ Forall (fun src => is_ok (interval_to_seconds (fetch_interval src))
                          = true) (sources cfg)
    /\ last_runs s' = last_runs s.
Proof.
  intros Hrun.
  destruct (load_and_schedule_ok env true s s' Hrun)
    as [(Hf & _) | (fp & cfg & tz & Hfp & Hload & _ & Hr & Hfinger & Hjobs
                    & Hvalid & Hlast & _)];
    [discriminate Hf |].
  exists cfg, fp. auto 10.
Qed.

(** X9: once a reload has returned, an unforced reload of the same file
    changes nothing and returns at once. *)
Theorem reload_then_unforced_is_noop (env : Env) (force : bool)
    (s s' : State) :
  _load_and_schedule env force s = (s', Ok tt) ->
  _load_and_schedule env false s' = (s', Ok tt).
Proof.
  intros Hrun.
  assert (rules_fingerprint env RULES_PATH = Ok (fingerprint s')) as Hfp.
  { destruct (load_and_schedule_ok env force s s' Hrun)
      as [(_ & Hfp & ->) | (fp & cfg & tz & Hfp & _ & _ & _ & <- & _)];
      exact Hfp. }
  unfold _load_and_schedule, bind at 1, lift. rewrite Hfp.
  unfold bind at 1, get_state.
  unfold str_eqb. rewrite bool_decide_eq_true_2 by reflexivity.
  reflexivity.
Qed.

(** X8, witness: the first load of the scenario's rules file. *)
Lemma successful_reload_installs_exactly_witness :
  let s' := fst (_load_and_schedule Scenario.env true init_state) in
  _load_and_schedule Scenario.env true init_state = (s', Ok tt)
  /\ exists cfg fp,
       load_rules Scenario.env RULES_PATH = Ok cfg
       /\ rules_fingerprint Scenario.env RULES_PATH = Ok fp
       /\ rules s' = Some cfg /\ fingerprint s' = fp
       /\ (forall k, is_Some (jobs s' !! k) <->
                     (k = config_watcher
                      /\ is_Some (jobs init_state !! config_watcher))
                     \/ wanted_job_id cfg k)
       /\ Forall (fun src => is_ok (interval_to_seconds (fetch_interval src))
                             = true) (sources cfg)
       /\ last_runs s' = last_runs init_state.
Proof.
  assert (snd (_load_and_schedule Scenario.env true init_state) = Ok tt) as Hok
    by (vm_compute; reflexivity).
  destruct (_load_and_schedule Scenario.env true init_state) as [s' r] eqn:Hrun.
  cbn [fst snd] in *. subst r.
  split; [reflexivity |].
  exact (successful_reload_installs_exactly Scenario.env init_state s' Hrun).
Defined.

(** X9, witness: the scenario's engine, loaded, polls the unchanged
    file. *)
Lemma reload_then_unforced_is_noop_witness :
  let s' := fst (_load_and_schedule Scenario.env true init_state) in
  _load_and_schedule Scenario.env true init_state = (s', Ok tt)
  /\ _load_and_schedule Scenario.env false s' = (s', Ok tt).
Proof.
  assert (snd (_load_and_schedule Scenario.env true init_state) = Ok tt) as Hok
    by (vm_compute; reflexivity).
  destruct (_load_and_schedule Scenario.env true init_state) as [s' r] eqn:Hrun.
  cbn [fst snd] in *. subst r.
  split; [reflexivity |].
  exact (reload_then_unforced_is_noop Scenario.env true init_state s' Hrun).
Defined.

(** ** What a reload removes *)

(** However a loop of plans ends, a job in the store after it was there
    before or was installed by one of the plans. *)
Lemma for_each_origin {A} (plan : A -> Plan) (l : list A) (s : State) :
  forall k j,
    jobs (fst (for_each l (fun x => carry_out (plan x)) s)) !! k = Some j ->
    jobs s !! k = Some j \/ exists x, In x l /\ plan x = Install k j.
Proof.
  revert s. induction l as [|x l IH]; intros s k j; cbn [for_each].
  - intros H. left. exact H.
  - unfold bind. destruct (plan x) as [|k0 j0|e0] eqn:Hplan; cbn [carry_out].
    + unfold ret. intros H.
      destruct (IH _ k j H) as [H0 | (y & Hy & Hp)]; [left; exact H0 |].
      right. exists y. split; [right; exact Hy | exact Hp].
    + unfold add_job, modify. intros H.
      destruct (IH _ k j H) as [H0 | (y & Hy & Hp)].
      * cbn [jobs set_jobs] in H0.
        apply lookup_insert_Some in H0 as [[<- <-] | [_ H0]];
          [| left; exact H0].
        right. exists x. split; [left; reflexivity | exact Hplan].
      * right. exists y. split; [right; exact Hy | exact Hp].
    + unfold raise. cbn [fst]. intros H. left. exact H.
Qed.

(** A reload that gets as far as tearing the old jobs down leaves,
    whether it then returns or raises, no job but the watcher and those
    it has installed itself. *)
Lemma load_and_schedule_no_stale (env : Env) (force : bool) (s : State)
    (fp : str) (cfg : RulesConfig) (tz : ZoneInfo) :
  rules_fingerprint env RULES_PATH = Ok fp ->
  negb force && str_eqb fp (fingerprint s) = false ->
  load_rules env RULES_PATH = Ok cfg ->
  zone_info env (timezone (global_config cfg)) = Ok tz ->
  forall k j,
    jobs (fst (_load_and_schedule env force s)) !! k = Some j ->
    (k = config_watcher /\ jobs s !! config_watcher = Some j)
    \/ installs env cfg tz k j.
Proof.
  intros Hfp Hgo Hload Hzone k j.
  unfold _load_and_schedule, bind at 1, lift. rewrite Hfp.
  unfold bind at 1, get_state. rewrite Hgo.
  unfold bind at 1. rewrite Hload.
  unfold bind at 1. rewrite Hzone.
  unfold bind at 1.
  destruct (_clear_runtime_jobs s) as [s1 r1] eqn:Hclear.
  assert (r1 = Ok tt /\ s1 = fst (_clear_runtime_jobs s)) as [-> Hs1]
    by (rewrite Hclear; unfold _clear_runtime_jobs, modify in Hclear;
        injection Hclear as _ <-; auto).
  assert (forall j0, jobs s1 !! k = Some j0 ->
                     k = config_watcher /\ jobs s !! config_watcher = Some j0)
    as Hcleared.
  { intros j0. rewrite Hs1, clear_runtime_jobs_lookup.
    case_bool_decide as Hk; [subst k; auto | discriminate]. }
  unfold bind at 1.
  rewrite (for_each_ext _ _ (fun x => carry_out (source_plan env tz x)) s1
             (source_body_plan env tz)).
  pose proof (for_each_origin (source_plan env tz)
                (sorted_by_weight (sources cfg)) s1 k) as Hsources.
  assert (forall j0,
            jobs (fst (for_each (sorted_by_weight (sources cfg))
                         (fun x => carry_out (source_plan env tz x)) s1)) !! k
            = Some j0 ->
            (k = config_watcher /\ jobs s !! config_watcher = Some j0)
            \/ installs env cfg tz k j0) as Hafter_sources.
  { intros j0 H. destruct (Hsources j0 H) as [H0 | (src & Hsrc & Hp)];
      [left; apply Hcleared, H0 |].
    right. left. exists src. split; [| exact Hp].
    eapply Permutation_in; [apply sorted_by_weight_perm | exact Hsrc]. }
  clear Hsources.
  destruct (for_each (sorted_by_weight (sources cfg))
              (fun x => carry_out (source_plan env tz x)) s1)
    as [s2 [[]|e]]; cbn [fst] in *; [| apply Hafter_sources].
  unfold bind at 1.
  rewrite (for_each_ext _ _ (fun x => carry_out (platform_plan tz x)) s2
             (platform_body_plan tz)).
  pose proof (for_each_origin (platform_plan tz) (platforms cfg) s2 k)
    as Hplatforms.
  assert (forall j0,
            jobs (fst (for_each (platforms cfg)
                         (fun x => carry_out (platform_plan tz x)) s2)) !! k
            = Some j0 ->
            (k = config_watcher /\ jobs s !! config_watcher = Some j0)
            \/ installs env cfg tz k j0) as Hafter_platforms.
  { intros j0 H. destruct (Hplatforms j0 H) as [H0 | (entry & He & Hp)];
      [apply Hafter_sources, H0 |].
    right. right. left. exists entry. split; assumption. }
  clear Hplatforms.
  destruct (for_each (platforms cfg)
              (fun x => carry_out (platform_plan tz x)) s2)
    as [s3 [[]|e]]; cbn [fst] in *; [| apply Hafter_platforms].
  change (cron_trigger 3 30 tz) with (Ok (CronTrigger 3 30 tz)).
  unfold bind, add_job, log, modify, ret.
  cbn [fst jobs set_jobs set_logged set_fingerprint set_rules].
  intros H. apply lookup_insert_Some in H as [[<- <-] | [_ H]];
    [right; right; right; split; reflexivity | apply Hafter_platforms, H].
Qed.

(** C8: the watcher survives every reload, and only the watcher does.
    [_clear_runtime_jobs] removes every scheduled job except the watcher;
    a watcher present before a reload is present, unchanged, after it,
    whether [_load_and_schedule] returned or raised; and a reload that
    gets past reading the file, parsing it and resolving its time zone
    removes every other job that was scheduled: whether it then returns
    or raises, the store holds the watcher and the jobs this reload has
    installed, so that a job under an id the new configuration does not
    call for is gone. *)
Theorem watcher_survives_reload (env : Env) (force : bool) (s : State)
    (watcher : Job) :
  jobs s !! config_watcher = Some watcher ->
  let s' := fst (_load_and_schedule env force s) in
  (forall k, jobs (fst (_clear_runtime_jobs s)) !! k
             = if bool_decide (k = config_watcher) then Some watcher else None)
  /\ jobs s' !! config_watcher = Some watcher
  /\ (forall fp cfg tz,
        rules_fingerprint env RULES_PATH = Ok fp ->
        negb force && str_eqb fp (fingerprint s) = false ->
        load_rules env RULES_PATH = Ok cfg ->
        zone_info env (timezone (global_config cfg)) = Ok tz ->
        (forall k j, jobs s' !! k = Some j ->
                     (k = config_watcher /\ j = watcher)
                     \/ installs env cfg tz k j)
        /\ (forall k, k <> config_watcher -> ~ wanted_job_id cfg k ->
                      jobs s' !! k = None)).
Proof.
  intros Hw. cbv zeta. split; [| split].
  - intros k. rewrite clear_runtime_jobs_lookup.
    case_bool_decide; [subst k; exact Hw | reflexivity].
  - rewrite <- Hw. apply (load_and_schedule_keeps_watcher env force s).
  - intros fp cfg tz Hfp Hgo Hload Hzone.
    pose proof (load_and_schedule_no_stale env force s fp cfg tz
                  Hfp Hgo Hload Hzone) as Hfresh.
    assert (forall k j,
              jobs (fst (_load_and_schedule env force s)) !! k = Some j ->
              (k = config_watcher /\ j = watcher) \/ installs env cfg tz k j)
      as Hall.
    { intros k j Hk. destruct (Hfresh k j Hk) as [[-> Hj] | Hi];
        [left; split; [reflexivity | congruence] | right; exact Hi]. }
    split; [exact Hall |].
    intros k Hk Hnot.
    destruct (jobs (fst (_load_and_schedule env force s)) !! k) as [j|] eqn:Hj;
      [| reflexivity].
    exfalso. destruct (Hall k j Hj) as [[Heq _] | Hi]; [contradiction |].
    apply Hnot. unfold wanted_job_id.
    destruct Hi as [(source & Hin & Hp) | [([name policy] & Hin & Hp) | [-> _]]].
    + left. exists source. split; [exact Hin |].
      apply (source_plan_installs env tz source k j Hp).
    + right. left.
      destruct (platform_plan_installs tz name policy k j Hp) as (? & ? & ?).
      exists name, policy. auto.
    + right. right. reflexivity.
Qed.

(** C8, witness: the started engine reloads a file whose second source
    has an unknown interval unit; the reload raises after the old jobs
    have been torn down, the watcher is still scheduled, and the job of
    the source [blog], which the failed reload did not get to, is
    gone. *)
Lemma watcher_survives_reload_witness :
  let s' := fst (_load_and_schedule Scenario.env_edited true Scenario.running) in
  jobs Scenario.running !! config_watcher = Some watcher_job
  /\ is_ok (snd (_load_and_schedule Scenario.env_edited true Scenario.running))
     = false
  /\ jobs s' !! config_watcher = Some watcher_job
  /\ (forall k j, jobs s' !! k = Some j ->
                  (k = config_watcher /\ j = watcher_job)
                  \/ installs Scenario.env_edited Scenario.edited_rules
                       {| zone_key := py "Asia/Shanghai" |} k j)
  /\ is_Some (jobs Scenario.running !! py "source::blog")
  /\ jobs s' !! py "source::blog" = None.
Proof.
  cbv zeta.
  assert (jobs Scenario.running !! config_watcher = Some watcher_job) as Hw
    by (vm_compute; reflexivity).
  destruct (watcher_survives_reload Scenario.env_edited true Scenario.running
              watcher_job Hw) as (_ & Hkept & Hfresh).
  destruct (Hfresh (fingerprint_of Scenario.edited_yaml) Scenario.edited_rules
              {| zone_key := py "Asia/Shanghai" |}
              eq_refl eq_refl eq_refl eq_refl) as [Hall _].
  split; [exact Hw |]. split; [vm_compute; reflexivity |].
  split; [exact Hkept |]. split; [exact Hall |].
  split; [vm_compute; eexists; reflexivity | vm_compute; reflexivity].
Defined.

Lemma int_of_digits_from (ds : str) (acc : Z) :
  0 <= acc ->
  0 <= fold_left (fun acc c => acc * 10 + Z.of_N (default 0%N (decimal c)))
         ds acc.
Proof.
  revert acc. induction ds as [|c ds IH]; intros acc Hacc; cbn [fold_left].
  - exact Hacc.
  - apply IH. lia.
Qed.

Lemma interval_to_seconds_range (text : str) (v : Z) :
  interval_to_seconds text = Ok v -> 0 <= v /\ (60 | v).
Proof.
  unfold interval_to_seconds.
  destruct (match_interval (lower (strip text))) as [[ds unit]|];
    [| discriminate].
  destruct (int_max_str_digits <? Z.of_nat (length ds)); [discriminate |].
  pose proof (int_of_digits_from ds 0 (Z.le_refl 0)) as Hds.
  fold (int_of_digits ds) in Hds. cbv zeta.
  destruct (unit =? char_m)%N; intros [= <-].
  - split; [lia | exists (int_of_digits ds); reflexivity].
  - split; [lia | exists (int_of_digits ds * 60); lia].
Qed.



(** ** The watcher, the start and the HTTP operations *)

Ltac preserve_by leaf :=
  repeat first
    [ apply preserves_ret
    | apply preserves_lift
    | apply preserves_get_state
    | apply preserves_bind; [| intros ?]
    | apply preserves_for_each; intros ?
    | leaf ].

(** A reload writes to the job store, the rules, the fingerprint and the
    log, and to nothing else, whether it returns or raises. *)
Lemma load_and_schedule_preserves {X} (f : State -> X) (env : Env)
    (force : bool) :
  (forall v s, f (set_jobs v s) = f s) ->
  (forall v s, f (set_logged v s) = f s) ->
  (forall v s, f (set_rules v s) = f s) ->
  (forall v s, f (set_fingerprint v s) = f s) ->
  preserves f (_load_and_schedule env force).
Proof.
  intros Hjobs Hlogged Hrules Hfp.
  assert (forall k j, preserves f (add_job k j)) as Hadd
    by (intros k j s; apply Hjobs).
  unfold _load_and_schedule.
  apply preserves_bind; [apply preserves_lift | intros fp].
  apply preserves_bind; [apply preserves_get_state | intros self].
  destruct (negb force && str_eqb fp (fingerprint self));
    [apply preserves_ret |].
  apply preserves_bind; [apply preserves_lift | intros cfg].
  apply preserves_bind; [apply preserves_lift | intros tz].
  apply preserves_bind; [intros s; apply Hjobs | intros _].
  apply preserves_bind; [preserve_by ltac:(apply Hadd) | intros _].
  apply preserves_bind.
  { apply preserves_for_each. intros [name policy].
    destruct (negb (enabled policy) || negb (truthy (schedule policy)));
      preserve_by ltac:(apply Hadd). }
  intros _.
  preserve_by ltac:(first
    [ apply Hadd
    | intros s; apply Hrules
    | intros s; apply Hfp
    | intros s; apply Hlogged ]).
Qed.

Lemma load_and_schedule_beyond (env : Env) (force : bool) :
  preserves beyond_reload (_load_and_schedule env force).
Proof. apply load_and_schedule_preserves; reflexivity. Qed.

Lemma watch_rules_unfold (env : Env) (s : State) :
  _watch_rules env s
  = match rules_fingerprint env RULES_PATH with
    | Raise exc => log (WatchFailed exc) s
    | Ok current =>
        if bool_decide (current = fingerprint s) then (s, Ok tt)
        else match _load_and_schedule env true
                     (fst (log DetectedRulesChange s)) with
             | (s2, Raise e) => log (WatchFailed e) s2
             | done => done
             end
    end.
Proof.
  unfold _watch_rules, try_except, bind at 1, lift.
  destruct (rules_fingerprint env RULES_PATH) as [fp|exc]; [| reflexivity].
  unfold bind at 1, get_state, str_eqb.
  case_bool_decide; cbn [negb]; [reflexivity |].
  unfold bind, log at 1, modify at 1. cbn [fst].
  destruct (_load_and_schedule env true _) as [s2 [[]|e]]; reflexivity.
Qed.

(** X11: the watcher's tick never raises, so the scheduler keeps calling
    it; it never removes or replaces its own job, never sends a request
    and never touches the run summaries or the trace context.  When the
    file's fingerprint is the engine's, it does nothing at all.  When
    the file cannot be read, it only logs the failure.  When the file's
    fingerprint differs from the engine's, it logs the change and runs a
    forced reload.  If that reload returns, the tick leaves the engine
    as the reload left it, holding the parsed file and the file's
    fingerprint, so that the next tick on the same file does nothing.
    If it raises, the tick leaves the engine as the failed reload left
    it, with the error logged; the rules and the fingerprint are those
    it had, so that the fingerprint still differs from the file's and
    the next tick reloads again. *)
Theorem watch_rules_never_fails (env : Env) (s : State) :
  let s' := fst (_watch_rules env s) in
  snd (_watch_rules env s) = Ok tt
  /\ watcher_entry s' = watcher_entry s
  /\ beyond_reload s' = beyond_reload s
  /\ (rules_fingerprint env RULES_PATH = Ok (fingerprint s) -> s' = s)
  /\ (forall exc, rules_fingerprint env RULES_PATH = Raise exc ->
        s' = fst (log (WatchFailed exc) s))
  /\ (forall fp,
        rules_fingerprint env RULES_PATH = Ok fp -> fp <> fingerprint s ->
        let reloaded :=
          _load_and_schedule env true (fst (log DetectedRulesChange s)) in
        (snd reloaded = Ok tt ->
         s' = fst reloaded
         /\ fingerprint s' = fp
         /\ (exists cfg,
               load_rules env RULES_PATH = Ok cfg /\ rules s' = Some cfg)
         /\ _watch_rules env s' = (s', Ok tt))
        /\ (forall e,
              snd reloaded = Raise e ->
              s' = fst (log (WatchFailed e) (fst reloaded))
              /\ rules s' = rules s /\ fingerprint s' = fingerprint s
              /\ fingerprint s' <> fp)).
Proof.
  cbv zeta. rewrite watch_rules_unfold.
  destruct (rules_fingerprint env RULES_PATH) as [fp|exc] eqn:Hfp.
  - case_bool_decide as Heq.
    + subst fp. cbn [fst snd].
      do 3 (split; [reflexivity |]). split; [reflexivity |].
      split; [intros exc; discriminate |].
      intros fp [= <-] Hne. contradiction.
    + set (s1 := fst (log DetectedRulesChange s)).
      pose proof (load_and_schedule_keeps_watcher env true s1) as Hw.
      pose proof (load_and_schedule_beyond env true s1) as Hb.
      destruct (_load_and_schedule env true s1) as [s2 [[]|e]] eqn:Hrun;
        cbn [fst snd] in *.
      * split; [reflexivity |]. split; [exact Hw |]. split; [exact Hb |].
        split; [intros [= ->]; contradiction |].
        split; [intros exc; discriminate |].
        intros fp0 [= <-] _. split; [| intros e; discriminate].
        intros _.
        destruct (load_and_schedule_ok env true s1 s2 Hrun)
          as [(Hf & _) | (fp' & cfg & tz & Hfp' & Hload & _ & Hr & Hfinger & _)];
          [discriminate Hf |].
        assert (fingerprint s2 = fp) as Hfinger2 by congruence.
        split; [reflexivity |]. split; [exact Hfinger2 |].
        split; [exists cfg; auto |].
        rewrite watch_rules_unfold, Hfp.
        rewrite bool_decide_eq_true_2 by (symmetry; exact Hfinger2).
        reflexivity.
      * unfold log, modify. cbn [fst snd].
        split; [reflexivity |]. split; [exact Hw |]. split; [exact Hb |].
        split; [intros [= ->]; contradiction |].
        split; [intros exc; discriminate |].
        intros fp0 [= <-] _. split; [discriminate |].
        intros e0 [= <-].
        pose proof (load_and_schedule_unchanged_on_raise env
                      (fun st => (rules st, fingerprint st)) true
                      (fun _ _ => eq_refl) (fun _ _ => eq_refl) s1 s2 e Hrun)
          as Hkeep.
        cbn in Hkeep. injection Hkeep as Hr Hf.
        cbn [rules fingerprint set_logged].
        split; [reflexivity |]. split; [exact Hr |]. split; [exact Hf |].
        rewrite Hf. intros Hsame. apply Heq. symmetry. exact Hsame.
  - unfold log, modify. cbn [fst snd].
    do 3 (split; [reflexivity |]). split; [discriminate |].
    split; [intros exc' [= <-]; reflexivity |].
    intros fp; discriminate.
Qed.

(** Two ticks of the watcher on the scenario's engine: with the file
    unchanged, and with the file edited into one whose second source has
    the interval "2d". *)
Example watch_rules_courses :
  fst (_watch_rules Scenario.env Scenario.running) = Scenario.running
  /\ map log_event
       (skipn (length (logged Scenario.running))
          (logged (fst (_watch_rules Scenario.env_edited Scenario.running))))
     = [DetectedRulesChange;
        WatchFailed (Exception ValueError
                       (Text (py "Unsupported interval format: 2d")))]
  /\ is_Some (jobs (fst (_watch_rules Scenario.env_edited Scenario.running))
                !! config_watcher).
Proof.
  split; [vm_compute; reflexivity |].
  split; [vm_compute; reflexivity |].
  vm_compute. eexists. reflexivity.
Qed.

Lemma start_unfold (env : Env) (s : State) :
  start env s
  = match _load_and_schedule env true s with
    | (s1, Ok _) =>
        log PulseStarted
          (set_jobs (<[config_watcher := watcher_job]> (jobs s1)) s1)
    | (s1, Raise e) => (s1, Raise e)
    end.
Proof.
  unfold start, bind at 1.
  destruct (_load_and_schedule env true s) as [s1 [[]|e]]; reflexivity.
Qed.

(** X12: [start] is all or nothing for the watcher.  Either the first
    load succeeds, and [start] returns with the watcher scheduled next
    to exactly the jobs the configuration calls for, the engine holding
    the parsed file and its fingerprint; or the first load raises, and
    [start] raises the same error without having scheduled the watcher
    or assigned the rules or the fingerprint. *)
Theorem start_is_all_or_nothing (env : Env) (s : State) :
  let s' := fst (start env s) in
  (exists cfg,
     snd (start env s) = Ok tt
     /\ load_rules env RULES_PATH = Ok cfg /\ rules s' = Some cfg
     /\ rules_fingerprint env RULES_PATH = Ok (fingerprint s')
     /\ jobs s' !! config_watcher = Some watcher_job
     /\ forall k, is_Some (jobs s' !! k) <->
                  k = config_watcher \/ wanted_job_id cfg k)
  \/ (exists e,
        snd (start env s) = Raise e
        /\ snd (_load_and_schedule env true s) = Raise e
        /\ watcher_entry s' = watcher_entry s
        /\ rules s' = rules s /\ fingerprint s' = fingerprint s).
Proof.
  cbv zeta. rewrite start_unfold.
  pose proof (load_and_schedule_keeps_watcher env true s) as Hw.
  destruct (_load_and_schedule env true s) as [s1 [[]|e]] eqn:Hrun;
    cbn [fst snd] in *.
  - left.
    destruct (load_and_schedule_ok env true s s1 Hrun)
      as [(Hf & _) | (fp & cfg & tz & Hfp & Hload & _ & Hr & Hfinger & Hjobs & _)];
      [discriminate Hf |].
    exists cfg. unfold log, modify.
    cbn [fst snd rules fingerprint jobs set_jobs set_logged].
    split; [reflexivity |]. split; [exact Hload |]. split; [exact Hr |].
    split; [rewrite Hfinger; exact Hfp |].
    split; [apply lookup_insert_eq |].
    intros k. rewrite lookup_insert_is_Some, Hjobs. split.
    + intros [<- | [_ [[-> _] | Hwanted]]]; auto.
    + intros [-> | Hwanted]; [left; reflexivity |].
      destruct (decide (config_watcher = k)) as [Heq | Hne]; [left; exact Heq |].
      right. split; [exact Hne | right; exact Hwanted].
  - right. exists e. split; [reflexivity |]. split; [reflexivity |].
    split; [exact Hw |].
    pose proof (load_and_schedule_unchanged_on_raise env
                  (fun st => (rules st, fingerprint st)) true
                  (fun _ _ => eq_refl) (fun _ _ => eq_refl) s s1 e Hrun)
      as Hkeep.
    cbn in Hkeep. injection Hkeep as Hr Hf. auto.
Qed.

(** X13: [POST /reload] answers with the fingerprint of the file as the
    engine now holds it, together with the parsed rules, or with status
    500 and the text of the error that stopped the reload; in that case
    the engine still reports the rules and the fingerprint it had, and
    the watcher is where it was.  Either way no request is sent and no
    run summary changes. *)
Theorem reload_endpoint_reports (env : Env) (s : State) :
  let s' := fst (PulseApi.reload_rules env s) in
  beyond_reload s' = beyond_reload s
  /\ watcher_entry s' = watcher_entry s
  /\ ((exists cfg,
         snd (PulseApi.reload_rules env s) = PulseApi.Replied (fingerprint s')
         /\ rules_fingerprint env RULES_PATH = Ok (fingerprint s')
         /\ load_rules env RULES_PATH = Ok cfg /\ rules s' = Some cfg)
      \/ (exists exc,
            snd (_load_and_schedule env true s) = Raise exc
            /\ snd (PulseApi.reload_rules env s)
               = PulseApi.HTTPException 500 (exn_message exc)
            /\ rules s' = rules s /\ fingerprint s' = fingerprint s)).
Proof.
  cbv zeta. unfold PulseApi.reload_rules.
  pose proof (load_and_schedule_keeps_watcher env true s) as Hw.
  pose proof (load_and_schedule_beyond env true s) as Hb.
  destruct (_load_and_schedule env true s) as [s1 [[]|e]] eqn:Hrun;
    cbn [fst snd] in *.
  - split; [exact Hb |]. split; [exact Hw |]. left.
    destruct (load_and_schedule_ok env true s s1 Hrun)
      as [(Hf & _) | (fp & cfg & tz & Hfp & Hload & _ & Hr & Hfinger & _)];
      [discriminate Hf |].
    exists cfg. rewrite Hfinger. auto.
  - split; [exact Hb |]. split; [exact Hw |]. right. exists e.
    split; [reflexivity |]. split; [reflexivity |].
    pose proof (load_and_schedule_unchanged_on_raise env
                  (fun st => (rules st, fingerprint st)) true
                  (fun _ _ => eq_refl) (fun _ _ => eq_refl) s s1 e Hrun)
      as Hkeep.
    cbn in Hkeep. injection Hkeep as Hr Hf. auto.
Qed.

Section RunOnce.

Variable env : Env.

Lemma run_source_returns (source : SourceConfig) (s : State) :
  exists s' summary,
    run_source env source s = (s', Ok summary)
    /\ topology s' = topology s /\ context s' = context s
    /\ last_runs s' = <[id source := summary]> (last_runs s)
    /\ dict_get (py "source_id") summary = Some (JStr (id source)).
Proof.
  unfold run_source, bind at 1, utcnow.
  unfold bind at 1, log at 1, modify at 1.
  unfold bind at 1.
  match goal with
  | |- context [locked_section env source ?c ?s0] =>
      destruct (locked_section_outcome env source c s0)
        as (s2 & c' & -> & Ht & _)
  end.
  destruct (traffic_only_keeps _ _ Ht) as (Htop & Hctx & Hlast & _).
  unfold bind, utcnow, modify, log, ret. cbn -[model_dump].
  eexists. eexists. split; [reflexivity |].
  unfold topology, context in *. cbn -[model_dump] in *.
  rewrite Hlast. injection Htop as -> -> ->. injection Hctx as -> ->.
  do 3 (split; [reflexivity |]). reflexivity.
Qed.

Lemma run_each_returns (l : list SourceConfig) (s : State) :
  exists s' results,
    PulseApi.run_each env l s = (s', Ok results)
    /\ topology s' = topology s /\ context s' = context s
    /\ Forall2 summary_of l results
    /\ forall k, is_Some (last_runs s' !! k) <->
                 is_Some (last_runs s !! k)
                 \/ exists source, In source l /\ id source = k.
Proof.
  revert s. induction l as [|source l IH]; intros s; cbn [PulseApi.run_each].
  - exists s, []. unfold ret. do 3 (split; [reflexivity |]).
    split; [constructor |].
    intros k. split; [auto | intros [H | (x & [] & _)]; exact H].
  - unfold bind at 1.
    destruct (run_source_returns source s)
      as (s1 & summary & -> & Htop1 & Hctx1 & Hlast1 & Hsum).
    unfold bind at 1.
    destruct (IH s1) as (s2 & results & -> & Htop2 & Hctx2 & Hall & Hlast2).
    exists s2, (summary :: results). unfold ret.
    split; [reflexivity |]. split; [congruence |]. split; [congruence |].
    split; [constructor; assumption |].
    intros k. rewrite Hlast2, Hlast1, lookup_insert_is_Some. split.
    + intros [[Hk | [_ H]] | (x & Hx & Hk)].
      * right. exists source. split; [left; reflexivity | exact Hk].
      * left. exact H.
      * right. exists x. split; [right; exact Hx | exact Hk].
    + intros [H | (x & [<- | Hx] & Hk)].
      * destruct (decide (id source = k)) as [Heq | Hne]; [left; left; exact Heq |].
        left. right. split; assumption.
      * left. left. exact Hk.
      * right. exists x. split; assumption.
Qed.

End RunOnce.

(** X14: the three answers of [POST /run_once].  With no rules loaded it
    is status 500 and nothing runs.  With a non-empty [source_id] that
    no configured source bears it is status 404 and nothing runs.
    Otherwise the selected sources (all of them when [source_id] is
    absent or empty, else those bearing the id) are run in the order of
    the configuration, and the answer holds one summary per selected
    source, in that order; the run never ends in status 500, leaves the
    rules, the fingerprint, the job store and the trace context as they
    were, and gives every selected source a stored summary. *)
Theorem run_once_answers (env : Env) (source_id : option str) (s : State) :
  let reply := snd (PulseApi.run_once env source_id s) in
  let s' := fst (PulseApi.run_once env source_id s) in
  (rules s = None
   /\ reply = PulseApi.HTTPException 500 (Text (py "rules not loaded"))
   /\ s' = s)
  \/ (exists cfg wanted,
        rules s = Some cfg /\ source_id = Some wanted /\ wanted <> []
        /\ (forall source, In source (sources cfg) -> id source <> wanted)
        /\ reply = PulseApi.HTTPException 404
                     (Text (py "source " ++ wanted ++ py " not found"))
        /\ s' = s)
  \/ (exists cfg selected results,
        rules s = Some cfg
        /\ ((default [] source_id = [] /\ selected = sources cfg)
            \/ (default [] source_id <> [] /\ selected <> []
                /\ selected
                   = List.filter
                       (fun source => str_eqb (id source) (default [] source_id))
                       (sources cfg)))
        /\ reply = PulseApi.Replied results
        /\ Forall2 summary_of selected results
        /\ topology s' = topology s /\ context s' = context s
        /\ forall k, is_Some (last_runs s' !! k) <->
                     is_Some (last_runs s !! k)
                     \/ exists source, In source selected /\ id source = k).
Proof.
  cbv zeta. unfold PulseApi.run_once.
  destruct (rules s) as [cfg|] eqn:Hrules; [| left; auto].
  right.
  assert (forall selected,
            (default [] source_id = [] /\ selected = sources cfg)
            \/ (default [] source_id <> [] /\ selected <> []
                /\ selected
                   = List.filter
                       (fun source => str_eqb (id source) (default [] source_id))
                       (sources cfg)) ->
            let out :=
              match PulseApi.run_each env selected s with
              | (s', Ok results) => (s', PulseApi.Replied results)
              | (s', Raise e) =>
                  (s', PulseApi.HTTPException 500
                         (Text (py "Internal Server Error")))
              end in
            exists cfg0 selected0 results,
              Some cfg = Some cfg0
              /\ ((default [] source_id = [] /\ selected0 = sources cfg0)
                  \/ (default [] source_id <> [] /\ selected0 <> []
                      /\ selected0
                         = List.filter
                             (fun source =>
                                str_eqb (id source) (default [] source_id))
                             (sources cfg0)))
              /\ snd out = PulseApi.Replied results
              /\ Forall2 summary_of selected0 results
              /\ topology (fst out) = topology s
              /\ context (fst out) = context s
              /\ forall k, is_Some (last_runs (fst out) !! k) <->
                           is_Some (last_runs s !! k)
                           \/ exists source, In source selected0
                                             /\ id source = k) as Hruns.
  { intros selected Hsel. cbv zeta.
    destruct (run_each_returns env selected s)
      as (s' & results & -> & Htop & Hctx & Hall & Hlast).
    exists cfg, selected, results. cbn [fst snd]. auto 10. }
  destruct source_id as [[|c wanted]|]; cbn [from_option Datatypes.id] in *.
  - right. apply (Hruns (sources cfg)). left. auto.
  - destruct (List.filter (fun src => str_eqb (Models.id src) (c :: wanted))
                (sources cfg)) as [|x selected] eqn:Hfilter.
    + left. exists cfg, (c :: wanted).
      do 3 (split; [first [reflexivity | discriminate] |]).
      split; [| split; reflexivity].
      intros source Hin Heq.
      assert (In source (List.filter
                           (fun src => str_eqb (Models.id src) (c :: wanted))
                           (sources cfg))) as Hmem.
      { apply filter_In. split; [exact Hin |].
        apply bool_decide_eq_true. exact Heq. }
      rewrite Hfilter in Hmem. destruct Hmem.
    + right. apply (Hruns (x :: selected)). right.
      split; [discriminate |]. split; [discriminate |]. reflexivity.
  - right. apply (Hruns (sources cfg)). left. auto.
Qed.

(** ** The run lock is released *)

Section RunLockProgress.

Import RunLock.

Lemma holding_insert_ne (rs : list Run) (i0 i : nat) (r0 : Run) :
  i <> i0 -> holding rs i -> holding (<[i0 := r0]> rs) i.
Proof.
  intros Hne (r & Hr & Hp). exists r. split; [| exact Hp].
  rewrite list_lookup_insert_ne by congruence. exact Hr.
Qed.

Lemma step_keeps_owned (sys sys' : Sys) :
  lock_is_owned sys -> step sys sys' -> lock_is_owned sys'.
Proof.
  intros Howned Hstep.
  destruct Hstep as [sys source | sys i0 r Hr Hp Hlock | sys i0 r Hr Hp
                    | sys i0 r Hr Hp];
    unfold lock_is_owned; cbn [_run_lock runs].
  - intros Hl. destruct (Howned Hl) as (i & r & Hr & Hp).
    exists i, r. split; [| exact Hp].
    apply lookup_app_l_Some. exact Hr.
  - intros _. exists i0, (at_phase Holding r). split; [| reflexivity].
    apply list_lookup_insert_Some. left.
    split; [reflexivity |]. split; [reflexivity |].
    apply lookup_lt_Some in Hr. exact Hr.
  - discriminate.
  - intros Hl. destruct (Howned Hl) as (i & Hi). exists i.
    apply holding_insert_ne; [| exact Hi].
    intros ->. destruct Hi as (r' & Hr' & Hp'). congruence.
Qed.

Lemma reachable_owned (sys : Sys) : reachable sys -> lock_is_owned sys.
Proof.
  unfold reachable. revert sys.
  apply (rtc_ind_r (fun sys => lock_is_owned sys) initial).
  - discriminate.
  - intros sys sys' _ Hstep IH. apply (step_keeps_owned sys sys' IH Hstep).
Qed.

Lemma finalizing_can_return (sys : Sys) (i : nat) (r : Run) :
  runs sys !! i = Some r -> phase r = Finalizing ->
  exists sys', rtc step sys sys' /\ returned sys' i (run_of r).
Proof.
  intros Hr Hp. eexists. split.
  - apply rtc_once. exact (step_return sys i r Hr Hp).
  - unfold returned. cbn [runs]. apply list_lookup_insert_Some. left.
    split; [reflexivity |]. split; [reflexivity |].
    apply lookup_lt_Some in Hr. exact Hr.
Qed.

Lemma holding_can_return (sys : Sys) (i : nat) (r : Run) :
  runs sys !! i = Some r -> phase r = Holding ->
  exists sys', rtc step sys sys' /\ returned sys' i (run_of r).
Proof.
  intros Hr Hp.
  pose (sys1 := {| _run_lock := false;
                   runs := <[i := at_phase Finalizing r]> (runs sys) |}).
  destruct (finalizing_can_return sys1 i (at_phase Finalizing r))
    as (sys' & Hpath & Hret).
  { cbn [runs sys1]. apply list_lookup_insert_Some. left.
    split; [reflexivity |]. split; [reflexivity |].
    apply lookup_lt_Some in Hr. exact Hr. }
  { reflexivity. }
  exists sys'. split; [| exact Hret].
  apply (rtc_l step sys sys1); [exact (step_release sys i r Hr Hp) | exact Hpath].
Qed.

Lemma entered_can_return (sys : Sys) (i : nat) (r : Run) :
  _run_lock sys = false ->
  runs sys !! i = Some r -> phase r = Entered ->
  exists sys', rtc step sys sys' /\ returned sys' i (run_of r).
Proof.
  intros Hfree Hr Hp.
  pose (sys1 := {| _run_lock := true;
                   runs := <[i := at_phase Holding r]> (runs sys) |}).
  destruct (holding_can_return sys1 i (at_phase Holding r))
    as (sys' & Hpath & Hret).
  { cbn [runs sys1]. apply list_lookup_insert_Some. left.
    split; [reflexivity |]. split; [reflexivity |].
    apply lookup_lt_Some in Hr. exact Hr. }
  { reflexivity. }
  exists sys'. split; [| exact Hret].
  apply (rtc_l step sys sys1);
    [exact (step_acquire sys i r Hr Hp Hfree) | exact Hpath].
Qed.

End RunLockProgress.

(** X15: the run lock is never leaked and never blocks a run for good.
    In every reachable state the lock is held only while some run is in
    the locked region; and every run that has been started, whatever
    the others are doing, can go on to return: the state has a
    continuation in which that run, still of the same source, has
    returned. *)
Theorem every_run_can_return (sys : RunLock.Sys) (i : nat) (r : RunLock.Run) :
  RunLock.reachable sys ->
  RunLock.runs sys !! i = Some r ->
  (RunLock._run_lock sys = true ->
   exists j, RunLock.holding (RunLock.runs sys) j)
  /\ exists sys',
       rtc RunLock.step sys sys'
       /\ RunLock.runs sys' !! i
          = Some {| RunLock.run_of := RunLock.run_of r;
                    RunLock.phase := RunLock.Returned |}.
Proof.
  intros Hreach Hr.
  pose proof (reachable_owned sys Hreach) as Howned.
  split; [exact Howned |].
  destruct (RunLock.phase r) eqn:Hp.
  - destruct (RunLock._run_lock sys) eqn:Hl.
    + destruct (Howned Hl) as (j & rj & Hrj & Hpj).
      assert (i <> j) as Hne by congruence.
      pose (sys1 := {| RunLock._run_lock := false;
                       RunLock.runs :=
                         <[j := RunLock.at_phase RunLock.Finalizing rj]>
                           (RunLock.runs sys) |}).
      destruct (entered_can_return sys1 i r eq_refl) as (sys' & Hpath & Hret).
      { cbn [RunLock.runs sys1].
        rewrite list_lookup_insert_ne by congruence. exact Hr. }
      { exact Hp. }
      exists sys'. split; [| exact Hret].
      apply (rtc_l RunLock.step sys sys1);
        [exact (RunLock.step_release sys j rj Hrj Hpj) | exact Hpath].
    + apply (entered_can_return sys i r Hl Hr Hp).
  - apply (holding_can_return sys i r Hr Hp).
  - apply (finalizing_can_return sys i r Hr Hp).
  - exists sys. split; [apply rtc_refl |].
    rewrite Hr. destruct r as [source p]. cbn in Hp. subst p. reflexivity.
Qed.

(** X15, witness: the run of [blog] that waits while the run of [hn]
    holds the lock. *)
Lemma every_run_can_return_witness :
  RunLock.reachable RunLock.hn_holds
  /\ (RunLock._run_lock RunLock.hn_holds = true ->
      exists j, RunLock.holding (RunLock.runs RunLock.hn_holds) j)
  /\ exists sys',
       rtc RunLock.step RunLock.hn_holds sys'
       /\ RunLock.runs sys' !! 1%nat
          = Some {| RunLock.run_of := py "blog";
                    RunLock.phase := RunLock.Returned |}.
Proof.
  split; [exact hn_holds_reachable |].
  exact (every_run_can_return RunLock.hn_holds 1
           {| RunLock.run_of := py "blog"; RunLock.phase := RunLock.Entered |}
           hn_holds_reachable eq_refl).
Defined.

(** ** Retried requests and identifiers *)

(** X16: [post_json] makes between one and three attempts and stops at
    the first that is answered.  Every attempt leaves with the trace
    headers in force at the call, the collaborator answering attempt
    [i + 1] has seen the [i] attempts before it, the attempts before
    the last were all refused, and the outcome of the call is the
    outcome of its last attempt: an answer, or, after three attempts,
    the third error.  Nothing but the list of requests sent changes. *)
Theorem post_json_retries {A} (reply : list Sent -> result A) (req : Request)
    (s : State) :
  exists n : nat,
    (n <= 2)%nat
    /\ fst (post_json reply req s)
       = set_sent (sent s ++ repeat (stamped req s) (S n)) s
    /\ snd (post_json reply req s)
       = reply (sent s ++ repeat (stamped req s) n)
    /\ (forall i, (i < n)%nat ->
          is_ok (reply (sent s ++ repeat (stamped req s) i)) = false)
    /\ ((n < 2)%nat -> is_ok (snd (post_json reply req s)) = true).
Proof.
  unfold post_json, try_except, attempt.
  destruct (reply (sent s)) as [a|e1] eqn:H1.
  - exists 0%nat. cbn [fst snd repeat]. rewrite app_nil_r, H1.
    split; [lia |]. do 2 (split; [reflexivity |]).
    split; [intros i Hi; lia | reflexivity].
  - cbn [sent set_sent].
    destruct (reply (sent s ++ [stamped req s])) as [a|e2] eqn:H2.
    + exists 1%nat. cbn [fst snd repeat]. rewrite H2, <- app_assoc.
      split; [lia |]. do 2 (split; [reflexivity |]).
      split; [| reflexivity].
      intros i Hi. assert (i = 0%nat) as -> by lia.
      cbn [repeat]. rewrite app_nil_r, H1. reflexivity.
    + exists 2%nat. cbn [fst snd sent set_sent repeat].
      rewrite <- !app_assoc.
      split; [lia |]. do 2 (split; [reflexivity |]).
      split; [| intros Hn; lia].
      intros i Hi.
      assert (i = 0%nat \/ i = 1%nat) as [-> | ->] by lia; cbn [repeat].
      * rewrite app_nil_r, H1. reflexivity.
      * rewrite H2. reflexivity.
Qed.

Lemma filter_all {A} (f : A -> bool) (l : list A) :
  Forall (fun x => f x = true) l -> List.filter f l = l.
Proof.
  induction 1 as [|x l Hx _ IH]; cbn [List.filter]; [reflexivity |].
  rewrite Hx, IH. reflexivity.
Qed.

Lemma filter_sublist {A} (f : A -> bool) (l : list A) :
  sublist (List.filter f l) l.
Proof.
  induction l as [|x l IH]; cbn [List.filter]; [constructor |].
  destruct (f x); [apply sublist_skip | apply sublist_cons]; exact IH.
Qed.

(** X17: [_normalize_id] drops every character outside [[a-zA-Z0-9_-]]
    and keeps the first 64 of the rest.  Its result is the fallback,
    returned as given (it is not normalised itself) exactly when no
    character is kept, or else a non-empty valid id whose characters
    are characters of the value, in their order.  A non-empty valid id
    is left as it is, so that normalising twice is normalising once. *)
Theorem normalize_id_is_a_projection (value : option str) (fallback : str) :
  let kept := firstn 64 (List.filter is_id_char (default [] value)) in
  (kept = [] /\ _normalize_id value fallback = fallback
   \/ kept <> [] /\ _normalize_id value fallback = kept)
  /\ valid_id kept /\ sublist kept (default [] value)
  /\ (forall v, valid_id v -> v <> [] -> _normalize_id (Some v) fallback = v)
  /\ _normalize_id (Some (_normalize_id value [])) [] = _normalize_id value [].
Proof.
  cbv zeta.
  assert (forall v fb, valid_id v -> v <> [] -> _normalize_id (Some v) fb = v)
    as Hfix.
  { intros v fb [Hlen Hchars] Hne. unfold _normalize_id.
    cbn [from_option Datatypes.id].
    rewrite (filter_all _ _ Hchars), firstn_all2 by exact Hlen.
    destruct v; [contradiction | reflexivity]. }
  assert (valid_id (firstn 64 (List.filter is_id_char (default [] value))))
    as Hvalid
    by (split; [apply firstn_le_length | apply Forall_take, filter_id_chars]).
  split; [| split; [exact Hvalid | split; [| split; [intros v; apply Hfix |]]]].
  - unfold _normalize_id.
    destruct (firstn 64 (List.filter is_id_char (default [] value)));
      [left; auto | right; split; [discriminate | reflexivity]].
  - etransitivity; [apply sublist_take | apply filter_sublist].
  - unfold _normalize_id at 2 3.
    destruct (firstn 64 (List.filter is_id_char (default [] value)))
      as [|c kept] eqn:Hkept; [reflexivity |].
    apply Hfix; [exact Hvalid | discriminate].
Qed.

(** ** What the counters stand for *)

Section Replies.

Variable env : Env.
Variable source : SourceConfig.

Lemma post_json_outcome {A} (reply : list Sent -> result A) (req : Request)
    (s : State) :
  exists v,
    post_json reply req s = (set_sent v s, snd (post_json reply req s))
    /\ sent s `prefix_of` v
    /\ answered reply (sent s) (snd (post_json reply req s)).
Proof.
  unfold post_json, try_except, attempt, answered.
  destruct (reply (sent s)) as [a|e1] eqn:H1.
  - eexists. split; [reflexivity |]. split; [apply prefix_app_r; reflexivity |].
    exists (sent s). split; [reflexivity | exact H1].
  - cbn [sent set_sent].
    destruct (reply (sent s ++ [stamped req s])) as [a|e2] eqn:H2.
    + eexists. split; [reflexivity |].
      split; [rewrite <- app_assoc; apply prefix_app_r; reflexivity |].
      eexists. split; [| exact H2]. apply prefix_app_r. reflexivity.
    + eexists. split; [reflexivity |].
      split; [rewrite <- !app_assoc; apply prefix_app_r; reflexivity |].
      eexists. split; [| reflexivity]. cbn [fst snd sent set_sent].
      rewrite <- app_assoc. apply prefix_app_r. reflexivity.
Qed.

Lemma answered_later {A} (reply : list Sent -> result A)
    (since later : list Sent) (r : result A) :
  since `prefix_of` later -> answered reply later r -> answered reply since r.
Proof.
  intros Hpre (h & Hh & Hr). exists h. split; [| exact Hr].
  etransitivity; eassumption.
Qed.

Lemma item_body_outcome (item : NormalizedItem) (trace_id : str)
    (counters : Counters) (s : State) :
  exists v r,
    item_body env source item trace_id counters s = (set_sent v s, r)
    /\ item_verdict env source item
         (make_content_pack s source item trace_id) counters (sent s) r.
Proof.
  unfold item_body, bind at 1, item_verdict. cbv zeta.
  destruct (post_json_outcome
              (fun before => hippocampus_check_duplicate env before (url_hash item))
              (ReqCheckDuplicate (url_hash item)) s) as (v1 & -> & Hv1 & Hcheck).
  destruct (snd (post_json _ (ReqCheckDuplicate (url_hash item)) s))
    as [[|]|e].
  - exists v1. eexists. split; [reflexivity |]. left. auto.
  - unfold bind at 1, get_state.
    change (make_content_pack (set_sent v1 s) source item trace_id)
      with (make_content_pack s source item trace_id).
    set (pack := make_content_pack s source item trace_id).
    destruct (_is_high_value_signal item) eqn:Hhigh; cbn [negb].
    2:{ exists v1. eexists. split; [reflexivity |]. right. left. auto. }
    unfold bind at 1.
    destruct (post_json_outcome
                (fun before => archivist_archive env before pack)
                (ReqArchive pack) (set_sent v1 s)) as (v2 & -> & Hv2 & Harchive).
    cbn [sent set_sent] in Hv2, Harchive.
    apply (answered_later _ _ _ _ Hv1) in Harchive.
    destruct (snd (post_json _ (ReqArchive pack) (set_sent v1 s)))
      as [archived|e].
    + unfold bind at 1.
      destruct (post_json_outcome
                  (fun before =>
                     hippocampus_remember env before
                       (make_remember source item archived))
                  (ReqRemember (make_remember source item archived))
                  (set_sent v2 (set_sent v1 s))) as (v3 & -> & Hv3 & Hrem).
      cbn [sent set_sent] in Hv3, Hrem.
      apply (answered_later _ _ _ _ Hv2), (answered_later _ _ _ _ Hv1) in Hrem.
      destruct (snd (post_json _ (ReqRemember _) (set_sent v2 (set_sent v1 s))))
        as [[]|e].
      * exists v3. eexists. split; [reflexivity |].
        right. right. left. eauto 10.
      * exists v3. eexists. split; [reflexivity |].
        right. right. right. exists e. split; [reflexivity |].
        right. eauto 10.
    + exists v2. eexists. split; [reflexivity |].
      right. right. right. exists e. split; [reflexivity |]. right. auto.
  - exists v1. eexists. split; [reflexivity |].
    right. right. right. exists e. auto.
Qed.

End Replies.

(** X18: every count stands for answers the collaborators gave.  One
    iteration of the item loop ends in one of four ways.  The item is
    counted as duplicated, the memory service having answered that it
    is one; as filtered, the service having answered that it is new and
    the item being of low value; as processed, the item being new and
    of high value, the archive service having answered the content pack
    and the memory service having acknowledged the remember request
    built from that answer; or as failed, one of these three calls
    having ended in the error that is then logged.  Nothing is logged in
    the first three cases. *)
Theorem counters_reflect_replies (env : Env) (source : SourceConfig)
    (counters : Counters) (item : NormalizedItem) (s : State) :
  exists r,
    item_verdict env source item
      (make_content_pack s source item (trace_id_of source item))
      counters (sent s) r
    /\ snd (process_item env source counters item s)
       = match r with
         | Ok counters' => Ok counters'
         | Raise _ => Ok (incr_failed counters)
         end
    /\ logged (fst (process_item env source counters item s))
       = match r with
         | Ok _ => logged s
         | Raise e => logged s ++ [item_failure_record source e s]
         end.
Proof.
  destruct (item_body_outcome env source item (trace_id_of source item) counters
              (bound (Some (trace_id_of source item)) None s))
    as (v & r & Hbody & Hverdict).
  exists r. split; [exact Hverdict |].
  destruct r as [c'|e].
  - rewrite (process_item_of_body env source counters c' item s v Hbody).
    split; reflexivity.
  - unfold process_item, try_except.
    rewrite bind_log_context_unfold, Hbody.
    cbn [fst snd bound sent set_TRACE_ID]. rewrite leave_binding.
    unfold bind, log, modify, ret, item_failure_record. split; reflexivity.
Qed.

(** ** When a reload succeeds *)

Lemma for_each_no_fail {A} (plan : A -> Plan) (l : list A) (s : State) :
  (forall x e, In x l -> plan x <> Fail e) ->
  snd (for_each l (fun x => carry_out (plan x)) s) = Ok tt.
Proof.
  revert s. induction l as [|x l IH]; intros s Hok; cbn [for_each];
    [reflexivity |].
  unfold bind at 1.
  destruct (plan x) as [|k j|e] eqn:Hplan; cbn [carry_out].
  - unfold ret. apply IH. intros y e Hy. apply Hok. right. exact Hy.
  - unfold add_job, modify. apply IH. intros y e Hy. apply Hok. right. exact Hy.
  - destruct (Hok x e (or_introl eq_refl) Hplan).
Qed.

Lemma schedulable_plans (env : Env) (tz : ZoneInfo) (cfg : RulesConfig) :
  schedulable env tz cfg <->
  (forall source e, In source (sources cfg) ->
                    source_plan env tz source <> Fail e)
  /\ (forall entry e, In entry (platforms cfg) ->
                      platform_plan tz entry <> Fail e).
Proof.
  unfold schedulable. rewrite !List.Forall_forall. split.
  - intros [Hsources Hplatforms]. split.
    + intros source e Hin.
      destruct (Hsources source Hin) as (seconds & Hs & Hdays & Hfar).
      unfold source_plan, interval_trigger. rewrite Hs.
      replace (timedelta_max_days <? seconds / 86400) with false by lia.
      replace (horizon env tz <? interval_length seconds) with false by lia.
      discriminate.
    + intros [name policy] e Hin. specialize (Hplatforms _ Hin).
      cbn [snd] in Hplatforms. unfold platform_plan.
      destruct (enabled policy); cbn [negb orb]; [| discriminate].
      destruct (schedule policy) as [[|c raw]|]; cbn [truthy negb];
        try discriminate.
      destruct (Hplatforms eq_refl (c :: raw) eq_refl)
        as (hour & minute & Hhm & Hh & Hm); [discriminate |].
      change (default [] (Some (c :: raw))) with (c :: raw).
      rewrite Hhm. cbn [fst snd]. unfold cron_trigger.
      replace ((0 <=? hour) && (hour <=? 23)) with true by lia.
      replace ((0 <=? minute) && (minute <=? 59)) with true by lia.
      discriminate.
  - intros [Hsources Hplatforms]. split.
    + intros source Hin. specialize (Hsources source).
      unfold source_plan, interval_trigger in Hsources.
      destruct (interval_to_seconds (fetch_interval source)) as [seconds|e];
        [| destruct (Hsources e Hin eq_refl)].
      destruct (timedelta_max_days <? seconds / 86400) eqn:Hdays;
        [destruct (Hsources _ Hin eq_refl) |].
      destruct (horizon env tz <? interval_length seconds) eqn:Hfar;
        [destruct (Hsources _ Hin eq_refl) |].
      exists seconds. split; [reflexivity | lia].
    + intros [name policy] Hin Hen raw Hraw Hne. cbn [snd] in *.
      specialize (Hplatforms (name, policy)).
      unfold platform_plan in Hplatforms. rewrite Hen, Hraw in Hplatforms.
      destruct raw as [|c raw]; [contradiction |].
      cbn [negb orb truthy] in Hplatforms.
      change (default [] (Some (c :: raw))) with (c :: raw) in Hplatforms.
      destruct (_parse_schedule_hhmm (c :: raw)) as [[hour minute]|e];
        [| destruct (Hplatforms e Hin eq_refl)].
      cbn [fst snd] in Hplatforms. unfold cron_trigger in Hplatforms.
      destruct ((0 <=? hour) && (hour <=? 23)) eqn:Hhour;
        cbn [negb] in Hplatforms; [| destruct (Hplatforms _ Hin eq_refl)].
      destruct ((0 <=? minute) && (minute <=? 59)) eqn:Hminute;
        cbn [negb] in Hplatforms; [| destruct (Hplatforms _ Hin eq_refl)].
      exists hour, minute. split; [reflexivity | lia].
Qed.

Lemma load_and_schedule_returns (env : Env) (s : State) (raw : list byte)
    (cfg : RulesConfig) (tz : ZoneInfo) :
  read_bytes env RULES_PATH = Ok raw ->
  parse_rules env raw = Ok cfg ->
  zone_info env (timezone (global_config cfg)) = Ok tz ->
  schedulable env tz cfg ->
  is_ok (snd (_load_and_schedule env true s)) = true.
Proof.
  intros Hread Hparse Hzone Hvalid.
  apply (schedulable_plans env tz) in Hvalid as [Hsources Hplatforms].
  assert (rules_fingerprint env RULES_PATH
          = Ok (Hashlib.hexdigest (Hashlib.sha256 raw))) as Hfp
    by (unfold rules_fingerprint; rewrite Hread; reflexivity).
  assert (load_rules env RULES_PATH = Ok cfg) as Hload
    by (unfold load_rules; rewrite Hread; exact Hparse).
  unfold _load_and_schedule, bind at 1, lift.
  rewrite Hfp. cbn [negb andb].
  unfold bind at 1, get_state. unfold bind at 1. rewrite Hload.
  unfold bind at 1. rewrite Hzone.
  unfold bind at 1.
  destruct (_clear_runtime_jobs s) as [s1 r1] eqn:Hclear.
  assert (r1 = Ok tt) as ->
    by (unfold _clear_runtime_jobs, modify in Hclear; congruence).
  unfold bind at 1.
  rewrite (for_each_ext _ _ (fun x => carry_out (source_plan env tz x)) s1
             (source_body_plan env tz)).
  pose proof (for_each_no_fail (source_plan env tz)
                (sorted_by_weight (sources cfg)) s1) as Hrun2.
  destruct (for_each (sorted_by_weight (sources cfg))
              (fun x => carry_out (source_plan env tz x)) s1) as [s2 r2].
  cbn [snd] in Hrun2. rewrite Hrun2.
  2:{ intros source e Hin. apply Hsources.
      eapply Permutation_in; [apply sorted_by_weight_perm | exact Hin]. }
  unfold bind at 1.
  rewrite (for_each_ext _ _ (fun x => carry_out (platform_plan tz x)) s2
             (platform_body_plan tz)).
  pose proof (for_each_no_fail (platform_plan tz) (platforms cfg) s2
                Hplatforms) as Hrun3.
  destruct (for_each (platforms cfg)
              (fun x => carry_out (platform_plan tz x)) s2) as [s3 r3].
  cbn [snd] in Hrun3. rewrite Hrun3.
  reflexivity.
Qed.


(** ** The traffic of a run *)

Section Traffic.

Variable env : Env.
Variable source : SourceConfig.

Lemma make_content_pack_rules (s s' : State) (item : NormalizedItem)
    (trace_id : str) :
  rules s' = rules s ->
  make_content_pack s' source item trace_id
  = make_content_pack s source item trace_id.
Proof.
  intros H. unfold make_content_pack, platform_strategy. rewrite H.
  reflexivity.
Qed.

Lemma item_by_item_rules (s s' : State) (items : list NormalizedItem)
    (per_item : list (list Request)) :
  rules s' = rules s ->
  item_by_item s' source items per_item -> item_by_item s source items per_item.
Proof.
  intros H Hall. unfold item_by_item in *.
  eapply Forall2_impl; [exact Hall |].
  intros item reqs (c & r & Hrun). exists c, r.
  rewrite <- (make_content_pack_rules s s' item _ H). exact Hrun.
Qed.

Lemma process_items_traffic (items : list NormalizedItem) (c : Counters)
    (s : State) :
  exists more per_item,
    sent (fst (process_items env source c items s)) = sent s ++ more
    /\ map request more = concat per_item
    /\ item_by_item s source items per_item.
Proof.
  revert c s. induction items as [|item items IH]; intros c s.
  - exists [], []. cbn [process_items]. unfold ret. cbn [fst].
    split; [rewrite app_nil_r; reflexivity |].
    split; [reflexivity | constructor].
  - cbn [process_items]. unfold bind.
    destruct (process_item_runs env source c item s)
      as (reqs & r & Hrun & Hitem).
    cbv zeta in Hitem.
    set (inside := bound (Some (trace_id_of source item)) None s) in *.
    assert (exists s1 c1,
              process_item env source c item s = (s1, Ok c1)
              /\ sent s1 = sent s ++ map (fun q => stamped q inside) reqs
              /\ rules s1 = rules s) as (s1 & c1 & -> & Hsent1 & Hrules1).
    { rewrite Hitem. destruct r as [c1|e]; eexists; eexists;
        (split; [reflexivity |]); split; reflexivity. }
    destruct (IH c1 s1) as (more & per_item & Hsent & Hreqs & Hall).
    exists (map (fun q => stamped q inside) reqs ++ more), (reqs :: per_item).
    split; [rewrite Hsent, Hsent1, app_assoc; reflexivity |].
    split.
    + rewrite map_app, map_map, Hreqs. cbn [concat request stamped].
      rewrite map_id. reflexivity.
    + constructor; [exists c, r; exact Hrun |].
      apply (item_by_item_rules s s1 _ _ Hrules1 Hall).
Qed.

(** The locked section: the scan, attempted up to three times, then the
    items of its answer one after the other. *)
Lemma locked_section_traffic (c : Counters) (s : State) :
  exists s' c' more n rest,
    locked_section env source c s = (s', Ok c')
    /\ sent s' = sent s ++ more
    /\ map request more = repeat (ReqScan source) (S n) ++ rest
    /\ (n <= 2)%nat
    /\ ((rest = [] /\ c' = incr_failed c)
        \/ exists items per_item,
             cnt_scanned c' = Z.of_nat (length items)
             /\ rest = concat per_item
             /\ item_by_item s source items per_item).
Proof.
  unfold locked_section, try_except, bind at 1.
  destruct (post_json_frame (fun before => sentry_scan env before source)
              (ReqScan source) s) as (n & r & -> & Hn).
  rewrite repeat_stamped.
  set (s0 := set_sent _ s).
  destruct r as [items|e].
  - destruct (process_items_steps env source items
                (set_scanned (Z.of_nat (length items)) c) s0)
      as (s' & c' & Hrun & _ & Ha).
    destruct (process_items_traffic items
                (set_scanned (Z.of_nat (length items)) c) s0)
      as (more & per_item & Hsent & Hreqs & Hall).
    rewrite Hrun in Hsent |- *. cbn [fst] in Hsent.
    exists s', c', (map (fun q => stamped q s) (repeat (ReqScan source) (S n))
                    ++ more), n, (concat per_item).
    split; [reflexivity |].
    split; [rewrite Hsent; subst s0; cbn [sent set_sent];
            rewrite app_assoc; reflexivity |].
    split.
    { rewrite map_app, map_map, Hreqs. cbn [request stamped].
      rewrite map_id. reflexivity. }
    split; [exact Hn |].
    right. exists items, per_item.
    split; [destruct Ha as [Hsc _]; exact Hsc |].
    split; [reflexivity |].
    apply (item_by_item_rules s s0 _ _ eq_refl Hall).
  - unfold bind, log, modify, ret.
    eexists. exists (incr_failed c).
    exists (map (fun q => stamped q s) (repeat (ReqScan source) (S n))), n, [].
    split; [reflexivity |].
    split; [reflexivity |].
    split.
    { rewrite map_map, app_nil_r. cbn [request stamped].
      rewrite map_id. reflexivity. }
    split; [exact Hn |]. left. auto.
Qed.

End Traffic.


(** ** A reload starts from scratch *)

(** Whether a forced reload returns is a matter of the file, not of the
    engine. *)
Lemma reload_ok_anywhere (env : Env) (s t : State) :
  is_ok (snd (_load_and_schedule env true s)) = true ->
  is_ok (snd (_load_and_schedule env true t)) = true.
Proof.
  destruct (_load_and_schedule env true s) as [s' [[]|e]] eqn:Hrun;
    [intros _ | discriminate].
  destruct (load_and_schedule_ok env true s s' Hrun)
    as [(Hf & _) | (fp & cfg & tz & _ & Hload & Hzone & _ & _ & _ & _
                    & _ & _ & _ & _ & Hplatforms & _ & Hsources)];
    [discriminate Hf |].
  unfold load_rules in Hload.
  destruct (read_bytes env RULES_PATH) as [raw|e] eqn:Hread;
    [| discriminate Hload].
  apply (load_and_schedule_returns env t raw cfg tz Hread Hload Hzone).
  apply (schedulable_plans env tz). split; assumption.
Qed.

Lemma reload_topology (env : Env) (s s' : State) :
  _load_and_schedule env true s = (s', Ok tt) ->
  exists fp cfg tz,
    rules_fingerprint env RULES_PATH = Ok fp
    /\ load_rules env RULES_PATH = Ok cfg
    /\ zone_info env (timezone (global_config cfg)) = Ok tz
    /\ topology s' = (Some cfg, fp, topology_of env cfg tz (watcher_entry s)).
Proof.
  intros Hrun.
  destruct (load_and_schedule_ok env true s s' Hrun)
    as [(Hf & _) | (fp & cfg & tz & Hfp & Hload & Hzone & Hr & Hfinger & _ & _
                    & _ & _ & _ & _ & _ & Hjobs & _)];
    [discriminate Hf |].
  exists fp, cfg, tz. unfold topology. rewrite Hr, Hfinger, Hjobs. auto.
Qed.

(** X21: a reload starts from scratch.  The rules, the fingerprint and
    the job store a forced reload leaves are determined by the file and
    by the watcher's entry alone: another engine with the same watcher
    entry, whatever else it had scheduled, is left with the same ones
    by a reload of the same file.  In particular a second forced reload
    returns too and leaves the rules, the fingerprint and the job store
    of the first, with jobs and all. *)
Theorem reload_starts_from_scratch (env : Env) (s s' : State) :
  _load_and_schedule env true s = (s', Ok tt) ->
  (forall t t',
     _load_and_schedule env true t = (t', Ok tt) ->
     watcher_entry t = watcher_entry s ->
     topology t' = topology s')
  /\ exists s'',
       _load_and_schedule env true s' = (s'', Ok tt)
       /\ topology s'' = topology s'
       /\ beyond_reload s'' = beyond_reload s'.
Proof.
  intros Hrun.
  destruct (reload_topology env s s' Hrun)
    as (fp & cfg & tz & Hfp & Hload & Hzone & Htop).
  assert (forall t t',
            _load_and_schedule env true t = (t', Ok tt) ->
            watcher_entry t = watcher_entry s ->
            topology t' = topology s') as Hsame.
  { intros t t' Hrun' Hw.
    destruct (reload_topology env t t' Hrun')
      as (fp' & cfg' & tz' & Hfp' & Hload' & Hzone' & Htop').
    rewrite Hfp in Hfp'. injection Hfp' as <-.
    rewrite Hload in Hload'. injection Hload' as <-.
    rewrite Hzone in Hzone'. injection Hzone' as <-.
    rewrite Htop, Htop', Hw. reflexivity. }
  split; [exact Hsame |].
  assert (is_ok (snd (_load_and_schedule env true s')) = true) as Hok
    by (apply (reload_ok_anywhere env s s'); rewrite Hrun; reflexivity).
  pose proof (load_and_schedule_beyond env true s') as Hb.
  pose proof (load_and_schedule_keeps_watcher env true s) as Hw.
  rewrite Hrun in Hw. cbn [fst] in Hw.
  destruct (_load_and_schedule env true s') as [s'' [[]|e]] eqn:Hrun';
    [| discriminate Hok].
  exists s''. split; [reflexivity |]. split; [| exact Hb].
  apply (Hsame s' s'' Hrun' Hw).
Qed.

(** X21, witness: the first load of the scenario's file, against the
    load of an engine that had a stale job scheduled. *)
Lemma reload_starts_from_scratch_witness :
  let stale := set_jobs {[py "source::gone" := watcher_job]} init_state in
  let s' := fst (_load_and_schedule Scenario.env true init_state) in
  let t' := fst (_load_and_schedule Scenario.env true stale) in
  _load_and_schedule Scenario.env true init_state = (s', Ok tt)
  /\ _load_and_schedule Scenario.env true stale = (t', Ok tt)
  /\ watcher_entry stale = watcher_entry init_state
  /\ topology t' = topology s'
  /\ exists s'',
       _load_and_schedule Scenario.env true s' = (s'', Ok tt)
       /\ topology s'' = topology s'
       /\ beyond_reload s'' = beyond_reload s'.
Proof.
  cbv zeta.
  set (stale := set_jobs {[py "source::gone" := watcher_job]} init_state).
  assert (snd (_load_and_schedule Scenario.env true init_state) = Ok tt) as Hs
    by (vm_compute; reflexivity).
  assert (snd (_load_and_schedule Scenario.env true stale) = Ok tt) as Ht
    by (vm_compute; reflexivity).
  assert (watcher_entry stale = watcher_entry init_state) as Hw
    by (vm_compute; reflexivity).
  destruct (_load_and_schedule Scenario.env true init_state) as [s' rs] eqn:Hruns.
  destruct (_load_and_schedule Scenario.env true stale) as [t' rt] eqn:Hrunt.
  cbn [fst snd] in *. subst rs rt.
  destruct (reload_starts_from_scratch Scenario.env init_state s' Hruns)
    as [Hsame Hagain].
  split; [reflexivity |]. split; [reflexivity |]. split; [exact Hw |].
  split; [exact (Hsame stale t' Hrunt Hw) | exact Hagain].
Defined.
